(** * bandcamper: acquisition-and-organization pipeline

    A shallow embedding of [bandcamper/bandcamper.py] and
    [bandcamper/metadata/bandcamp_writer.py].

    Conventions of the embedding.
    - Python [str] values are [string]s whose characters are code points
      below 256; letters, digits and white space are the ASCII ones (plus the
      two Latin-1 blanks), every other character is an inert symbol.
    - Python [int] values are [Z].
    - Exceptions are an explicit [outcome]; the console ([Screamer]) and every
      call that leaves the process (HTTP, mailbox, file system) is recorded in
      an explicit [state].
    - Parsers of foreign formats (BeautifulSoup, [json], [urllib.parse],
      [pathvalidate]) are collaborators: they appear as [Variable]s of the
      section that uses them, and a page is represented by what the selectors
      of the code find in it. *)

From Stdlib Require Import ZArith Ascii String List Bool Lia DecimalString.
From stdpp Require Import base option list strings gmap.
From Equations Require Import Equations.

Local Open Scope string_scope.
Local Open Scope Z_scope.

(** ** Python string methods *)

Module Str.

Definition chars (s : string) : list ascii := list_ascii_of_string s.
Definition of_chars (l : list ascii) : string := string_of_list_ascii l.

Definition code (c : ascii) : N := N_of_ascii c.

Definition in_range (lo hi : ascii) (c : ascii) : bool :=
  ((code lo <=? code c) && (code c <=? code hi))%N.

Definition is_digit (c : ascii) : bool := in_range "0" "9" c.
Definition is_lower (c : ascii) : bool := in_range "a" "z" c.
Definition is_upper (c : ascii) : bool := in_range "A" "Z" c.
Definition is_alpha (c : ascii) : bool := is_lower c || is_upper c.
Definition is_alnum (c : ascii) : bool := is_alpha c || is_digit c.

(** [str.isspace] on one character: TAB, LF, VT, FF, CR, FS, GS, RS, US,
    SPACE, NEL and NBSP. *)
Definition is_space (c : ascii) : bool :=
  let n := code c in
  ((9 <=? n) && (n <=? 13) || (28 <=? n) && (n <=? 32) || (n =? 133) || (n =? 160))%N.

(** [\w] of [re]: letters, digits and the underscore. *)
Definition is_word (c : ascii) : bool := is_alnum c || Ascii.eqb c "_".

Definition lower_char (c : ascii) : ascii :=
  if is_upper c then ascii_of_N (code c + 32) else c.
Definition upper_char (c : ascii) : ascii :=
  if is_lower c then ascii_of_N (code c - 32) else c.

(** [s.lower()] *)
Definition lower (s : string) : string := of_chars (map lower_char (chars s)).

(** [s.isdigit()]: non-empty and made of digits. *)
Definition isdigit (s : string) : bool :=
  match chars s with
  | [] => false
  | l => forallb is_digit l
  end.

(** [len(s)] *)
Definition len (s : string) : Z := Z.of_nat (String.length s).

Definition digit_value (c : ascii) : Z := Z.of_N (code c - 48).

(** [int(s)] for a string of digits. *)
Definition int (s : string) : Z :=
  fold_left (fun acc c => 10 * acc + digit_value c) (chars s) 0.

(** [str(n)] *)
Definition of_int (n : Z) : string := NilZero.string_of_int (Z.to_int n).

(** [f"{n:02d}"]: sign-aware zero padding to width 2. *)
Definition format_02d (n : Z) : string :=
  if (0 <=? n) && (n <? 10) then "0" +:+ of_int n else of_int n.

(** [needle in s] *)
Fixpoint contains (needle s : string) : bool :=
  String.prefix needle s ||
  match s with
  | EmptyString => false
  | String _ s' => contains needle s'
  end.

(** [c in s] for a single character. *)
Definition has_char (c : ascii) (s : string) : bool :=
  existsb (Ascii.eqb c) (chars s).

(** [s.replace(old, new)] for a non-empty [old]: left to right, without
    overlap.  The fuel is the length of [s]; every step consumes a character. *)
Fixpoint replace_go (fuel : nat) (old new s : string) : string :=
  match fuel with
  | O => s
  | S fuel' =>
    if String.prefix old s
    then new +:+ replace_go fuel' old new
                   (String.substring (String.length old)
                      (String.length s - String.length old) s)
    else match s with
         | EmptyString => EmptyString
         | String c s' => String c (replace_go fuel' old new s')
         end
  end.

Definition replace (old new s : string) : string :=
  replace_go (String.length s) old new s.

(** [s.strip(cs)]: drop leading and trailing characters satisfying [p]. *)
Fixpoint lstrip_chars (p : ascii -> bool) (l : list ascii) : list ascii :=
  match l with
  | c :: l' => if p c then lstrip_chars p l' else l
  | [] => []
  end.

Definition strip_with (p : ascii -> bool) (s : string) : string :=
  of_chars (rev (lstrip_chars p (rev (lstrip_chars p (chars s))))).

(** [s.strip()] *)
Definition strip (s : string) : string := strip_with is_space s.

(** [s.strip("/ ")] *)
Definition strip_slash_space (s : string) : string :=
  strip_with (fun c => Ascii.eqb c "/" || Ascii.eqb c " ") s.

(** Splitting at the characters satisfying [p], dropping empty pieces.
    [cur] is the piece being read, reversed. *)
Fixpoint fields_go (p : ascii -> bool) (cur : list ascii) (l : list ascii)
  : list string :=
  let flush rest := match cur with [] => rest | _ => of_chars (rev cur) :: rest end in
  match l with
  | [] => flush []
  | c :: l' => if p c then flush (fields_go p [] l')
               else fields_go p (c :: cur) l'
  end.

(** [s.split()] *)
Definition split (s : string) : list string := fields_go is_space [] (chars s).

(** [s.split(sep)] for a one-character separator: empty pieces are kept. *)
Fixpoint split_on_go (sep : ascii) (cur : list ascii) (l : list ascii)
  : list string :=
  match l with
  | [] => [of_chars (rev cur)]
  | c :: l' => if Ascii.eqb c sep then of_chars (rev cur) :: split_on_go sep [] l'
               else split_on_go sep (c :: cur) l'
  end.

Definition split_on (sep : ascii) (s : string) : list string :=
  split_on_go sep [] (chars s).

(** [sep.join(parts)] *)
Fixpoint join (sep : string) (parts : list string) : string :=
  match parts with
  | [] => ""
  | [p] => p
  | p :: rest => p +:+ sep +:+ join sep rest
  end.

(** [s[:n]] *)
Definition take (n : nat) (s : string) : string := String.substring 0 n s.

(** [s.endswith(suffix)] *)
Definition endswith (suffix s : string) : bool :=
  let n := String.length s in
  let k := String.length suffix in
  (k <=? n)%nat && String.eqb (String.substring (n - k) k s) suffix.

End Str.

(** ** The fragment of Python's [re] that the program uses

    A backtracking matcher with the semantics of [re]: alternatives are tried
    left to right, quantifiers are greedy, groups capture the text of their
    last iteration. *)

Module Re.

Inductive regex :=
| Eps                          (* the empty pattern *)
| Cls (p : ascii -> bool)      (* one character of a class *)
| Cat (r1 r2 : regex)          (* r1 r2 *)
| Alt (r1 r2 : regex)          (* r1|r2 *)
| Star (r : regex)             (* r*, greedy *)
| Grp (n : nat) (r : regex)    (* capturing group number n *)
| Eol                          (* $ *)
| WordB.                       (* \b *)

(** Derived forms. *)
Definition Plus (r : regex) : regex := Cat r (Star r).          (* r+ *)
Definition Opt (r : regex) : regex := Alt r Eps.                (* r? *)
Fixpoint Rep (n : nat) (r : regex) : regex :=                   (* r{n} *)
  match n with
  | O => Eps
  | S n' => Cat r (Rep n' r)
  end.
Definition AtLeast (n : nat) (r : regex) : regex := Cat (Rep n r) (Star r). (* r{n,} *)
Definition OneOrTwo (r : regex) : regex := Cat r (Opt r).       (* r{1,2} *)

(** Character classes.  The [_i] forms are the classes under
    [re.IGNORECASE]: a character matches when either of its cases does. *)
Definition chr (c : ascii) : regex := Cls (Ascii.eqb c).
Definition chr_i (c : ascii) : regex :=
  Cls (fun x => Ascii.eqb (Str.lower_char x) (Str.lower_char c)).
Definition ignorecase (p : ascii -> bool) : ascii -> bool :=
  fun x => p (Str.lower_char x) || p (Str.upper_char x).
Definition dot : regex := Cls (fun x => negb (Ascii.eqb x "010")).  (* . *)
Definition digit : regex := Cls Str.is_digit.                       (* \d *)
Definition space : regex := Cls Str.is_space.                       (* \s *)

Fixpoint lit_with (f : ascii -> regex) (s : string) : regex :=
  match s with
  | EmptyString => Eps
  | String c EmptyString => f c
  | String c s' => Cat (f c) (lit_with f s')
  end.
Definition lit : string -> regex := lit_with chr.
Definition lit_i : string -> regex := lit_with chr_i.

(** A position in the subject: the characters already read, most recent
    first, and the characters still to read. *)
Record pos := Pos { before : list ascii; after : list ascii }.

Abbreviation captures := (gmap nat string).

(** The text between two positions of one subject, [p] before [q]. *)
Definition between (p q : pos) : string :=
  Str.of_chars (firstn (length (after p) - length (after q)) (after p)).

Definition at_eol (p : pos) : bool :=
  match after p with
  | [] => true
  | [c] => Ascii.eqb c "010"
  | _ => false
  end.

Definition at_word_boundary (p : pos) : bool :=
  let w (l : list ascii) := match l with c :: _ => Str.is_word c | [] => false end in
  xorb (w (before p)) (w (after p)).

(** The greedy loop of [r*]: [body] matches one more [r], which has to
    consume something, and when that way fails the loop stops where it is and
    hands over to [k].  Every turn consumes a character, so the number of
    characters still to read is fuel enough. *)
Fixpoint star_loop {A}
    (body : pos -> captures -> (pos -> captures -> option A) -> option A)
    (k : pos -> captures -> option A)
    (fuel : nat) (p : pos) (caps : captures) : option A :=
  match fuel with
  | O => k p caps
  | S fuel' =>
    match body p caps
            (fun q caps' =>
               if (length (after q) <? length (after p))%nat
               then star_loop body k fuel' q caps' else None) with
    | Some x => Some x
    | None => k p caps
    end
  end.

(** [run r p caps k]: match [r] at [p] and hand the position reached to the
    continuation [k]; when [k] fails the matcher backtracks. *)
Fixpoint run {A} (r : regex) (p : pos) (caps : captures)
    (k : pos -> captures -> option A) {struct r} : option A :=
  match r with
  | Eps => k p caps
  | Cls f =>
    match after p with
    | c :: rest => if f c then k (Pos (c :: before p) rest) caps else None
    | [] => None
    end
  | Cat r1 r2 => run r1 p caps (fun q caps' => run r2 q caps' k)
  | Alt r1 r2 =>
    match run r1 p caps k with
    | Some x => Some x
    | None => run r2 p caps k
    end
  | Star r1 => star_loop (run r1) k (length (after p)) p caps
  | Grp n r1 => run r1 p caps (fun q caps' => k q (<[n := between p q]> caps'))
  | Eol => if at_eol p then k p caps else None
  | WordB => if at_word_boundary p then k p caps else None
  end.

(** The texts a pattern matches, as a relation between the position where
    the match starts and the position where it ends. *)
Inductive matches : regex -> pos -> pos -> Prop :=
| matches_eps p : matches Eps p p
| matches_cls f c b a : f c = true -> matches (Cls f) (Pos b (c :: a)) (Pos (c :: b) a)
| matches_cat r1 r2 p q s : matches r1 p q -> matches r2 q s -> matches (Cat r1 r2) p s
| matches_alt_l r1 r2 p q : matches r1 p q -> matches (Alt r1 r2) p q
| matches_alt_r r1 r2 p q : matches r2 p q -> matches (Alt r1 r2) p q
| matches_star_stop r p : matches (Star r) p p
| matches_star_more r p q s : matches r p q -> matches (Star r) q s -> matches (Star r) p s
| matches_grp n r p q : matches r p q -> matches (Grp n r) p q
| matches_eol p : at_eol p = true -> matches Eol p p
| matches_wordb p : at_word_boundary p = true -> matches WordB p p.

(** A match: where it starts, where it ends, and its groups. *)
Record rmatch := Match { m_start : pos; m_end : pos; m_groups : captures }.

Definition whole (m : rmatch) : string := between (m_start m) (m_end m).

(** [m.group(n)] *)
Definition group (n : nat) (m : rmatch) : string :=
  default "" (m_groups m !! n).

Definition match_at (r : regex) (p : pos) : option rmatch :=
  run r p ∅ (fun q caps => Some (Match p q caps)).

(** The leftmost match starting at [p] or later. *)
Fixpoint search_from (r : regex) (fuel : nat) (p : pos) : option rmatch :=
  match match_at r p with
  | Some m => Some m
  | None =>
    match fuel, after p with
    | S fuel', c :: rest => search_from r fuel' (Pos (c :: before p) rest)
    | _, _ => None
    end
  end.

(** [re.search(r, s)] *)
Definition search (r : regex) (s : string) : option rmatch :=
  search_from r (String.length s) (Pos [] (Str.chars s)).

(** [r.fullmatch(s)] as a truth value. *)
Definition fullmatch (r : regex) (s : string) : bool :=
  bool_decide (is_Some
    (run r (Pos [] (Str.chars s)) ∅
       (fun q caps => match after q with [] => Some caps | _ => None end))).

(** All non-overlapping matches from [p] on, left to right; after an empty
    match the scan moves one character on. *)
Fixpoint matches_from (r : regex) (fuel : nat) (p : pos) : list rmatch :=
  match fuel with
  | O => []
  | S fuel' =>
    match search_from r (length (after p)) p with
    | None => []
    | Some m =>
      let q := m_end m in
      if (length (after q) <? length (after p))%nat
      then m :: matches_from r fuel' q
      else m :: match after q with
                | c :: rest => matches_from r fuel' (Pos (c :: before q) rest)
                | [] => []
                end
    end
  end.

(** [re.findall(r, s)] for a pattern with exactly one group. *)
Definition findall1 (r : regex) (s : string) : list string :=
  map (group 1) (matches_from r (S (String.length s)) (Pos [] (Str.chars s))).

(** [re.sub(r, repl, s)] for a pattern that never matches the empty string
    and a literal replacement. *)
Fixpoint sub_from (r : regex) (repl : string) (fuel : nat) (p : pos) : string :=
  match fuel with
  | O => Str.of_chars (after p)
  | S fuel' =>
    match search_from r (length (after p)) p with
    | None => Str.of_chars (after p)
    | Some m => between p (m_start m) +:+ repl +:+ sub_from r repl fuel' (m_end m)
    end
  end.

Definition sub (r : regex) (repl s : string) : string :=
  sub_from r repl (S (String.length s)) (Pos [] (Str.chars s)).

End Re.

(** ** Exceptions, the console and the outside world *)

Inductive exn :=
| HTTPError (status_code : Z)     (* requests.HTTPError, with exc.response.status_code *)
| ValueError (msg : string)
| TypeError
| KeyError (key : string)
| IndexError
| UnboundLocalError (variable : string).

Inductive outcome (A : Type) :=
| Ok (a : A)
| Raise (e : exn).
Arguments Ok {A} a.
Arguments Raise {A} e.

(** What the [Screamer] prints. *)
Inductive level := Info | Success | Error.
Record message := Msg { msg_level : level; msg_text : string }.

(** The calls that leave the process, in the order they are made. *)
Inductive event :=
| Get (url : string)                                  (* requester.get_request_or_error *)
| GetJson (url : string)                              (* the same, with params={".vrs": 1} and
                                                         headers={"Accept": "application/json"} *)
| Post (url : string) (form : list (string * string)) (* requester.post_request_or_error *)
| Download (url destination template : string) (label : option string)
                                                      (* requester.download_to_file *)
| Extract (zip_file directory : string)               (* ZipFile.extractall *)
| Unlink (path : string)                              (* Path.unlink *)
| NewMailbox                                          (* OneSecMail.generate_random_mailbox *)
| Sleep (seconds : Z)                                 (* time.sleep *)
| GetMessages                                         (* mailbox.get_messages *)
| Mkdir (path : string)                               (* Path.mkdir(parents=True, exist_ok=True) *)
| Move (source target : string)                       (* Path.replace *)
| Rmdir (path : string).                              (* Path.rmdir *)

(** The mutable part of a [Bandcamper] and of its surroundings. *)
Record state := State {
  urls : gset string;        (* self.urls *)
  log : list message;        (* lines printed by self.screamer *)
  trace : list event         (* calls made so far *)
}.

Definition M (A : Type) : Type := state -> outcome A * state.

Definition ret {A} (a : A) : M A := fun st => (Ok a, st).
Definition raise {A} (e : exn) : M A := fun st => (Raise e, st).
Definition bind {A B} (m : M A) (k : A -> M B) : M B :=
  fun st => match m st with
            | (Ok a, st') => k a st'
            | (Raise e, st') => (Raise e, st')
            end.
(** [try: m except ...: handler], a handler that re-raises what it does not catch. *)
Definition try_except {A} (m : M A) (handler : exn -> M A) : M A :=
  fun st => match m st with
            | (Ok a, st') => (Ok a, st')
            | (Raise e, st') => handler e st'
            end.
Definition lift {A} (o : outcome A) : M A := fun st => (o, st).

Declare Scope py_scope.
Delimit Scope py_scope with py.
Notation "'do' x <- m ; k" := (bind m (fun x => k))
  (at level 10, x name, m at level 100, k at level 200) : py_scope.
Notation "'perform' m ; k" := (bind m (fun _ => k))
  (at level 10, m at level 100, k at level 200) : py_scope.
Local Open Scope py_scope.

Definition emit (e : event) : M unit :=
  fun st => (Ok tt, State (urls st) (log st) (trace st ++ [e])).
Definition scream (l : level) (text : string) : M unit :=
  fun st => (Ok tt, State (urls st) (log st ++ [Msg l text]) (trace st)).
Definition urls_add (url : string) : M unit :=
  fun st => (Ok tt, State ({[url]} ∪ urls st) (log st) (trace st)).

(** [for x in xs: body(x)] *)
Fixpoint for_each {A} (xs : list A) (body : A -> M unit) : M unit :=
  match xs with
  | [] => ret tt
  | x :: xs' => perform body x; for_each xs' body
  end.

Definition initial : state := State ∅ [] [].

(** ** URL Resolver: [Bandcamper.add_url] and [Bandcamper._add_urls_from_artist] *)

(** The six fields of [urllib.parse.ParseResult]. *)
Record ParseResult := Parsed {
  scheme : string; netloc : string; path : string;
  params : string; query : string; fragment : string
}.

Definition replace_scheme (s : string) (u : ParseResult) : ParseResult :=
  Parsed s (netloc u) (path u) (params u) (query u) (fragment u).
Definition replace_path (p : string) (u : ParseResult) : ParseResult :=
  Parsed (scheme u) (netloc u) p (params u) (query u) (fragment u).

Module Resolver.

Import Re.

Definition alnum_i : regex := Cls (ignorecase (fun c => Str.in_range "a" "z" c || Str.in_range "0" "9" c)).
Definition alnum_hyphen_i : regex :=
  Cls (ignorecase (fun c => Str.in_range "a" "z" c || Str.in_range "0" "9" c || Ascii.eqb c "-")).

(** [_BANDCAMP_SUBDOMAIN_PATTERN = r"[a-z0-9][a-z0-9-]{2,}[a-z0-9]"] *)
Definition _BANDCAMP_SUBDOMAIN_PATTERN : regex :=
  Cat alnum_i (Cat (AtLeast 2 alnum_hyphen_i) alnum_i).

(** compiled with [flags=re.IGNORECASE] (the classes above carry the flag) *)
Definition BANDCAMP_SUBDOMAIN_REGEX : regex := _BANDCAMP_SUBDOMAIN_PATTERN.

(** [r"(?:www\.)?" + _BANDCAMP_SUBDOMAIN_PATTERN + r"\.bandcamp\.com"] *)
Definition BANDCAMP_URL_REGEX : regex :=
  Cat (Opt (lit_i "www."))
      (Cat _BANDCAMP_SUBDOMAIN_PATTERN (lit_i ".bandcamp.com")).

Definition CUSTOM_DOMAIN_IP : string := "35.241.62.186".

Section WithCollaborators.

(** The body of an HTTP response. *)
Variable response : Type.
(** [requester.get_request_or_error(url)]: the response, or [HTTPError]. *)
Variable fetch : string -> outcome response.
(** [requester.get_ip_from_url(url)] *)
Variable get_ip_from_url : string -> string.
(** [soup.find("ol", id="music-grid")], and the [href] of every anchor in it. *)
Variable music_grid : response -> option (list string).
(** [urllib.parse]: [urlparse], [ParseResult.geturl] and [urljoin]. *)
Variable urlparse : string -> ParseResult.
Variable geturl : ParseResult -> string.
Variable urljoin : string -> string -> string.

(** [self.force_https] *)
Variable force_https : bool.

Definition get_request_or_error (url : string) : M response :=
  perform emit (Get url); lift (fetch url).

Definition _is_valid_custom_domain (url : string) : bool :=
  String.eqb (get_ip_from_url url) CUSTOM_DOMAIN_IP.

Definition _add_urls_from_artist (source_url : string) : M unit :=
  do response <- get_request_or_error source_url;
  let base_url := "https://" +:+ Str.strip_slash_space (netloc (urlparse source_url)) in
  match music_grid response with
  | None => raise (ValueError "")
  | Some anchors =>
    for_each anchors (fun href =>
      let parsed_url := urlparse href in
      let url :=
        if negb (String.eqb (scheme parsed_url) "")
        then urljoin (scheme parsed_url +:+ "://" +:+ Str.strip_slash_space (netloc parsed_url))
                     (Str.strip_slash_space (path parsed_url))
        else urljoin base_url (Str.strip_slash_space (path parsed_url)) in
      urls_add url)
  end.

Definition add_url (name : string) : M unit :=
  if fullmatch BANDCAMP_SUBDOMAIN_REGEX name then
    let url := "https://" +:+ Str.lower name +:+ ".bandcamp.com/music" in
    try_except (_add_urls_from_artist url)
      (fun exc =>
         match exc with
         | HTTPError status_code =>
           if status_code =? 404
           then scream Error (name +:+ " not found")
           else scream Error ("Request error while getting URLs for " +:+ name)
         | ValueError _ => scream Error ("No releases found for " +:+ name)
         | _ => raise exc
         end)
  else
    let parsed_url := urlparse name in
    let parsed_url :=
      if String.eqb (scheme parsed_url) "" then urlparse ("https://" +:+ name)
      else if force_https then replace_scheme "https" parsed_url
      else parsed_url in
    let url := geturl parsed_url in
    if fullmatch BANDCAMP_URL_REGEX (netloc parsed_url) || _is_valid_custom_domain url then
      if bool_decide (Str.strip_slash_space (path parsed_url) ∈ ["music"; ""]) then
        let url := scheme parsed_url +:+ "://" +:+ netloc parsed_url +:+ "/music" in
        _add_urls_from_artist url
      else urls_add url
    else raise (ValueError (name +:+ " is not a valid Bandcamp URL or subdomain")).

(** [Bandcamper.__init__]: [for url in urls: self.add_url(url)] *)
Definition init (names : list string) : M unit := for_each names add_url.

End WithCollaborators.

(** A reading of [urlparse] for identifiers of the shape
    [scheme://host/path] or without a scheme, enough to run [add_url] on
    such identifiers. *)
Fixpoint split_at_sep (sep : string) (fuel : nat) (acc : list ascii) (s : string)
  : option (string * string) :=
  if String.prefix sep s
  then Some (Str.of_chars (rev acc),
             String.substring (String.length sep) (String.length s - String.length sep) s)
  else match fuel, s with
       | S fuel', String c s' => split_at_sep sep fuel' (c :: acc) s'
       | _, _ => None
       end.

Definition simple_urlparse (url : string) : ParseResult :=
  match split_at_sep "://" (String.length url) [] url with
  | Some (sch, rest) =>
    match split_at_sep "/" (String.length rest) [] rest with
    | Some (host, p) => Parsed (Str.lower sch) host ("/" +:+ p) "" "" ""
    | None => Parsed (Str.lower sch) rest "" "" "" ""
    end
  | None => Parsed "" "" url "" "" ""
  end.

Definition simple_geturl (u : ParseResult) : string :=
  if String.eqb (scheme u) "" then path u
  else scheme u +:+ "://" +:+ netloc u +:+ path u.

Definition simple_urljoin (base rel : string) : string := base +:+ "/" +:+ rel.

End Resolver.

(** ** [pathlib]: a path is the string [str(path)] *)

Module Path.

(** [Path(s)]: empty and [.] components are dropped, a leading separator is
    the root.  (The two-slash root of POSIX is read as the root.) *)
Definition of_string (s : string) : string :=
  let parts := filter (fun c => c <> "" /\ c <> ".") (Str.split_on "/" s) in
  if String.prefix "/" s then "/" +:+ Str.join "/" parts
  else match parts with
       | [] => "."
       | _ => Str.join "/" parts
       end.

(** [a / b] *)
Definition div (a b : string) : string :=
  if String.prefix "/" b then of_string b else of_string (a +:+ "/" +:+ b).

(** [p.name]: the last component. *)
Definition name (p : string) : string :=
  if String.eqb p "." then "" else List.last (Str.split_on "/" p) "".

(** [p.parent] *)
Definition parent (p : string) : string :=
  match rev (Str.split_on "/" p) with
  | _ :: (_ :: _) as ds =>
    let d := Str.join "/" (rev ds) in
    if String.eqb d "" then "/" else d
  | _ => "."
  end.

(** The position of the last dot of a name, when it starts a suffix: not the
    first character and not the last. *)
Definition suffix_index (nm : string) : option nat :=
  let cs := Str.chars nm in
  match list_find (Ascii.eqb ".") (rev cs) with
  | Some (k, _) =>
    let i := (length cs - 1 - k)%nat in
    if ((0 <? i) && (0 <? k))%nat then Some i else None
  | None => None
  end.

(** [p.suffix] *)
Definition suffix (p : string) : string :=
  let nm := name p in
  match suffix_index nm with
  | Some i => String.substring i (String.length nm - i) nm
  | None => ""
  end.

(** [p.stem] *)
Definition stem (p : string) : string :=
  let nm := name p in
  match suffix_index nm with
  | Some i => String.substring 0 i nm
  | None => nm
  end.

End Path.

(** ** Path Templater & Sanitizer: [Bandcamper.move_file] and
       [Bandcamper._sanitize_file_path] *)

(** A value of a render context: [str] or [int]. *)
Inductive value :=
| VStr (s : string)
| VInt (n : Z).

(** A naming template: the literal text and the replacement fields of a
    format string such as ["{artist}/{album}/{track_number:02d} {title}{ext}"]. *)
Inductive piece :=
| Lit (text : string)
| Field (key : string)           (* {key} *)
| Field02d (key : string).       (* {key:02d} *)

Module Templater.

Import Re.

(** [PLATFORMS = {"Darwin": "macOS"}] *)
Definition PLATFORMS : gmap string string := {["Darwin" := "macOS"]}.

(** [audio_extensions = r'\.(mp3|flac|wav|m4a|aiff|ogg)$'] *)
Definition audio_extensions : regex :=
  Cat (chr ".")
      (Cat (Grp 3 (Alt (lit_i "mp3") (Alt (lit_i "flac") (Alt (lit_i "wav")
                  (Alt (lit_i "m4a") (Alt (lit_i "aiff") (lit_i "ogg")))))))
           Eol).

(** [pattern = r'(.*/)(.*' + audio_extensions + r')'], used with [re.IGNORECASE] *)
Definition pattern : regex :=
  Cat (Grp 1 (Cat (Star dot) (chr "/")))
      (Grp 2 (Cat (Star dot) audio_extensions)).

(** Modelled from the spec: [FilenameFormatter.format] of [bandcamper/utils.py],
    which renders a naming template against a render context.  Literal text
    is copied, a field is replaced by the value of its key; a key that the
    context lacks is a [KeyError], as for [str.format]. *)
Fixpoint format (output : list piece) (context : gmap string value) : outcome string :=
  match output with
  | [] => Ok ""
  | pc :: rest =>
    let rendered :=
      match pc with
      | Lit text => Ok text
      | Field key =>
        match context !! key with
        | Some (VStr s) => Ok s
        | Some (VInt n) => Ok (Str.of_int n)
        | None => Raise (KeyError key)
        end
      | Field02d key =>
        match context !! key with
        | Some (VInt n) => Ok (Str.format_02d n)
        | Some (VStr _) => Raise (ValueError "Unknown format code 'd' for object of type 'str'")
        | None => Raise (KeyError key)
        end
      end in
    match rendered, format rest context with
    | Ok a, Ok b => Ok (a +:+ b)
    | Raise e, _ => Raise e
    | _, Raise e => Raise e
    end
  end.

Section WithCollaborators.

(** [platform.system()] *)
Variable platform_system : string.
(** [pathvalidate.sanitize_filepath(path, platform=platform)] *)
Variable sanitize_filepath : string -> string -> string.
(** The keys of [suffix_to_metadata] of [bandcamper/metadata/utils.py]: the
    suffixes of the audio files whose tags can be written. *)
Variable suffix_to_metadata : list string.
(** [get_track_output_context(file_path, tracks)] of
    [bandcamper/metadata/utils.py]: the per-file part of the render context. *)
Variable get_track_output_context : string -> gmap (option Z) string -> gmap string value.

(** The string that [_sanitize_file_path] hands to [sanitize_filepath]. *)
Definition sanitized_path (file_path : string) : string :=
  let file_path_str := file_path in
  match search pattern file_path_str with
  | Some m =>
    let directory_part :=
      let g1 := group 1 m in String.substring 0 (String.length g1 - 1) g1 in
    let filename_part := group 2 m in
    let sanitized_filename := Str.replace "/" "-" filename_part in
    if negb (String.eqb directory_part "")
    then directory_part +:+ "/" +:+ sanitized_filename
    else sanitized_filename
  | None => Str.replace "/" "-" file_path_str
  end.

Definition _sanitize_file_path (file_path : string) : string :=
  let platform := platform_system in
  let platform := default platform (PLATFORMS !! platform) in
  Path.of_string (sanitize_filepath (sanitized_path file_path) platform).

(** The copy of the context in which every [str] value has lost its slashes. *)
Definition sanitize_context (context : gmap string value) : gmap string value :=
  (fun v => match v with
            | VStr s => if Str.has_char "/" s then VStr (Str.replace "/" "-" s) else v
            | VInt _ => v
            end) <$> context.

(** [move_file] updates the [context] it is given: the caller's dictionary
    after the call is the second component of the result. *)
Definition move_file (file_path destination : string) (output output_extra : list piece)
    (tracks : gmap (option Z) string) (context : gmap string value)
  : M (string * gmap string value) :=
  let '(output, context) :=
    if bool_decide (Path.suffix file_path ∈ suffix_to_metadata)
    then (output, get_track_output_context file_path tracks ∪ context)
    else (output_extra, <["filename" := VStr (Path.name file_path)]> context) in
  let sanitized_context := sanitize_context context in
  do formatted_filename <- lift (format output sanitized_context);
  let move_to := _sanitize_file_path (Path.div destination formatted_filename) in
  perform emit (Mkdir (Path.parent move_to));
  perform emit (Move file_path move_to);
  ret (move_to, context).

End WithCollaborators.

End Templater.

(** ** Download Strategy Engine *)

Module Strategy.

(** An element of [music_data["trackinfo"]]. *)
Record track := Track {
  file : option (gmap string string);   (* track.get("file"): encoding -> preview URL *)
  track_num : option Z;                 (* track["track_num"], possibly None *)
  title : string                        (* track["title"] *)
}.

(** The dictionary returned by [_get_music_data]. *)
Record music_data := MusicData {
  trackinfo : list track;
  artist : string;
  current_title : string;               (* music_data["current"]["title"] *)
  release_date : option string;         (* music_data["current"].get("release_date") *)
  publish_date : string;                (* music_data["current"]["publish_date"] *)
  item_type : string;
  freeDownloadPage : option string;     (* music_data.get("freeDownloadPage") *)
  require_email : bool;                 (* music_data["current"].get("require_email") *)
  id : Z;
  album_title : option string;          (* set from span.fromAlbum when the page has one *)
  art_url : option string
}.

(** The JSON answer of the stat endpoint. *)
Record stat := Stat {
  result : string;
  download_url : option string;
  retry_url : option string
}.

(** A message of the disposable mailbox. *)
Record mail := Mail { html_body : string }.

(** The value of a local variable that holds an [int] on one path and a
    [str] on another, and its rendering in an f-string. *)
Definition fstring (v : value) : string :=
  match v with
  | VStr s => s
  | VInt n => Str.of_int n
  end.

(** [d[key]] on a field that may be missing. *)
Definition subscript {A} (key : string) (field : option A) : M A :=
  match field with
  | Some a => ret a
  | None => raise (KeyError key)
  end.

(** Truth value of an optional string: neither [None] nor empty. *)
Definition truthy (s : option string) : bool :=
  match s with
  | Some s => negb (String.eqb s "")
  | None => false
  end.

Definition get_trace : M (list event) := fun st => (Ok (trace st), st).

Section WithCollaborators.

Variable response : Type.
(** [requester.get_request_or_error(url)] and [requester.post_request_or_error(url, data)] *)
Variable fetch : string -> outcome response.
Variable post : string -> list (string * string) -> outcome response.
(** [response.json()["ok"]] and [response.text] of the answer to the form. *)
Variable json_ok : response -> bool.
Variable response_text : response -> string.
(** The stat request and the [.json()] of its answer. *)
Variable fetch_stat : string -> outcome stat.
(** The release page read by [_get_music_data]: the [data-tralbum] blob with
    [art_url] and [album_title] added. *)
Variable parse_tralbum : response -> outcome music_data.
(** [download_data["download_items"][0]["downloads"]] of a download page, every
    format mapped to the ["url"] of its descriptor. *)
Variable download_items : response -> outcome (gmap string string).
Variable urlparse : string -> ParseResult.
Variable geturl : ParseResult -> string.
(** [requester.download_to_file(url, destination, template, label)]: the path
    of the file written. *)
Variable download_result : string -> string -> string -> option string -> outcome string.
(** [get_random_filename_template()] of [bandcamper/utils.py]; the name drawn
    depends on what happened before. *)
Variable get_random_filename_template : list event -> string.
(** The mailbox: its address, and what [get_messages] returns at the check
    made after [n] seconds of sleep. *)
Variable mailbox_address : string.
Variable get_messages : Z -> list mail.
(** [BeautifulSoup(body, "lxml").find("a")["href"]]; [None] when the body has
    no anchor. *)
Variable first_anchor_href : string -> option string.

(** [self.fallback] *)
Variable fallback : bool.

Definition get_request_or_error (url : string) : M response :=
  perform emit (Get url); lift (fetch url).

Definition post_request_or_error (url : string) (data : list (string * string)) : M response :=
  perform emit (Post url data); lift (post url data).

Definition download_to_file (url destination template : string) (label : option string)
  : M string :=
  perform emit (Download url destination template label);
  lift (download_result url destination template label).

(** [_get_music_data] *)
Definition _get_music_data (url : string) : M music_data :=
  do response <- try_except (get_request_or_error url)
                   (fun exc =>
                      match exc with
                      | HTTPError status_code =>
                        if status_code =? 404 then raise (ValueError (url +:+ " not found"))
                        else raise exc
                      | _ => raise exc
                      end);
  lift (parse_tralbum response).

(** The stat endpoint of a descriptor URL. *)
Definition stat_url (descriptor_url : string) : string :=
  let parsed_url := urlparse descriptor_url in
  let stat_path := Str.replace "/download/" "/statdownload/" (path parsed_url) in
  geturl (replace_path stat_path parsed_url).

(** Lines 178-192 of [_free_download]: the artifact behind [download_url] is
    fetched and, when it is an archive, unpacked; the result is the entry
    appended to [downloaded_paths]. *)
Definition materialize (download_url destination item_type fmt : string) : M string :=
  let label := if String.eqb item_type "album" then Some (fmt +:+ ".zip") else None in
  do history <- get_trace;
  do file_path <- download_to_file download_url destination
                    (get_random_filename_template history) label;
  if String.eqb (Path.suffix file_path) ".zip" then
    let extract_to_path := Path.div (Path.parent file_path) (Path.stem file_path) in
    perform emit (Extract file_path extract_to_path);
    perform emit (Unlink file_path);
    ret extract_to_path
  else ret file_path.

(** The loop of [_free_download] over the requested formats;
    [downloaded_paths] is the list built so far. *)
Fixpoint free_download_loop (downloadable : gmap string string)
    (destination item_type : string) (download_formats : list string)
    (downloaded_paths : list string) : M (list string) :=
  match download_formats with
  | [] => ret downloaded_paths
  | fmt :: rest =>
    let continue := free_download_loop downloadable destination item_type rest in
    match downloadable !! fmt with
    | Some descriptor_url =>
      let fwd_url := stat_url descriptor_url in
      perform emit (GetJson fwd_url);
      do fwd_data <- lift (fetch_stat fwd_url);
      if String.eqb (Str.lower (result fwd_data)) "ok" then
        do download_url <- subscript "download_url" (download_url fwd_data);
        do entry <- materialize download_url destination item_type fmt;
        continue (downloaded_paths ++ [entry])%list
      else if String.eqb (Str.lower (result fwd_data)) "err" then
        do download_url <- subscript "retry_url" (retry_url fwd_data);
        do entry <- materialize download_url destination item_type fmt;
        continue (downloaded_paths ++ [entry])%list
      else
        perform scream Error ("Error downloading " +:+ fmt +:+ " from " +:+ fwd_url);
        continue downloaded_paths
    | None =>
      perform scream Error (fmt +:+ " download not found");
      continue downloaded_paths
    end
  end.

Definition _free_download (url destination item_type : string)
    (download_formats : list string) : M (list string) :=
  do response <- get_request_or_error url;
  do downloadable <- lift (download_items response);
  free_download_loop downloadable destination item_type download_formats [].

(** The [while not msgs] loop of [_get_download_url_from_email], entered with
    [msgs] empty after [time_sleeping] seconds of sleep. *)
Equations? poll (timeout time_sleeping : Z) (st : state)
  : outcome (list mail) * state
  by wf (Z.to_nat (timeout + 1 - time_sleeping)) lt :=
  poll timeout time_sleeping st with decide (time_sleeping > timeout) := {
    | left _ =>
      raise (ValueError "Bandcamp email not received. Try increasing the timeout.") st
    | right _ =>
      let st1 := snd (emit (Sleep 1) st) in
      let time_sleeping' := time_sleeping + 1 in
      let st2 := snd (emit GetMessages st1) in
      match get_messages time_sleeping' with
      | [] => poll timeout time_sleeping' st2
      | msgs => (Ok msgs, st2)
      end }.
Proof. lia. Qed.

Definition _get_download_url_from_email (url : string) (item_id : Z)
    (item_type country postcode encoding_name : string) (timeout : Z) : M string :=
  let artist_subdomain := netloc (urlparse url) in
  let download_url := "https://" +:+ artist_subdomain +:+ "/email_download" in
  perform emit NewMailbox;
  let form_data :=
    [("encoding_name", encoding_name); ("item_id", Str.of_int item_id);
     ("item_type", item_type); ("address", mailbox_address);
     ("country", country); ("postcode", postcode)] in
  do response <- post_request_or_error download_url form_data;
  if negb (json_ok response)
  then raise (ValueError ("Email download request failed: " +:+ response_text response))
  else
    do msgs <- poll timeout 0;
    match msgs with
    | msg :: _ =>
      match first_anchor_href (html_body msg) with
      | Some href => ret href
      | None => raise TypeError
      end
    | [] => raise IndexError
    end.

(** [download_fallback_mp3]; the local [title] is assigned inside the loop and
    keeps its value from one track to the next. *)
Fixpoint fallback_loop (track_info : list track) (artist album : string)
    (title : option string) (destination : string) (file_paths : list string)
  : M (list string) :=
  match track_info with
  | [] => ret file_paths
  | track :: rest =>
    match file track with
    | Some files =>
      if bool_decide (files = ∅)
      then fallback_loop rest artist album title destination file_paths
      else
        let track_num :=
          match track_num track with
          | None => VInt 1
          | Some n => VStr (Str.format_02d n)
          end in
        let title :=
          match title with
          | None => Strategy.title track
          | Some t => t
          end in
        do url <- subscript "mp3-128" (files !! "mp3-128");
        do file_path <- download_to_file url destination
                          (artist +:+ " - " +:+ album +:+ " - " +:+ fstring track_num
                             +:+ " " +:+ title +:+ "{ext}")
                          (Some (fstring track_num +:+ ".mp3"));
        fallback_loop rest artist album (Some title) destination (file_paths ++ [file_path])%list
    | None => fallback_loop rest artist album title destination file_paths
    end
  end.

Definition download_fallback_mp3 (track_info : list track) (artist album : string)
    (title : option string) (destination : string) : M (list string) :=
  fallback_loop track_info artist album title destination [].

(** File system queries: [Path.is_dir] and [Path.iterdir]. *)
Variable is_dir : string -> bool.
Variable iterdir : string -> list string.
(** The collaborators of [move_file]. *)
Variable platform_system : string.
Variable sanitize_filepath : string -> string -> string.
Variable suffix_to_metadata : list string.
Variable get_track_output_context : string -> gmap (option Z) string -> gmap string value.
(** [_write_metadata_to_files(moved_files, context.get("bandcamp_url"))] and
    [_download_cover_image(art_url, moved_files)]: the two steps that follow
    the placement of the files; both catch what their own calls raise. *)
Variable _write_metadata_to_files : list string -> option value -> M unit.
Variable _download_cover_image : option string -> list string -> M unit.

Definition move_file :=
  Templater.move_file platform_system sanitize_filepath suffix_to_metadata
    get_track_output_context.

(** The locals that the placement loop updates: the shared [context], the
    last [new_path] (unbound before the first move) and [moved_files]. *)
Record placing := Placing {
  loc_context : gmap string value;
  loc_new_path : option string;
  loc_moved_files : list string
}.

Section Placement.

Variables (destination : string) (output output_extra : list piece)
          (tracks : gmap (option Z) string).

Definition place (file_path : string) (loc : placing) : M (string * placing) :=
  do moved <- move_file file_path destination output output_extra tracks (loc_context loc);
  ret (moved.1, Placing moved.2 (Some moved.1) (loc_moved_files loc ++ [moved.1])).

(** [for track_path in file_path.iterdir(): ...] *)
Fixpoint place_children (children : list string) (loc : placing) : M placing :=
  match children with
  | [] => ret loc
  | track_path :: rest =>
    do placed <- place track_path loc;
    perform scream Success ("New file: " +:+ placed.1);
    place_children rest placed.2
  end.

(** [for file_path in file_paths: ...] *)
Fixpoint place_all (file_paths : list string) (loc : placing) : M placing :=
  match file_paths with
  | [] => ret loc
  | file_path :: rest =>
    if is_dir file_path then
      do loc <- place_children (iterdir file_path) loc;
      match loc_new_path loc with
      | Some np =>
        perform scream Success ("New directory: " +:+ Path.parent np);
        perform emit (Rmdir file_path);
        place_all rest loc
      | None => raise (UnboundLocalError "new_path")
      end
    else
      do placed <- place file_path loc;
      perform scream Success ("New file: " +:+ placed.1);
      place_all rest placed.2
  end.

End Placement.

(** Lines 404-438 of [download_from_url]: what happens to [file_paths]. *)
Definition place_files (url destination : string) (output output_extra : list piece)
    (tracks : gmap (option Z) string) (artist album year : string)
    (art_url : option string) (file_paths : list string) : M unit :=
  let context : gmap string value :=
    {[ "artist" := VStr artist; "album" := VStr album;
       "year" := VStr year; "bandcamp_url" := VStr url ]} in
  do loc <- place_all destination output output_extra tracks file_paths
              (Placing context None []);
  perform _write_metadata_to_files (loc_moved_files loc) (loc_context loc !! "bandcamp_url");
  _download_cover_image art_url (loc_moved_files loc).

(** [{track["track_num"]: track["title"] for track in music_data["trackinfo"]}] *)
Definition tracks_of (track_info : list track) : gmap (option Z) string :=
  fold_left (fun d track => <[track_num track := title track]> d) track_info ∅.

(** [music_data["current"].get("release_date") or music_data["current"]["publish_date"]] *)
Definition release_or_publish_date (music_data : music_data) : string :=
  match release_date music_data with
  | Some d => if String.eqb d "" then publish_date music_data else d
  | None => publish_date music_data
  end.

(** [s.split()[2]] *)
Definition third_word (s : string) : M string :=
  match Str.split s with
  | _ :: _ :: w :: _ => ret w
  | _ => raise IndexError
  end.

Definition download_from_url (url destination : string)
    (output output_extra : list piece) (download_formats : list string) : M unit :=
  perform scream Info ("Searching available downloads for URL " +:+ url);
  let download_formats : gset string := list_to_set download_formats in
  let download_mp3 := bool_decide ("mp3-128" ∈ download_formats) in
  let download_formats :=
    if download_mp3 then download_formats ∖ {["mp3-128"]} else download_formats in
  do fetched <-
    try_except (do music_data <- _get_music_data url; ret (Some music_data))
      (fun exc =>
         match exc with
         | ValueError msg => perform scream Error msg; ret None
         | HTTPError status_code =>
           perform scream Error ("Request error (" +:+ Str.of_int status_code
                                   +:+ ") when getting music data from " +:+ url);
           ret None
         | _ => raise exc
         end);
  match fetched with
  | None => ret tt
  | Some music_data =>
    (* [if not music_data] never holds here: the dictionary that
       [_get_music_data] returns has at least its [art_url] *)
    let tracks := tracks_of (trackinfo music_data) in
    let artist := artist music_data in
    let title := current_title music_data in
    do year <- third_word (release_or_publish_date music_data);
    let downloading_str := "Downloading " +:+ artist +:+ " - " +:+ title in
    let '(album, title) :=
      if String.eqb (item_type music_data) "album" then (title, None)
      else (default "" (album_title music_data), Some title) in
    (* the strategy: [file_paths] and the value of [download_mp3] afterwards,
       or [None] for the bare [return] *)
    do chosen <-
      (if truthy (freeDownloadPage music_data) then
         perform scream Success ("Free download found! " +:+ downloading_str);
         do file_paths <- _free_download (default "" (freeDownloadPage music_data))
                            destination (item_type music_data) (elements download_formats);
         ret (Some (file_paths, download_mp3))
       else if require_email music_data then
         perform scream Success ("Email download found! " +:+ downloading_str);
         do download_url <- _get_download_url_from_email url (id music_data)
                              (item_type music_data) "US" "0" "none" 60;
         do file_paths <- _free_download download_url destination (item_type music_data)
                            (elements download_formats);
         ret (Some (file_paths, download_mp3))
       else if fallback || download_mp3 then
         perform scream Success ("MP3-128 download found! " +:+ downloading_str);
         do file_paths <- download_fallback_mp3 (trackinfo music_data) artist album title
                            destination;
         ret (Some (file_paths, false))
       else if negb fallback then ret None
       else raise (ValueError ("No free download found for " +:+ url
                                 +:+ ". Try setting fallback to True.")));
    match chosen with
    | None => ret tt
    | Some (file_paths, download_mp3) =>
      do file_paths <-
        (if download_mp3 : bool then
           do more <- download_fallback_mp3 (trackinfo music_data) artist album title
                        destination;
           ret (file_paths ++ more)%list
         else ret file_paths);
      place_files url destination output output_extra tracks artist album year
        (art_url music_data) file_paths
    end
  end.

(** [download_all]; [self.urls] is a set, visited in the order of [elements]. *)
Definition download_all (destination : string) (output output_extra : list piece)
    (download_formats : list string) : M unit :=
  fun st =>
    for_each (elements (urls st))
      (fun url => download_from_url url destination output output_extra download_formats) st.

End WithCollaborators.

End Strategy.

(** ** Metadata Extractor and Track Matcher ([bandcamp_writer.py]) *)

Module Metadata.

Import Re.

(** What the selectors of [_extract_release_year] find in a page. *)
Record page := Page {
  (* the text of [soup.find('div', class_='tralbum-credits')], when there is one *)
  credits_text : option string;
  (* [meta.get('content', '')] of every meta tag whose property is
     [music:release_date], in document order *)
  release_date_metas : list string;
  (* [str(current[f])] for [f] in [release_date], [publish_date], each when
     present and truthy in the [current] item of the [pagedata] blob; empty
     when the blob is missing or cannot be read *)
  pagedata_dates : list string;
  (* [data['datePublished']] of every [application/ld+json] script that has
     one, in document order *)
  date_published : list string;
  (* [response.text] *)
  page_text : string
}.

Definition alpha : regex := Cls (ignorecase Str.is_alpha).

(** [r'released\s+([A-Za-z]+\s+\d{1,2},?\s+(\d{4}))'] with [re.IGNORECASE] *)
Definition released_regex : regex :=
  Cat (lit_i "released")
  (Cat (Plus space)
       (Grp 1 (Cat (Plus alpha)
              (Cat (Plus space)
              (Cat (OneOrTwo digit)
              (Cat (Opt (chr ","))
              (Cat (Plus space)
                   (Grp 2 (Rep 4 digit))))))))).

(** [r'(\d{4})'] *)
Definition four_digits : regex := Grp 1 (Rep 4 digit).

(** [year_patterns = [r'\b(20[0-2][0-9])\b', r'\b(19[5-9][0-9])\b']] *)
Definition year_patterns : list regex :=
  [ Cat WordB (Cat (Grp 1 (Cat (lit "20") (Cat (Cls (Str.in_range "0" "2"))
                                               (Cls (Str.in_range "0" "9"))))) WordB);
    Cat WordB (Cat (Grp 1 (Cat (lit "19") (Cat (Cls (Str.in_range "5" "9"))
                                               (Cls (Str.in_range "0" "9"))))) WordB) ].

(** [copyright_patterns = [r'\u00a9\s*(\d{4})', r'copyright\s+(\d{4})']],
    used with [re.IGNORECASE] *)
Definition copyright_patterns : list regex :=
  [ Cat (chr "169") (Cat (Star space) (Grp 1 (Rep 4 digit)));
    Cat (lit_i "copyright") (Cat (Plus space) (Grp 1 (Rep 4 digit))) ].

(** The test every candidate goes through:
    [year.isdigit() and len(year) == 4] and then [1950 <= int(year) <= 2030]. *)
Definition in_bounds (year : string) : bool :=
  Str.isdigit year && (Str.len year =? 4) &&
  ((1950 <=? Str.int year) && (Str.int year <=? 2030)).

(** [a or b] on optional results: the first one that is there. *)
Definition or_else {A} (first : option A) (next : option A) : option A :=
  match first with
  | Some a => Some a
  | None => next
  end.

(** [for x in xs: r = f(x); if r: return r] *)
Fixpoint first_result {A B} (f : A -> option B) (xs : list A) : option B :=
  match xs with
  | [] => None
  | x :: xs' => or_else (f x) (first_result f xs')
  end.

Definition checked (year : string) : option string :=
  if in_bounds year then Some year else None.

(** The first four-digit run of a date string, when it passes the test. *)
Definition year_of_date (content : string) : option string :=
  match search four_digits content with
  | Some year_match => checked (group 1 year_match)
  | None => None
  end.

Definition max_year (valid_years : list Z) : Z :=
  fold_right Z.max 0 valid_years.

Definition _extract_release_year (pg : page) : option string :=
  (* Priority 1: "released Month Day, Year" in the credits *)
  or_else
    match credits_text pg with
    | Some credits_text =>
      match search released_regex credits_text with
      | Some released_match => checked (group 2 released_match)
      | None => None
      end
    | None => None
    end
  (* Priority 2: meta tags *)
  (or_else (first_result year_of_date (release_date_metas pg))
  (* Priority 3: pagedata JSON *)
  (or_else (first_result year_of_date (pagedata_dates pg))
  (* Priority 4: JSON-LD *)
  (or_else (first_result (fun d => checked (Str.take 4 d)) (date_published pg))
  (* Priority 5: any 4-digit year in the page text *)
  (or_else
     (first_result
        (fun pattern =>
           match findall1 pattern (page_text pg) with
           | [] => None
           | matches =>
             match map Str.int (filter (fun y => in_bounds y = true) matches) with
             | [] => None
             | valid_years => Some (Str.of_int (max_year valid_years))
             end
           end)
        year_patterns)
  (* Priority 6: copyright year *)
     (first_result
        (fun pattern => first_result checked (findall1 pattern (page_text pg)))
        copyright_patterns))))).

(** The cascade in the words of the specification: every source contributes
    its candidates, in priority order. *)
Definition most_recent (years : list string) : list string :=
  match filter (fun y => in_bounds y = true) years with
  | [] => []
  | valid => [Str.of_int (max_year (map Str.int valid))]
  end.

Definition first_four_digits (content : string) : list string :=
  match search four_digits content with
  | Some m => [group 1 m]
  | None => []
  end.

Definition candidates (pg : page) : list string :=
  (* 1. released-phrase in the credits *)
  match credits_text pg with
  | Some text =>
    match search released_regex text with
    | Some m => [group 2 m]
    | None => []
    end
  | None => []
  end
  (* 2. release-date meta tags *)
  ++ flat_map first_four_digits (release_date_metas pg)
  (* 3. embedded JSON data blob: release date, then publish date *)
  ++ flat_map first_four_digits (pagedata_dates pg)
  (* 4. structured-data publication date *)
  ++ map (Str.take 4) (date_published pg)
  (* 5. 4-digit literals 2000-2029, then 1950-1999, the most recent of each *)
  ++ flat_map (fun pattern => most_recent (findall1 pattern (page_text pg))) year_patterns
  (* 6. copyright year *)
  ++ flat_map (fun pattern => findall1 pattern (page_text pg)) copyright_patterns.

(** An element of [album_metadata['tracks']]. *)
Record track := Track {
  number : option Z;          (* track.get('number') *)
  title : option string;      (* track.get('title') *)
  duration : option string
}.

(** [r'[_\-\s]+'] *)
Definition separators : regex :=
  Plus (Cls (fun c => Ascii.eqb c "_" || Ascii.eqb c "-" || Str.is_space c)).

(** [_fuzzy_match(str1, str2)] with the default [threshold] of 0.6.  The
    comparison [overlap / total_words >= 0.6] is made on integers: the double
    nearest to [overlap / total_words] is at least the double [0.6] exactly
    when [5 * overlap >= 3 * total_words], for every [total_words] below
    [10^15]. *)
Definition _fuzzy_match (str1 str2 : string) : bool :=
  let clean1 := Str.strip (sub separators " " str1) in
  let clean2 := Str.strip (sub separators " " str2) in
  if Str.contains clean1 clean2 || Str.contains clean2 clean1 then true
  else
    let words1 : gset string := list_to_set (Str.split clean1) in
    let words2 : gset string := list_to_set (Str.split clean2) in
    if bool_decide (words1 = ∅) || bool_decide (words2 = ∅) then false
    else
      let overlap := Z.of_nat (size (words1 ∩ words2)) in
      let total_words := Z.of_nat (size (words1 ∪ words2)) in
      3 * total_words <=? 5 * overlap.

(** [re.search(r'(\d+)', filename)] and [int(track_num_match.group(1))] *)
Definition file_track_num (filename : string) : option Z :=
  match search (Grp 1 (Plus digit)) filename with
  | Some track_num_match => Some (Str.int (group 1 track_num_match))
  | None => None
  end.

Definition number_is (n : Z) (t : track) : bool := bool_decide (number t = Some n).

Definition title_matches (filename : string) (t : track) : bool :=
  let track_title := Str.lower (default "" (title t)) in
  negb (String.eqb track_title "") && _fuzzy_match filename track_title.

Definition _find_matching_track (file_path : string) (tracks : list track)
  : option track :=
  match tracks with
  | [] => None
  | _ =>
    let filename := Str.lower (Path.stem file_path) in
    or_else
      match file_track_num filename with
      | Some n => find (number_is n) tracks
      | None => None
      end
    (or_else (find (title_matches filename) tracks)
       match tracks with
       | [only] => Some only
       | _ => None
       end)
  end.

End Metadata.

(** ** Metadata Extractor, the page: [BandcampMetadataExtractor.extract_album_metadata],
       [_extract_album_title], [_extract_artist_name] and [_extract_tracks] *)

Module Extractor.

Import Re.

(** A [tr.track_row_view] of the track table: the [get_text()] of the first
    element that each selector of [_extract_tracks] finds in the row. *)
Record row := Row {
  track_number_text : option string;   (* row.find('div', class_='track_number') *)
  track_title_text : option string;    (* row.find('span', class_='track-title') *)
  time_text : option string            (* row.find('span', class_='time') *)
}.

(** The first [h3] of a page: the text of its first anchor, when it has one,
    and its own text. *)
Record heading := Heading {
  link_text : option string;           (* artist_elem.find('a').get_text() *)
  heading_text : string                (* artist_elem.get_text() *)
}.

(** What the selectors of the extractor find in a parsed page. *)
Record soup := Soup {
  h2_trackTitle : option string;       (* soup.find('h2', {'class': 'trackTitle'}) *)
  h1_trackTitle : option string;       (* soup.find('h1', {'class': 'trackTitle'}) *)
  h2_any : option string;              (* soup.find('h2', {}) *)
  first_h3 : option heading;           (* soup.find('h3') *)
  span_byArtist : option string;       (* soup.find('span', {'itemprop': 'byArtist'}) *)
  a_artist : option string;            (* soup.find('a', {'class': 'artist'}) *)
  year_sources : Metadata.page;        (* what [_extract_release_year] reads *)
  (* the rows of [soup.find('table', id='track_table')], when the page has
     the table *)
  track_table : option (list row)
}.

(** The dictionary that [extract_album_metadata] returns. *)
Record album_metadata := AlbumMetadata {
  artist : string;
  album : string;
  year : option string;
  tracks : list Metadata.track;
  url : string
}.

(** [for tag, attrs in selectors: elem = soup.find(tag, attrs)] and the first
    text that is not empty once stripped. *)
Definition first_text (found : list (option string)) : option string :=
  Metadata.first_result
    (fun elem =>
       match elem with
       | Some text =>
         let title := Str.strip text in
         if negb (String.eqb title "") then Some title else None
       | None => None
       end)
    found.

Definition _extract_album_title (s : soup) : option string :=
  first_text [h2_trackTitle s; h1_trackTitle s; h2_any s].

(** [r'^by\s+'] without [re.MULTILINE]: the pattern after the anchor, which
    can only match where the subject starts. *)
Definition by_prefix : regex := Cat (lit "by") (Plus space).

(** [re.sub(r'^by\s+', '', artist_text)] *)
Definition without_by (artist_text : string) : string :=
  match match_at by_prefix (Pos [] (Str.chars artist_text)) with
  | Some m => Str.of_chars (after (m_end m))
  | None => artist_text
  end.

Definition _extract_artist_name (s : soup) : option string :=
  match first_h3 s with
  | Some artist_elem =>
    match link_text artist_elem with
    | Some text => Some (Str.strip text)
    | None =>
      let artist_text := Str.strip (heading_text artist_elem) in
      Some (without_by artist_text)
    end
  | None => first_text [span_byArtist s; a_artist s]
  end.

(** [r'\D'] *)
Definition non_digit : regex := Cls (fun c => negb (Str.is_digit c)).

(** The body of the loop of [_extract_tracks]: the [track_info] of a row,
    when it has at least number and title. *)
Definition row_track (r : row) : option Metadata.track :=
  let number :=
    match track_number_text r with
    | Some text =>
      let track_num_text := Str.strip text in
      let track_num := sub non_digit "" track_num_text in
      if negb (String.eqb track_num "") then Some (Str.int track_num) else None
    | None => None
    end in
  let title := Str.strip <$> track_title_text r in
  let duration := Str.strip <$> time_text r in
  match number, title with
  | Some _, Some _ => Some (Metadata.Track number title duration)
  | _, _ => None
  end.

Definition _extract_tracks (s : soup) : list Metadata.track :=
  match track_table s with
  | None => []
  | Some track_rows => omap row_track track_rows
  end.

Section WithCollaborators.

Variable response : Type.
(** [self.session.get(url)] followed by [response.raise_for_status()] *)
Variable session_get : string -> outcome response.
(** [BeautifulSoup(response.content, 'html.parser')], with [response.text] *)
Variable parse : response -> soup.
(** [str(e)] *)
Variable str_of_exception : exn -> string.

(** [extract_album_metadata]: the result and the lines it prints.  Of the
    exceptions of the embedding only [HTTPError] is a
    [requests.RequestException]; the selectors of the second [try] raise
    nothing here. *)
Definition extract_album_metadata (url : string)
  : outcome (option album_metadata * list string) :=
  match session_get url with
  | Raise (HTTPError status_code) =>
    Ok (None, ["Warning: Failed to fetch URL " +:+ url +:+ ": "
                 +:+ str_of_exception (HTTPError status_code)])
  | Raise e => Raise e
  | Ok response =>
    let soup := parse response in
    let album_title := _extract_album_title soup in
    if negb (Strategy.truthy album_title)
    then Ok (None, ["Warning: Could not find album title for " +:+ url])
    else
      let artist_name := _extract_artist_name soup in
      if negb (Strategy.truthy artist_name)
      then Ok (None, ["Warning: Could not find artist name for " +:+ url])
      else
        let release_year := Metadata._extract_release_year (year_sources soup) in
        let tracks := _extract_tracks soup in
        Ok (Some (AlbumMetadata (default "" artist_name) (default "" album_title)
                    release_year tracks url), [])
  end.

End WithCollaborators.

End Extractor.

(** ** Metadata Writer: [BandcampMetadataWriter.write_metadata_to_file] *)

Module Writer.

(** The object that [get_track_metadata(file_path)] returns: which of the
    attributes it has, and what becomes of the assignments made to it, in
    order, when it is saved. *)
Record handler := Handler {
  hasattr : string -> bool;
  save : list (string * value) -> outcome unit
}.

(** What a call leaves behind: the value returned, the lines printed, and
    the tags saved to the file, when they were. *)
Record report := Report {
  returned : bool;
  printed : list string;
  saved : option (list (string * value))
}.

(** Truth value of a track dictionary: it has a key. *)
Definition has_key (t : Metadata.track) : bool :=
  bool_decide (is_Some (Metadata.number t)) || bool_decide (is_Some (Metadata.title t))
  || bool_decide (is_Some (Metadata.duration t)).

Section WithCollaborators.

Variable response : Type.
Variable session_get : string -> outcome response.
Variable parse : response -> Extractor.soup.
Variable str_of_exception : exn -> string.
(** The keys of [suffix_to_metadata] *)
Variable suffix_to_metadata : list string.
(** [get_track_metadata(file_path)]; [None] stands for a falsy result *)
Variable get_track_metadata : string -> outcome (option handler).

(** The assignments of [write_metadata_to_file], in order. *)
Definition assignments (track_metadata : handler) (album_metadata : Extractor.album_metadata)
    (track_info : option Metadata.track) : list (string * value) :=
  (if hasattr track_metadata "artist"
      && negb (String.eqb (Extractor.artist album_metadata) "")
   then [("artist", VStr (Extractor.artist album_metadata))] else [])
  ++ (if hasattr track_metadata "album"
         && negb (String.eqb (Extractor.album album_metadata) "")
      then [("album", VStr (Extractor.album album_metadata))] else [])
  ++ (if hasattr track_metadata "year" && Strategy.truthy (Extractor.year album_metadata)
      then [("year", VStr (default "" (Extractor.year album_metadata)))] else [])
  ++ match track_info with
     | Some track_info =>
       if has_key track_info then
         (if hasattr track_metadata "title" && Strategy.truthy (Metadata.title track_info)
          then [("title", VStr (default "" (Metadata.title track_info)))] else [])
         ++ (match Metadata.number track_info with
             | Some n =>
               if hasattr track_metadata "track_number" && negb (n =? 0)
               then [("track_number", VInt n)] else []
             | None => []
             end)
       else []
     | None => []
     end.

Definition write_metadata_to_file (file_path bandcamp_url : string) : outcome report :=
  if negb (bool_decide (Path.suffix file_path ∈ suffix_to_metadata))
  then Ok (Report false
             ["Warning: Unsupported file format " +:+ Path.suffix file_path +:+ " for "
                +:+ file_path] None)
  else
    match Extractor.extract_album_metadata response session_get parse str_of_exception
            bandcamp_url with
    | Raise e => Raise e
    | Ok (None, lines) =>
      Ok (Report false
            (lines ++ ["Warning: Could not extract metadata from " +:+ bandcamp_url]) None)
    | Ok (Some album_metadata, lines) =>
      let failed (e : exn) :=
        Ok (Report false
              (lines ++ ["Warning: Error writing metadata to " +:+ file_path +:+ ": "
                           +:+ str_of_exception e]) None) in
      match get_track_metadata file_path with
      | Raise e => failed e
      | Ok None =>
        Ok (Report false
              (lines ++ ["Warning: Could not load metadata handler for " +:+ file_path]) None)
      | Ok (Some track_metadata) =>
        let track_info :=
          Metadata._find_matching_track file_path (Extractor.tracks album_metadata) in
        let tags := assignments track_metadata album_metadata track_info in
        match save track_metadata tags with
        | Raise e => failed e
        | Ok _ =>
          Ok (Report true (lines ++ ["Successfully wrote metadata to " +:+ file_path])
                (Some tags))
        end
      end
    end.

End WithCollaborators.

End Writer.

(** ** After placement: [Bandcamper._write_metadata_to_files] and
       [Bandcamper._download_cover_image] *)

Module Finisher.

(** Truth value of [context.get("bandcamp_url")]. *)
Definition value_truthy (v : option value) : bool :=
  match v with
  | Some (VStr s) => negb (String.eqb s "")
  | Some (VInt n) => negb (n =? 0)
  | None => false
  end.

Section Tags.

Variable suffix_to_metadata : list string.
(** [self.metadata_writer.write_metadata_to_file(file_path, bandcamp_url)];
    what the writer prints and fetches on its own is not part of the state *)
Variable write_metadata_to_file : string -> value -> outcome bool.
(** [str(e)] *)
Variable str_of_exception : exn -> string.

(** [for file_path in audio_files: try: ... except Exception as e: ...],
    with [success_count] *)
Fixpoint write_each (audio_files : list string) (bandcamp_url : value) (success_count : Z)
  : M Z :=
  match audio_files with
  | [] => ret success_count
  | file_path :: rest =>
    do success_count <-
      try_except
        (do written <- lift (write_metadata_to_file file_path bandcamp_url);
         ret (if written : bool then success_count + 1 else success_count))
        (fun e =>
           perform scream Error ("Error writing metadata to " +:+ file_path +:+ ": "
                                   +:+ str_of_exception e);
           ret success_count);
    write_each rest bandcamp_url success_count
  end.

Definition _write_metadata_to_files (file_paths : list string) (bandcamp_url : option value)
  : M unit :=
  match bandcamp_url with
  | Some url =>
    if negb (value_truthy bandcamp_url)
    then scream Info "No Bandcamp URL available for metadata writing"
    else
      let audio_files :=
        filter (fun file_path => Path.suffix file_path ∈ suffix_to_metadata) file_paths in
      match audio_files with
      | [] => scream Info "No supported audio files found for metadata writing"
      | _ =>
        let n := Str.of_int (Z.of_nat (length audio_files)) in
        perform scream Info ("Writing metadata from " +:+ Strategy.fstring url +:+ " to "
                               +:+ n +:+ " audio file(s)");
        do success_count <- write_each audio_files url 0;
        if 0 <? success_count
        then scream Success ("Successfully wrote metadata to "
                               +:+ Str.of_int success_count +:+ "/" +:+ n +:+ " audio files")
        else scream Error "Failed to write metadata to any audio files"
      end
  | None => scream Info "No Bandcamp URL available for metadata writing"
  end.

End Tags.

Section Cover.

(** The bytes of an image. *)
Variable content : Type.
(** [self.requester.session.get(art_url)], [response.raise_for_status()] and
    [response.content] *)
Variable session_get : string -> outcome content.
(** [open(cover_path, 'wb')]: whether the file can be opened for writing *)
Variable open_wb : string -> outcome unit.
(** [str(e)] *)
Variable str_of_exception : exn -> string.

(** The surroundings of [_download_cover_image]: the files on the disk, the
    lines of the screamer and the requests made. *)
Record shelf := Shelf {
  files : gmap string content;
  lines : list message;
  asked : list string
}.

Definition tell (l : level) (text : string) (sh : shelf) : shelf :=
  Shelf (files sh) (lines sh ++ [Msg l text]) (asked sh).

(** Every exception of the [try] block is caught: the function returns
    nothing and raises nothing, and what it does is the shelf it leaves. *)
Definition _download_cover_image (art_url : option string) (moved_files : list string)
    (sh : shelf) : shelf :=
  match moved_files with
  | first :: _ =>
    if negb (Strategy.truthy art_url) then sh
    else
      let art_url := default "" art_url in
      let album_dir := Path.parent first in
      let cover_path := Path.div album_dir "cover.png" in
      if bool_decide (is_Some (files sh !! cover_path))
      then tell Info ("Cover image already exists: " +:+ cover_path) sh
      else
        let sh := tell Info ("Downloading cover image from " +:+ art_url) sh in
        let sh := Shelf (files sh) (lines sh) (asked sh ++ [art_url]) in
        let failed (e : exn) :=
          tell Error ("Failed to download cover image: " +:+ str_of_exception e) sh in
        match session_get art_url with
        | Raise e => failed e
        | Ok image =>
          match open_wb cover_path with
          | Raise e => failed e
          | Ok _ =>
            tell Success ("Cover image saved: " +:+ cover_path)
              (Shelf (<[cover_path := image]> (files sh)) (lines sh) (asked sh))
          end
        end
  | [] => sh
  end.

End Cover.

End Finisher.

(** ** Sample collaborators

    Concrete pages and servers on which the program is run below. *)

Module Sample.

(** A server that answers every request with the given status. *)
Definition failing_fetch (status_code : Z) : string -> outcome unit :=
  fun _ => Raise (HTTPError status_code).

Definition no_grid : unit -> option (list string) := fun _ => None.
Definition no_ip : string -> string := fun _ => "".

(** [add_url] and [__init__] against a server that answers 404. *)
Definition add_url_404 : string -> M unit :=
  Resolver.add_url unit (failing_fetch 404) no_ip no_grid
    Resolver.simple_urlparse Resolver.simple_geturl Resolver.simple_urljoin true.
Definition init_404 : list string -> M unit :=
  Resolver.init unit (failing_fetch 404) no_ip no_grid
    Resolver.simple_urlparse Resolver.simple_geturl Resolver.simple_urljoin true.
Definition init_500 : list string -> M unit :=
  Resolver.init unit (failing_fetch 500) no_ip no_grid
    Resolver.simple_urlparse Resolver.simple_geturl Resolver.simple_urljoin true.

(** A release and its server.  The response to a request is the URL asked. *)
Definition release_url : string := "https://examplelabel.bandcamp.com/album/demo".

Definition preview (url : string) : option (gmap string string) :=
  Some {["mp3-128" := url]}.

(** Three tracks: the first has no number, the second has no preview. *)
Definition demo_tracks : list Strategy.track :=
  [ Strategy.Track (preview "https://t4.bcbits.com/stream/1") None "Intro";
    Strategy.Track None (Some 2) "Interlude";
    Strategy.Track (preview "https://t4.bcbits.com/stream/3") (Some 3) "Outro" ].

Definition demo_album (free_page : option string) (email_gated : bool)
  : Strategy.music_data :=
  Strategy.MusicData demo_tracks "Example Artist" "Demo"
    (Some "01 Jan 2020 00:00:00 GMT") "02 Feb 2021 00:00:00 GMT" "album"
    free_page email_gated 42 None None.

Definition fetch_page (url : string) : outcome string := Ok url.
Definition post_form (url : string) (form : list (string * string)) : outcome string :=
  Ok url.

(** The formats of the download page, and what the stat endpoint says of each. *)
Definition offered : gmap string string :=
  {[ "flac" := "https://popplers5.bandcamp.com/download/album?enc=flac";
     "mp3-320" := "https://popplers5.bandcamp.com/download/album?enc=mp3-320";
     "wav" := "https://popplers5.bandcamp.com/download/album?enc=wav" ]}.

Definition stat_answer (url : string) : outcome Strategy.stat :=
  if Str.contains "enc=flac" url
  then Ok (Strategy.Stat "OK" (Some "https://p4.bcbits.com/download/flac") None)
  else if Str.contains "enc=mp3-320" url
  then Ok (Strategy.Stat "err" None (Some "https://p4.bcbits.com/retry/mp3-320"))
  else Ok (Strategy.Stat "expired" None None).

(** Archives for the official downloads, plain files for the previews. *)
Definition written (url destination template : string) (label : option string)
  : outcome string :=
  Ok (Path.div destination
        (Str.replace "{ext}" (if Str.contains "bcbits.com/stream" url then ".mp3" else ".zip")
           template)).

Definition random_name (history : list event) : string :=
  "tmp" +:+ Str.of_int (Z.of_nat (length history)) +:+ "{ext}".

(** An unpacked archive holds one audio file and the cover. *)
Definition unpacked (p : string) : bool := Str.contains "/tmp" p.
Definition children (p : string) : list string :=
  [p +:+ "/Example Artist - Demo - 01 Intro.flac"; p +:+ "/cover.jpg"].

(** The mailbox receives the message at the third check. *)
Definition inbox (seconds : Z) : list Strategy.mail :=
  if seconds =? 3 then [Strategy.Mail "<a href='https://bandcamp.com/download?id=42'>"] else [].
Definition silent_inbox (seconds : Z) : list Strategy.mail := [].
Definition href (body : string) : option string :=
  Some "https://bandcamp.com/download?id=42".

(** A sanitizer that finds nothing to change, as on a platform where the
    names at hand are all legal. *)
Definition unchanged (p platform : string) : string := p.

Definition audio_suffixes : list string := [".mp3"; ".flac"; ".ogg"; ".m4a"].

Definition track_context (file_path : string) (tracks : gmap (option Z) string)
  : gmap string value :=
  {[ "title" := VStr (Path.stem file_path); "track_number" := VInt 1;
     "ext" := VStr (Path.suffix file_path) ]}.

Definition nothing_to_write (files : list string) (url : option value) : M unit := ret tt.
Definition no_cover (art_url : option string) (files : list string) : M unit := ret tt.

(** The naming templates: ["{artist}/{album}/{track_number:02d} {title}{ext}"]
    and ["{artist}/{album}/{filename}"]. *)
Definition output : list piece :=
  [Field "artist"; Lit "/"; Field "album"; Lit "/"; Field02d "track_number"; Lit " ";
   Field "title"; Field "ext"].
Definition output_extra : list piece :=
  [Field "artist"; Lit "/"; Field "album"; Lit "/"; Field "filename"].

Definition download_from_url (music_data : Strategy.music_data) (fallback : bool)
    (download_formats : list string) : M unit :=
  Strategy.download_from_url string fetch_page post_form (fun _ => true) (fun r => r)
    stat_answer (fun _ => Ok music_data) (fun _ => Ok offered)
    Resolver.simple_urlparse Resolver.simple_geturl written random_name
    "mailbox@1secmail.com" inbox href fallback unpacked children "Linux" unchanged
    audio_suffixes track_context nothing_to_write no_cover
    release_url "music" output output_extra download_formats.

Definition free_download_loop : gmap string string -> string -> string -> list string ->
                                list string -> M (list string) :=
  Strategy.free_download_loop stat_answer Resolver.simple_urlparse Resolver.simple_geturl
    written random_name.

Definition download_fallback_mp3 : list Strategy.track -> string -> string ->
                                   option string -> string -> M (list string) :=
  Strategy.download_fallback_mp3 written.

Definition move_file : string -> string -> list piece -> list piece ->
                       gmap (option Z) string -> gmap string value ->
                       M (string * gmap string value) :=
  Templater.move_file "Linux" unchanged audio_suffixes track_context.

Definition release_context : gmap string value :=
  {[ "artist" := VStr "Example Artist"; "album" := VStr "Demo";
     "year" := VStr "2020"; "bandcamp_url" := VStr release_url ]}.

(** A page whose sources disagree: the credits give a year before 1950, a
    meta tag gives 2019, the data blob 2018, the structured data 2017, and the
    text a copyright of 2016. *)
Definition conflicting_page : Metadata.page :=
  Metadata.Page (Some "Debut album, released March 5, 1949 on wax")
    ["2019-06-01T00:00:00Z"] ["01 Jan 2018 00:00:00 GMT"] ["2017-01-01"]
    ("all rights reserved " +:+ String "169" " 2016").

(** A release by an artist whose name holds a separator. *)
Definition slash_context : gmap string value :=
  {[ "artist" := VStr "AC/DC"; "album" := VStr "Demo";
     "year" := VStr "2020"; "bandcamp_url" := VStr release_url ]}.

(** An album page: the title, the artist line, and a track table of three
    rows, of which the second has no digit in its number cell. *)
Definition album_page : Extractor.soup :=
  Extractor.Soup (Some "  Demo  ") None (Some "  Demo  ")
    (Some (Extractor.Heading None " by  Example Artist "))
    None None conflicting_page
    (Some [Extractor.Row (Some "1.") (Some " Intro ") (Some "01:23");
           Extractor.Row (Some "-") (Some "Interlude") None;
           Extractor.Row (Some " 3. ") (Some "Outro") None]).

(** The server of the extractor: the page of the release, 404 elsewhere. *)
Definition get_page (url : string) : outcome Extractor.soup :=
  if String.eqb url release_url then Ok album_page else Raise (HTTPError 404).

Definition describe (e : exn) : string :=
  match e with
  | HTTPError status_code => Str.of_int status_code +:+ " Client Error"
  | ValueError msg => msg
  | KeyError key => key
  | _ => ""
  end.

(** A tag handler without a [year] attribute, whose [save] succeeds. *)
Definition tag_handler : Writer.handler :=
  Writer.Handler (fun field => negb (String.eqb field "year")) (fun _ => Ok tt).

Definition write_metadata_to_file : string -> string -> outcome Writer.report :=
  Writer.write_metadata_to_file Extractor.soup get_page (fun soup => soup) describe
    audio_suffixes (fun _ => Ok (Some tag_handler)).

(** A writer that tags the first track, fails on the last and gives up on
    the others. *)
Definition tag_writer (file_path : string) (bandcamp_url : value) : outcome bool :=
  if Str.contains "Intro" file_path then Ok true
  else if Str.contains "Outro" file_path then Raise (ValueError "not a FLAC file")
  else Ok false.

Definition _write_metadata_to_files : list string -> option value -> M unit :=
  Finisher._write_metadata_to_files audio_suffixes tag_writer describe.

(** An image server and a disk on which every file can be opened. *)
Definition _download_cover_image : option string -> list string ->
                                   Finisher.shelf string -> Finisher.shelf string :=
  Finisher._download_cover_image string (fun _ => Ok "PNG") (fun _ => Ok tt) describe.

End Sample.

(** * Properties *)

Local Open Scope list_scope.

(** What a computation adds to the console and to the trace. *)
Definition says (st : state) (l : level) (text : string) : state :=
  State (urls st) (log st ++ [Msg l text]) (trace st).
Definition records (st : state) (e : event) : state :=
  State (urls st) (log st) (trace st ++ [e]).


(** Kinds of events and of printed lines. *)
Definition is_download (e : event) : bool :=
  match e with
  | Download _ _ _ _ => true
  | _ => false
  end.
Definition is_error (m : message) : bool :=
  match msg_level m with
  | Error => true
  | _ => false
  end.

(** The targets of the moves of a trace, in order. *)
Definition move_targets (evs : list event) : list string :=
  flat_map (fun e => match e with Move _ target => [target] | _ => [] end) evs.

(** The numbers of the groups of a pattern. *)
Fixpoint groups_of (r : Re.regex) : list nat :=
  match r with
  | Re.Cat r1 r2 | Re.Alt r1 r2 => groups_of r1 ++ groups_of r2
  | Re.Star r1 => groups_of r1
  | Re.Grp n r1 => n :: groups_of r1
  | _ => []
  end.

(** The separators of a string, and those of the literal text of a naming
    template. *)
Definition separators (s : string) : nat := count_occ ascii_dec (Str.chars s) "/"%char.
Definition template_separators (output : list piece) : nat :=
  list_sum (map (fun pc => match pc with Lit text => separators text | _ => 0%nat end)
              output).


(** The sources of the moves of a trace, in order. *)
Definition move_sources (evs : list event) : list string :=
  flat_map (fun e => match e with Move source _ => [source] | _ => [] end) evs.

Lemma bind_ok {A B} (m : M A) (k : A -> M B) st a st' :
  m st = (Ok a, st') -> bind m k st = k a st'.
Proof. intros H. unfold bind. now rewrite H. Qed.

Lemma bind_raise {A B} (m : M A) (k : A -> M B) st e st' :
  m st = (Raise e, st') -> bind m k st = (Raise e, st').
Proof. intros H. unfold bind. now rewrite H. Qed.

Lemma bind_assoc {A B C} (m : M A) (f : A -> M B) (g : B -> M C) st :
  bind (bind m f) g st = bind m (fun a => bind (f a) g) st.
Proof. unfold bind. destruct (m st) as [[a|e] st']; reflexivity. Qed.

Lemma bind_ext {A B} (m : M A) (k k' : A -> M B) st :
  (forall a st', k a st' = k' a st') -> bind m k st = bind m k' st.
Proof. intros H. unfold bind. destruct (m st) as [[a|e] st']; [apply H|reflexivity]. Qed.

Lemma emit_records e st : emit e st = (Ok tt, records st e).
Proof. reflexivity. Qed.

Lemma scream_says l text st : scream l text st = (Ok tt, says st l text).
Proof. reflexivity. Qed.

(** ** The matcher *)

Section MatcherFacts.

Import Re.

Lemma star_loop_sound {A} (r : regex) (k : pos -> captures -> option A) (x : A)
    (IH : forall p caps (k' : pos -> captures -> option A) y,
            run r p caps k' = Some y ->
            exists q caps', matches r p q /\ k' q caps' = Some y)
    (fuel : nat) (p : pos) (caps : captures) :
  star_loop (run r) k fuel p caps = Some x ->
  exists q caps', matches (Star r) p q /\ k q caps' = Some x.
Proof.
  revert p caps. induction fuel as [|fuel IHfuel]; intros p caps H; cbn in H.
  - exists p, caps. split; [constructor|exact H].
  - match type of H with
    | match ?body with _ => _ end = _ => destruct body as [y|] eqn:Hbody
    end.
    + injection H as ->.
      apply IH in Hbody as (q & caps' & Hq & Hk). cbn beta in Hk.
      match type of Hk with
      | (if ?c then _ else _) = _ => destruct c; [|discriminate]
      end.
      apply IHfuel in Hk as (s & caps'' & Hs & Hk).
      exists s, caps''. split; [econstructor; eassumption|exact Hk].
    + exists p, caps. split; [constructor|exact H].
Qed.

(** What the matcher finds is a match: a result of [run] comes from the
    continuation, called at the end of a match of the pattern. *)
Lemma run_sound {A} (r : regex) :
  forall (p : pos) (caps : captures) (k : pos -> captures -> option A) (x : A),
    run r p caps k = Some x ->
    exists q caps', matches r p q /\ k q caps' = Some x.
Proof.
  induction r as [|f|r1 IH1 r2 IH2|r1 IH1 r2 IH2|r IH|n r IH| |]; intros p caps k x H;
    cbn [run] in H.
  - exists p, caps. split; [constructor|exact H].
  - destruct p as [b [|c a]]; cbn in H; [discriminate|].
    destruct (f c) eqn:Hf; [|discriminate].
    exists (Pos (c :: b) a), caps. split; [now constructor|exact H].
  - apply IH1 in H as (q & caps' & Hq & H).
    apply IH2 in H as (s & caps'' & Hs & H).
    exists s, caps''. split; [econstructor; eassumption|exact H].
  - destruct (run r1 p caps k) as [y|] eqn:H1.
    + injection H as ->. apply IH1 in H1 as (q & caps' & Hq & H).
      exists q, caps'. split; [now apply matches_alt_l|exact H].
    + apply IH2 in H as (q & caps' & Hq & H).
      exists q, caps'. split; [now apply matches_alt_r|exact H].
  - eapply star_loop_sound; [exact IH|exact H].
  - apply IH in H as (q & caps' & Hq & H).
    exists q, (<[n := between p q]> caps'). split; [now constructor|exact H].
  - destruct (at_eol p) eqn:He; [|discriminate].
    exists p, caps. split; [now constructor|exact H].
  - destruct (at_word_boundary p) eqn:He; [|discriminate].
    exists p, caps. split; [now constructor|exact H].
Qed.

(** A match reads a piece of the subject. *)
Lemma matches_span (r : regex) (p q : pos) :
  matches r p q ->
  exists w, after p = w ++ after q /\ before q = rev w ++ before p.
Proof.
  induction 1 as [p|f c b a Hf|r1 r2 p q s _ (w1 & Ha1 & Hb1) _ (w2 & Ha2 & Hb2)
                 |r1 r2 p q _ IH|r1 r2 p q _ IH|r p
                 |r p q s _ (w1 & Ha1 & Hb1) _ (w2 & Ha2 & Hb2)|n r p q _ IH|p _|p _];
    try (exists []; split; reflexivity); try exact IH.
  - exists [c]. split; reflexivity.
  - exists (w1 ++ w2). rewrite Ha1, Ha2, Hb2, Hb1, rev_app_distr, !app_assoc.
    split; reflexivity.
  - exists (w1 ++ w2). rewrite Ha1, Ha2, Hb2, Hb1, rev_app_distr, !app_assoc.
    split; reflexivity.
Qed.

Lemma fullmatch_sound (r : regex) (s : string) :
  fullmatch r s = true ->
  matches r (Pos [] (Str.chars s)) (Pos (rev (Str.chars s)) []).
Proof.
  unfold fullmatch. intros H. apply bool_decide_eq_true_1 in H as [caps H].
  apply run_sound in H as ([b a] & caps' & Hm & Hk).
  destruct a; [|discriminate].
  destruct (matches_span _ _ _ Hm) as (w & Ha & Hb). cbn in Ha, Hb.
  rewrite app_nil_r in Ha, Hb. subst w. now rewrite <- Hb.
Qed.

Lemma matches_cls_inv (f : ascii -> bool) (b a : list ascii) (q : pos) :
  matches (Cls f) (Pos b a) q ->
  exists c a', a = c :: a' /\ f c = true /\ q = Pos (c :: b) a'.
Proof. inversion 1; subst. eauto. Qed.

Lemma matches_star_cls_inv (f : ascii -> bool) (p q : pos) :
  matches (Star (Cls f)) p q ->
  exists w, after p = w ++ after q /\ before q = rev w ++ before p
            /\ Forall (fun c => f c = true) w.
Proof.
  remember (Star (Cls f)) as r eqn:Hr. intros H.
  induction H as [| | | | |r p|r p q s H1 _ H2 IH| | |]; try discriminate.
  - exists []. repeat split. constructor.
  - injection Hr as ->. destruct p as [b a].
    apply matches_cls_inv in H1 as (c & a' & -> & Hf & ->).
    destruct (IH eq_refl) as (w & Ha & Hb & Hw).
    exists (c :: w). cbn in *. rewrite Ha, Hb, <- app_assoc. repeat split.
    now constructor.
Qed.

Lemma star_loop_S {A}
    (body : pos -> captures -> (pos -> captures -> option A) -> option A)
    (k : pos -> captures -> option A) (fuel : nat) (p : pos) (caps : captures) :
  star_loop body k (S fuel) p caps
  = match body p caps
            (fun q caps' =>
               if (length (after q) <? length (after p))%nat
               then star_loop body k fuel q caps' else None) with
    | Some x => Some x
    | None => k p caps
    end.
Proof. reflexivity. Qed.

Lemma run_grp {A} (n : nat) (r : regex) (p : pos) (caps : captures)
    (k : pos -> captures -> option A) :
  run (Grp n r) p caps k
  = run r p caps (fun q caps' => k q (<[n := between p q]> caps')).
Proof. reflexivity. Qed.

Lemma run_cat {A} (r1 r2 : regex) (p : pos) (caps : captures)
    (k : pos -> captures -> option A) :
  run (Cat r1 r2) p caps k = run r1 p caps (fun q caps' => run r2 q caps' k).
Proof. reflexivity. Qed.

Lemma run_star {A} (r : regex) (p : pos) (caps : captures)
    (k : pos -> captures -> option A) :
  run (Star r) p caps k = star_loop (run r) k (length (after p)) p caps.
Proof. reflexivity. Qed.

Lemma run_cls_cons {A} (f : ascii -> bool) (b a : list ascii) (c : ascii)
    (caps : captures) (k : pos -> captures -> option A) :
  run (Cls f) (Pos b (c :: a)) caps k = if f c then k (Pos (c :: b) a) caps else None.
Proof. reflexivity. Qed.

(** The greedy loop over a character class reads the whole run of
    characters of the class, when the continuation accepts the position after
    the run. *)
Lemma star_cls_greedy {A} (f : ascii -> bool) (k : pos -> captures -> option A)
    (caps : captures) (x : A) (post : list ascii) (w b : list ascii) (fuel : nat) :
  Forall (fun c => f c = true) w ->
  match post with c :: _ => f c = false | [] => True end ->
  (length (w ++ post) <= fuel)%nat ->
  k (Pos (rev w ++ b) post) caps = Some x ->
  star_loop (run (Cls f)) k fuel (Pos b (w ++ post)) caps = Some x.
Proof.
  intros Hw Hpost. revert b fuel. induction Hw as [|c w Hc Hw IH]; intros b fuel Hfuel Hk.
  - cbn in *. destruct fuel as [|fuel]; [exact Hk|]. cbn.
    destruct post as [|c post]; [exact Hk|]. now rewrite Hpost.
  - destruct fuel as [|fuel]; [cbn in Hfuel; lia|].
    rewrite star_loop_S. change ((c :: w) ++ post) with (c :: w ++ post).
    rewrite run_cls_cons, Hc. cbn [after].
    rewrite (proj2 (Nat.ltb_lt _ _)) by (cbn; lia).
    rewrite (IH (c :: b) fuel); [reflexivity|cbn in Hfuel; lia|].
    cbn in Hk. now rewrite <- app_assoc in Hk.
Qed.

End MatcherFacts.

(** ** URL Resolver *)

Lemma alnum_class (c : ascii) :
  Re.ignorecase (fun c => Str.in_range "a" "z" c || Str.in_range "0" "9" c) c
  = Str.is_alnum c.
Proof. destruct c as [[] [] [] [] [] [] [] []]; reflexivity. Qed.

Lemma alnum_hyphen_class (c : ascii) :
  Re.ignorecase (fun c => Str.in_range "a" "z" c || Str.in_range "0" "9" c
                          || Ascii.eqb c "-") c
  = Str.is_alnum c || Ascii.eqb c "-".
Proof. destruct c as [[] [] [] [] [] [] [] []]; reflexivity. Qed.

(** The identifiers of the subdomain grammar: a letter or digit, at least
    two letters, digits or hyphens, and a letter or digit; letters of either
    case.  So they have at least four characters and do not end (or begin)
    with a hyphen. *)
Lemma subdomain_grammar (name : string) :
  Re.fullmatch Resolver.BANDCAMP_SUBDOMAIN_REGEX name = true ->
  exists first middle last,
    Str.chars name = first :: middle ++ [last]
    /\ Str.is_alnum first = true
    /\ (2 <= length middle)%nat
    /\ Forall (fun c => Str.is_alnum c || Ascii.eqb c "-" = true) middle
    /\ Str.is_alnum last = true.
Proof.
  intros H. apply fullmatch_sound in H.
  unfold Resolver.BANDCAMP_SUBDOMAIN_REGEX, Resolver._BANDCAMP_SUBDOMAIN_PATTERN,
    Resolver.alnum_i, Resolver.alnum_hyphen_i, Re.AtLeast in H. cbn [Re.Rep] in H.
  inversion H as [| |? ? ? q1 ? H1 H2| | | | | | |]; subst; clear H.
  apply matches_cls_inv in H1 as (c0 & a0 & Hchars & Hc0 & ->).
  inversion H2 as [| |? ? ? q2 ? H3 H4| | | | | | |]; subst; clear H2.
  inversion H3 as [| |? ? ? q3 ? H5 H6| | | | | | |]; subst; clear H3.
  inversion H5 as [| |? ? ? q4 ? H7 H8| | | | | | |]; subst; clear H5.
  apply matches_cls_inv in H7 as (c1 & a1 & -> & Hc1 & ->).
  inversion H8 as [| |? ? ? q5 ? H9 H10| | | | | | |]; subst; clear H8.
  apply matches_cls_inv in H9 as (c2 & a2 & -> & Hc2 & ->).
  inversion H10; subst; clear H10.
  apply matches_star_cls_inv in H6 as (w & Ha & Hb & Hw). cbn in Ha, Hb.
  destruct q2 as [b2 a3]. cbn in Ha, Hb. subst a2 b2.
  apply matches_cls_inv in H4 as (cl & a4 & -> & Hcl & Hend).
  injection Hend as _ <-.
  exists c0, (c1 :: c2 :: w), cl. rewrite Hchars.
  rewrite alnum_class in Hc0, Hcl. rewrite alnum_hyphen_class in Hc1, Hc2.
  repeat split; try assumption.
  - cbn. lia.
  - repeat constructor; try assumption.
    eapply Forall_impl; [exact Hw|]. intros c Hc. cbn beta in Hc.
    now rewrite alnum_hyphen_class in Hc.
Qed.

Lemma subdomain_at_least_four (name : string) :
  Re.fullmatch Resolver.BANDCAMP_SUBDOMAIN_REGEX name = true ->
  (4 <= String.length name)%nat.
Proof.
  intros H. apply subdomain_grammar in H as (c0 & mid & cl & Hchars & _ & Hlen & _).
  assert (Hl : String.length name = length (Str.chars name)).
  { unfold Str.chars. clear. induction name as [|c s IH]; cbn; [reflexivity|now rewrite IH]. }
  rewrite Hl, Hchars. cbn. rewrite length_app. cbn. lia.
Qed.

Section ResolverFacts.

Variable response : Type.
Variable fetch : string -> outcome response.
Variable get_ip_from_url : string -> string.
Variable music_grid : response -> option (list string).
Variable urlparse : string -> ParseResult.
Variable geturl : ParseResult -> string.
Variable urljoin : string -> string -> string.
Variable force_https : bool.

Abbreviation _add_urls_from_artist :=
  (Resolver._add_urls_from_artist response fetch music_grid urlparse urljoin).
Abbreviation add_url :=
  (Resolver.add_url response fetch get_ip_from_url music_grid urlparse geturl urljoin
     force_https).

(** Adding URLs to [self.urls] neither prints nor calls out, and cannot fail. *)
Lemma for_each_urls_add {A} (f : A -> string) (xs : list A) st :
  exists us, for_each xs (fun x => urls_add (f x)) st
             = (Ok tt, State us (log st) (trace st)).
Proof.
  revert st. induction xs as [|x xs IH]; intros st.
  - exists (urls st). now destruct st.
  - cbn [for_each]. unfold bind at 1. cbn.
    destruct (IH (State ({[f x]} ∪ urls st) (log st) (trace st))) as [us Hus].
    exists us. exact Hus.
Qed.

(** The expansion of an artist root makes exactly one request, to the root,
    and prints nothing; it ends normally, with the [HTTPError] of the request,
    or with the [ValueError] of a page without a release grid. *)
Lemma add_urls_from_artist_effects source_url st :
  exists o us,
    _add_urls_from_artist source_url st
      = (o, State us (log st) (trace st ++ [Get source_url]))
    /\ match fetch source_url with
       | Raise e => o = Raise e /\ us = urls st
       | Ok r => match music_grid r with
                 | None => o = Raise (ValueError "") /\ us = urls st
                 | Some _ => o = Ok tt
                 end
       end.
Proof.
  unfold Resolver._add_urls_from_artist, Resolver.get_request_or_error.
  unfold bind at 1. unfold bind at 1. cbn. unfold lift.
  destruct (fetch source_url) as [r|e]; cbn.
  - destruct (music_grid r) as [anchors|]; cbn.
    + match goal with |- context [for_each anchors ?body ?s] =>
        destruct (for_each_urls_add
                    (fun href =>
                       let parsed_url := urlparse href in
                       if negb (String.eqb (scheme parsed_url) "")
                       then urljoin (scheme parsed_url +:+ "://"
                                       +:+ Str.strip_slash_space (netloc parsed_url))
                                    (Str.strip_slash_space (path parsed_url))
                       else urljoin ("https://" +:+ Str.strip_slash_space
                                                      (netloc (urlparse source_url)))
                                    (Str.strip_slash_space (path parsed_url)))
                    anchors s) as [us Hus]
      end.
      exists (Ok tt), us. split; [exact Hus | reflexivity].
    + eexists _, _. split; [reflexivity | split; reflexivity].
  - eexists _, _. split; [reflexivity | split; reflexivity].
Qed.

(** C9. An identifier that fullmatches the subdomain grammar is resolved by
    one request, and the URL requested is exactly [https://] followed by the
    lower-cased identifier, [.bandcamp.com] and [/music].  Such an identifier
    has at least four characters, all of them letters, digits or hyphens, and
    the last one (like the first) is not a hyphen. *)
Theorem add_url_subdomain_root (name : string) (st : state) :
  Re.fullmatch Resolver.BANDCAMP_SUBDOMAIN_REGEX name = true ->
  trace (add_url name st).2
  = trace st ++ [Get ("https://" +:+ Str.lower name +:+ ".bandcamp.com/music")]
  /\ (4 <= String.length name)%nat
  /\ exists first middle last,
       Str.chars name = first :: middle ++ [last]
       /\ Str.is_alnum first = true
       /\ Forall (fun c => Str.is_alnum c || Ascii.eqb c "-" = true) middle
       /\ Str.is_alnum last = true.
Proof.
  intros Hm. split; [|split].
  2:{ now apply subdomain_at_least_four. }
  2:{ destruct (subdomain_grammar name Hm) as (c0 & mid & cl & H1 & H2 & _ & H3 & H4).
      now exists c0, mid, cl. }
  unfold Resolver.add_url. rewrite Hm. unfold try_except.
  destruct (add_urls_from_artist_effects
              ("https://" +:+ Str.lower name +:+ ".bandcamp.com/music") st)
    as (o & us & Heq & _).
  rewrite Heq.
  destruct o as [[]|e]; [reflexivity|].
  destruct e as [code|msg| | | |v]; try reflexivity.
  destruct (code =? 404); reflexivity.
Qed.

(** The bare-subdomain path reports an [HTTPError] of the root request and
    ends normally: "not found" for 404, "request error" otherwise. *)
Lemma add_url_subdomain_http_error (name : string) (st : state) (status_code : Z) :
  Re.fullmatch Resolver.BANDCAMP_SUBDOMAIN_REGEX name = true ->
  fetch ("https://" +:+ Str.lower name +:+ ".bandcamp.com/music")
    = Raise (HTTPError status_code) ->
  add_url name st
  = (Ok tt,
     says (records st (Get ("https://" +:+ Str.lower name +:+ ".bandcamp.com/music")))
       Error (if status_code =? 404 then name +:+ " not found"
              else "Request error while getting URLs for " +:+ name)).
Proof.
  intros Hm Hf. unfold Resolver.add_url. rewrite Hm. unfold try_except.
  destruct (add_urls_from_artist_effects
              ("https://" +:+ Str.lower name +:+ ".bandcamp.com/music") st)
    as (o & us & Heq & Ho).
  rewrite Heq. rewrite Hf in Ho. destruct Ho as [-> ->].
  destruct (status_code =? 404); reflexivity.
Qed.

(** The URL path has no handler: the [HTTPError] of the root request leaves
    [add_url], and nothing is printed. *)
Lemma add_url_root_url_http_error (name : string) (st : state) (status_code : Z) :
  let parsed_url :=
    if String.eqb (scheme (urlparse name)) "" then urlparse ("https://" +:+ name)
    else if force_https then replace_scheme "https" (urlparse name)
    else urlparse name in
  let root := scheme parsed_url +:+ "://" +:+ netloc parsed_url +:+ "/music" in
  Re.fullmatch Resolver.BANDCAMP_SUBDOMAIN_REGEX name = false ->
  Re.fullmatch Resolver.BANDCAMP_URL_REGEX (netloc parsed_url) = true ->
  Str.strip_slash_space (path parsed_url) ∈ ["music"; ""] ->
  fetch root = Raise (HTTPError status_code) ->
  add_url name st = (Raise (HTTPError status_code), records st (Get root)).
Proof.
  intros parsed_url root Hm Hu Hp Hf. unfold Resolver.add_url. rewrite Hm.
  fold parsed_url. rewrite Hu. cbn [orb].
  rewrite bool_decide_eq_true_2 by exact Hp. fold root.
  destruct (add_urls_from_artist_effects root st) as (o & us & Heq & Ho).
  rewrite Heq. rewrite Hf in Ho. destruct Ho as [-> ->]. reflexivity.
Qed.

End ResolverFacts.

(** C6, at the failing input.  The identifier is an artist root given as a URL
    and the server answers 404: [__init__] ends with the [HTTPError], nothing
    has been printed, and the next identifier has not been looked at. *)
Theorem artist_root_url_404_aborts_batch :
  Sample.init_404 ["https://examplelabel.bandcamp.com/music"; "otherlabel"] initial
  = (Raise (HTTPError 404),
     State ∅ [] [Get "https://examplelabel.bandcamp.com/music"]).
Proof. vm_compute. reflexivity. Qed.

(** The same identifiers as bare subdomains: both failures are reported and
    the batch goes on. *)
Lemma artist_root_subdomain_404_continues :
  Sample.init_404 ["examplelabel"; "otherlabel"] initial
  = (Ok tt,
     State ∅ [Msg Error "examplelabel not found"; Msg Error "otherlabel not found"]
       [Get "https://examplelabel.bandcamp.com/music";
        Get "https://otherlabel.bandcamp.com/music"]).
Proof. vm_compute. reflexivity. Qed.

Lemma artist_root_subdomain_500_continues :
  Sample.init_500 ["examplelabel"; "otherlabel"] initial
  = (Ok tt,
     State ∅ [Msg Error "Request error while getting URLs for examplelabel";
              Msg Error "Request error while getting URLs for otherlabel"]
       [Get "https://examplelabel.bandcamp.com/music";
        Get "https://otherlabel.bandcamp.com/music"]).
Proof. vm_compute. reflexivity. Qed.

Lemma artist_root_url_500_aborts_batch :
  Sample.init_500 ["examplelabel.bandcamp.com"; "otherlabel"] initial
  = (Raise (HTTPError 500),
     State ∅ [] [Get "https://examplelabel.bandcamp.com/music"]).
Proof. vm_compute. reflexivity. Qed.

Lemma add_url_subdomain_root_examplelabel :
  Re.fullmatch Resolver.BANDCAMP_SUBDOMAIN_REGEX "examplelabel" = true /\
  trace (Sample.add_url_404 "examplelabel" initial).2
  = [Get "https://examplelabel.bandcamp.com/music"].
Proof.
  split; [vm_compute; reflexivity|].
  exact (proj1 (add_url_subdomain_root unit (Sample.failing_fetch 404) Sample.no_ip
                  Sample.no_grid Resolver.simple_urlparse Resolver.simple_geturl
                  Resolver.simple_urljoin true "examplelabel" initial eq_refl)).
Defined.

(** ** Download Strategy Engine *)

Section StrategyFacts.

Context (response : Type)
        (fetch : string -> outcome response)
        (post : string -> list (string * string) -> outcome response)
        (json_ok : response -> bool)
        (response_text : response -> string)
        (fetch_stat : string -> outcome Strategy.stat)
        (parse_tralbum : response -> outcome Strategy.music_data)
        (download_items : response -> outcome (gmap string string))
        (urlparse : string -> ParseResult)
        (geturl : ParseResult -> string)
        (download_result : string -> string -> string -> option string -> outcome string)
        (get_random_filename_template : list event -> string)
        (mailbox_address : string)
        (get_messages : Z -> list Strategy.mail)
        (first_anchor_href : string -> option string)
        (fallback : bool)
        (is_dir : string -> bool)
        (iterdir : string -> list string)
        (platform_system : string)
        (sanitize_filepath : string -> string -> string)
        (suffix_to_metadata : list string)
        (get_track_output_context : string -> gmap (option Z) string -> gmap string value)
        (_write_metadata_to_files : list string -> option value -> M unit)
        (_download_cover_image : option string -> list string -> M unit).

Abbreviation stat_url := (Strategy.stat_url urlparse geturl).
Abbreviation materialize :=
  (Strategy.materialize download_result get_random_filename_template).
Abbreviation free_download_loop :=
  (Strategy.free_download_loop fetch_stat urlparse geturl download_result
     get_random_filename_template).
Abbreviation _free_download :=
  (Strategy._free_download response fetch fetch_stat download_items urlparse geturl
     download_result get_random_filename_template).
Abbreviation poll := (Strategy.poll get_messages).
Abbreviation _get_download_url_from_email :=
  (Strategy._get_download_url_from_email response post json_ok response_text urlparse
     mailbox_address get_messages first_anchor_href).
Abbreviation fallback_loop := (Strategy.fallback_loop download_result).
Abbreviation download_fallback_mp3 := (Strategy.download_fallback_mp3 download_result).
Abbreviation place_files :=
  (Strategy.place_files is_dir iterdir platform_system sanitize_filepath suffix_to_metadata
     get_track_output_context _write_metadata_to_files _download_cover_image).
Abbreviation download_from_url :=
  (Strategy.download_from_url response fetch post json_ok response_text fetch_stat
     parse_tralbum download_items urlparse geturl download_result
     get_random_filename_template mailbox_address get_messages first_anchor_href
     fallback is_dir iterdir platform_system sanitize_filepath suffix_to_metadata
     get_track_output_context _write_metadata_to_files _download_cover_image).






Lemma get_music_data_ok (url : string) (st : state) (page : response)
    (music_data : Strategy.music_data) :
  fetch url = Ok page ->
  parse_tralbum page = Ok music_data ->
  Strategy._get_music_data response fetch parse_tralbum url st
  = (Ok music_data, records st (Get url)).
Proof.
  intros Hf Hp. unfold Strategy._get_music_data, Strategy.get_request_or_error.
  unfold bind, try_except, lift. rewrite emit_records, Hf, Hp. reflexivity.
Qed.

(** C2.  A release without a free-download page and without email gating,
    with the fallback switched off and [mp3-128] not requested:
    [download_from_url] asks for the release page and returns.  No file is
    fetched or moved, and nothing but the opening line is printed: the
    [return] of the branch [elif not self.fallback] comes before the
    [raise ValueError("No free download found ...")], which is never reached. *)
Theorem no_strategy_returns_silently (url destination : string)
    (output output_extra : list piece) (download_formats : list string)
    (st : state) (page : response) (music_data : Strategy.music_data) :
  fallback = false ->
  "mp3-128" ∉ download_formats ->
  fetch url = Ok page ->
  parse_tralbum page = Ok music_data ->
  (3 <= length (Str.split (Strategy.release_or_publish_date music_data)))%nat ->
  Strategy.truthy (Strategy.freeDownloadPage music_data) = false ->
  Strategy.require_email music_data = false ->
  download_from_url url destination output output_extra download_formats st
  = (Ok tt,
     records (says st Info ("Searching available downloads for URL " +:+ url)) (Get url)).
Proof.
  intros Hfb Hmp3 Hf Hp Hdate Hfree Hmail.
  unfold Strategy.download_from_url.
  rewrite (bind_ok _ _ _ _ _ (scream_says _ _ _)).
  rewrite bool_decide_eq_false_2 by (rewrite elem_of_list_to_set; exact Hmp3).
  cbv zeta.
  set (st1 := says st Info ("Searching available downloads for URL " +:+ url)).
  rewrite (bind_ok _ _ st1 (Some music_data) (records st1 (Get url))).
  2:{ unfold try_except. rewrite (bind_ok _ _ _ _ _ (get_music_data_ok _ _ _ _ Hf Hp)).
      reflexivity. }
  unfold Strategy.third_word.
  destruct (Str.split (Strategy.release_or_publish_date music_data))
    as [|w1 [|w2 [|year ws]]]; cbn in Hdate; try lia.
  rewrite (bind_ok _ _ _ year (records st1 (Get url))) by reflexivity.
  destruct (String.eqb (Strategy.item_type music_data) "album");
    rewrite Hfree, Hmail, Hfb; reflexivity.
Qed.


(** A track without a preview is passed over: nothing is fetched and nothing
    is printed. *)
Lemma fallback_skips_track_without_preview (track : Strategy.track)
    (rest : list Strategy.track) (artist album : string) (title : option string)
    (destination : string) (file_paths : list string) (st : state) :
  Strategy.file track = None ->
  fallback_loop (track :: rest) artist album title destination file_paths st
  = fallback_loop rest artist album title destination file_paths st.
Proof. intros H. cbn [Strategy.fallback_loop]. now rewrite H. Qed.

(** A numbered track of a release that has a title of its own gets the name
    [<artist> - <album> - <NN> <title>{ext}]. *)
Lemma fallback_name_of_numbered_track (track : Strategy.track)
    (rest : list Strategy.track) (artist album title destination url : string)
    (n : Z) (files : gmap string string) (file_paths : list string) (st : state) :
  Strategy.file track = Some files ->
  files !! "mp3-128" = Some url ->
  Strategy.track_num track = Some n ->
  fallback_loop (track :: rest) artist album (Some title) destination file_paths st
  = bind (Strategy.download_to_file download_result url destination
            (artist +:+ " - " +:+ album +:+ " - " +:+ Str.format_02d n +:+ " " +:+ title
               +:+ "{ext}")
            (Some (Str.format_02d n +:+ ".mp3")))
         (fun file_path =>
            fallback_loop rest artist album (Some title) destination
              (file_paths ++ [file_path])) st.
Proof.
  intros Hfile Hurl Hnum. cbn [Strategy.fallback_loop]. rewrite Hfile, Hnum.
  rewrite bool_decide_eq_false_2.
  - unfold Strategy.subscript. rewrite Hurl. reflexivity.
  - intros ->. now rewrite lookup_empty in Hurl.
Qed.

(** The first track with a preview, in a release without a title of its own:
    an absent number is rendered [1], and the title of this track is what the
    loop carries on to the remaining tracks. *)
Lemma fallback_first_previewed_track (track : Strategy.track)
    (rest : list Strategy.track) (artist album destination url file_path : string)
    (files : gmap string string) (file_paths : list string) (st : state) :
  let track_num := match Strategy.track_num track with
                   | None => "1"
                   | Some n => Str.format_02d n
                   end in
  let template := artist +:+ " - " +:+ album +:+ " - " +:+ track_num +:+ " "
                    +:+ Strategy.title track +:+ "{ext}" in
  let label := Some (track_num +:+ ".mp3") in
  Strategy.file track = Some files ->
  files !! "mp3-128" = Some url ->
  download_result url destination template label = Ok file_path ->
  fallback_loop (track :: rest) artist album None destination file_paths st
  = fallback_loop rest artist album (Some (Strategy.title track)) destination
      (file_paths ++ [file_path])
      (records st (Download url destination template label)).
Proof.
  intros track_num template label Hfile Hurl Hres.
  cbn [Strategy.fallback_loop]. rewrite Hfile.
  rewrite bool_decide_eq_false_2 by (intros ->; now rewrite lookup_empty in Hurl).
  unfold Strategy.subscript. rewrite Hurl.
  unfold bind at 1. unfold ret at 1.
  unfold bind at 1. unfold Strategy.download_to_file.
  unfold bind at 1. rewrite emit_records. unfold lift.
  subst track_num template label.
  destruct (Strategy.track_num track) as [n|].
  - cbn [Strategy.fstring]. now rewrite Hres.
  - change (Strategy.fstring (VInt 1)) with "1". now rewrite Hres.
Qed.

End StrategyFacts.

(** C3, at the failing input: an album (no release-level title) whose first
    track has no number and whose second track has no preview.  The unnumbered
    track is named with [1], not [01]; the third track is named with the title
    of the first, [Intro], not with its own, [Outro]; the track without a
    preview is passed over and nothing is printed. *)
Theorem fallback_names_at_failing_input :
  Sample.download_fallback_mp3 Sample.demo_tracks "Example Artist" "Demo" None "music"
    initial
  = (Ok ["music/Example Artist - Demo - 1 Intro.mp3";
         "music/Example Artist - Demo - 03 Intro.mp3"],
     State ∅ []
       [Download "https://t4.bcbits.com/stream/1" "music"
          "Example Artist - Demo - 1 Intro{ext}" (Some "1.mp3");
        Download "https://t4.bcbits.com/stream/3" "music"
          "Example Artist - Demo - 03 Intro{ext}" (Some "03.mp3")]).
Proof. vm_compute. reflexivity. Qed.



Lemma no_strategy_returns_silently_sample :
  ("mp3-128" ∉ ["flac"])
  /\ Sample.download_from_url (Sample.demo_album None false) false ["flac"] initial
     = (Ok tt,
        State ∅
          [Msg Info "Searching available downloads for URL https://examplelabel.bandcamp.com/album/demo"]
          [Get "https://examplelabel.bandcamp.com/album/demo"]).
Proof.
  assert (Hmp3 : "mp3-128" ∉ ["flac"]).
  { rewrite list_elem_of_singleton. discriminate. }
  split; [exact Hmp3|].
  refine (no_strategy_returns_silently string Sample.fetch_page Sample.post_form
            (fun _ => true) (fun r => r) Sample.stat_answer
            (fun _ => Ok (Sample.demo_album None false)) (fun _ => Ok Sample.offered)
            Resolver.simple_urlparse Resolver.simple_geturl Sample.written
            Sample.random_name "mailbox@1secmail.com" Sample.inbox Sample.href false
            Sample.unpacked Sample.children "Linux" Sample.unchanged Sample.audio_suffixes
            Sample.track_context Sample.nothing_to_write Sample.no_cover
            Sample.release_url "music" Sample.output Sample.output_extra ["flac"] initial
            Sample.release_url (Sample.demo_album None false)
            eq_refl Hmp3 eq_refl eq_refl _ eq_refl eq_refl).
  vm_compute. lia.
Defined.


(** ** Path Templater & Sanitizer *)

Section TemplaterFacts.

Context (platform_system : string)
        (sanitize_filepath : string -> string -> string).

(** When the rendered path does not end in an audio extension after a
    separator, every separator of it becomes a hyphen: those of the template
    and those of the destination alike. *)
Lemma sanitized_path_without_audio_suffix (file_path : string) :
  Re.search Templater.pattern file_path = None ->
  Templater.sanitized_path file_path = Str.replace "/" "-" file_path.
Proof. intros H. unfold Templater.sanitized_path. now rewrite H. Qed.

Lemma substring_tail (c : ascii) (s : string) :
  String.substring 1 (String.length (String c s) - 1) (String c s) = s.
Proof.
  cbn [String.length].
  replace (S (String.length s) - 1)%nat with (String.length s) by lia.
  cbn [String.substring].
  induction s as [|c' s IH]; [reflexivity|].
  cbn [String.length String.substring]. now rewrite IH.
Qed.

(** After [s.replace('/', '-')] no separator is left. *)
Lemma replace_slash_no_slash (s : string) :
  Str.has_char "/" (Str.replace "/" "-" s) = false.
Proof.
  unfold Str.replace.
  assert (H : forall fuel, (String.length s <= fuel)%nat ->
                Str.has_char "/" (Str.replace_go fuel "/" "-" s) = false);
    [|now apply H].
  induction s as [|c s IH]; intros fuel Hfuel.
  - destruct fuel; reflexivity.
  - destruct fuel as [|fuel]; [cbn in Hfuel; lia|].
    cbn [Str.replace_go String.prefix].
    assert (Hp : String.prefix "" s = true) by now destruct s.
    rewrite Hp. destruct (ascii_dec "/" c) as [<-|Hne].
    + change (String.length "/") with 1%nat. rewrite substring_tail.
      change (Str.has_char "/" ("-" +:+ Str.replace_go fuel "/" "-" s))
        with (Str.has_char "/" (Str.replace_go fuel "/" "-" s)).
      apply IH. cbn in Hfuel. lia.
    + unfold Str.has_char, Str.chars. cbn [list_ascii_of_string existsb].
      apply Ascii.eqb_neq in Hne. rewrite Hne. cbn [orb].
      apply IH. cbn in Hfuel. lia.
Qed.

(** A file that is not audio, placed with the extra template: when the
    rendered path does not end in an audio extension, the string handed to
    the sanitizer has no separator left, whatever the template, the
    destination and the context are. *)
Lemma extra_file_flattened (suffix_to_metadata : list string)
    (get_track_output_context : string -> gmap (option Z) string -> gmap string value)
    (file_path destination : string) (output output_extra : list piece)
    (tracks : gmap (option Z) string) (context : gmap string value) (st : state)
    (rendered : string) :
  let context' := <["filename" := VStr (Path.name file_path)]> context in
  let handed := Str.replace "/" "-" (Path.div destination rendered) in
  Path.suffix file_path ∉ suffix_to_metadata ->
  Templater.format output_extra (Templater.sanitize_context context') = Ok rendered ->
  Re.search Templater.pattern (Path.div destination rendered) = None ->
  Str.has_char "/" handed = false
  /\ (Templater.move_file platform_system sanitize_filepath suffix_to_metadata
        get_track_output_context file_path destination output output_extra tracks
        context st).1
     = Ok (Path.of_string
             (sanitize_filepath handed
                (default platform_system (Templater.PLATFORMS !! platform_system))),
           context').
Proof.
  intros context' handed Hsuffix Hformat Hsearch.
  split; [apply replace_slash_no_slash|].
  unfold Templater.move_file.
  rewrite bool_decide_eq_false_2 by exact Hsuffix. fold context'.
  unfold bind, lift. rewrite Hformat. cbn [fst emit].
  unfold Templater._sanitize_file_path.
  now rewrite sanitized_path_without_audio_suffix.
Qed.

(** The cover of an unpacked archive, whatever the platform and the
    sanitizer: what reaches [sanitize_filepath] is one segment. *)
Lemma extra_file_reaches_sanitizer_flattened :
  Templater._sanitize_file_path platform_system sanitize_filepath
    (Path.div "music" "Example Artist/Demo/cover.jpg")
  = Path.of_string
      (sanitize_filepath "music-Example Artist-Demo-cover.jpg"
         (default platform_system (Templater.PLATFORMS !! platform_system))).
Proof. reflexivity. Qed.

End TemplaterFacts.

(** C1, at the failing input: the cover image of an unpacked album, which is
    not an audio file, placed with the template
    ["{artist}/{album}/{filename}"] under the destination [music].  The path
    produced has no directory component at all: the separators of the template
    and the one after the destination have become hyphens, and the file is
    moved into the working directory. *)
Theorem extra_file_loses_directories :
  Sample.move_file "music/tmp3/cover.jpg" "music" Sample.output Sample.output_extra ∅
    Sample.release_context initial
  = (Ok ("music-Example Artist-Demo-cover.jpg",
         <["filename" := VStr "cover.jpg"]> Sample.release_context),
     State ∅ []
       [Mkdir "."; Move "music/tmp3/cover.jpg" "music-Example Artist-Demo-cover.jpg"]).
Proof. vm_compute. reflexivity. Qed.

(** The audio path does what the extra path misses: the directories of the
    template are kept, and a separator that comes from the context (here the
    artist) is a hyphen inside its segment. *)
Lemma audio_file_keeps_directories :
  (Sample.move_file "music/tmp3/Thunder.flac" "music" Sample.output Sample.output_extra ∅
     Sample.slash_context initial).2
  = State ∅ []
      [Mkdir "music/AC-DC/Demo";
       Move "music/tmp3/Thunder.flac" "music/AC-DC/Demo/01 Thunder.flac"].
Proof. vm_compute. reflexivity. Qed.

(** ** Metadata Extractor *)

Section CascadeFacts.

Import Metadata.











End CascadeFacts.

(** The credits come first but their year is out of bounds; the meta tag,
    next in priority, wins over the data blob, the structured data and the
    text. *)
Lemma conflicting_page_year :
  Metadata.candidates Sample.conflicting_page
    = ["1949"; "2019"; "2018"; "2017"; "2016"; "2016"]
  /\ Metadata._extract_release_year Sample.conflicting_page = Some "2019".
Proof. split; vm_compute; reflexivity. Qed.

(** ** Track Matcher *)

Section MatcherOrder.

Import Metadata.

Lemma chars_of_chars (l : list ascii) : Str.chars (Str.of_chars l) = l.
Proof. apply list_ascii_of_string_of_list_ascii. Qed.






(** The fuzzy test in full: one cleaned string inside the other, or both
    word sets non-empty with an overlap of at least three fifths of their
    union. *)
Lemma fuzzy_match_true (str1 str2 : string) :
  let clean1 := Str.strip (Re.sub separators " " str1) in
  let clean2 := Str.strip (Re.sub separators " " str2) in
  let words1 : gset string := list_to_set (Str.split clean1) in
  let words2 : gset string := list_to_set (Str.split clean2) in
  _fuzzy_match str1 str2 = true <->
  Str.contains clean1 clean2 = true \/ Str.contains clean2 clean1 = true
  \/ (words1 <> ∅ /\ words2 <> ∅
      /\ 3 * Z.of_nat (size (words1 ∪ words2)) <= 5 * Z.of_nat (size (words1 ∩ words2))).
Proof.
  intros clean1 clean2 words1 words2. unfold _fuzzy_match.
  fold clean1 clean2. cbv zeta. fold words1 words2.
  destruct (Str.contains clean1 clean2); [tauto|].
  destruct (Str.contains clean2 clean1); [tauto|]. cbn [orb].
  destruct (bool_decide (words1 = ∅)) eqn:H1; cbn [orb].
  - apply bool_decide_eq_true_1 in H1. split; [discriminate|]. intros [|[|[]]]; congruence.
  - apply bool_decide_eq_false_1 in H1.
    destruct (bool_decide (words2 = ∅)) eqn:H2.
    + apply bool_decide_eq_true_1 in H2. split; [discriminate|]. intros [|[|(_ & ? & _)]]; congruence.
    + apply bool_decide_eq_false_1 in H2. rewrite Z.leb_le. split; [tauto|].
      intros [|[|(_ & _ & ?)]]; [discriminate|discriminate|assumption].
Qed.

(** A track passes the title test when its title is not empty and the fuzzy
    test accepts the file name and the lower-cased title. *)
Lemma title_matches_true (filename : string) (t : track) :
  title_matches filename t = true <->
  Str.lower (default "" (title t)) <> ""
  /\ _fuzzy_match filename (Str.lower (default "" (title t))) = true.
Proof.
  unfold title_matches. rewrite andb_true_iff, negb_true_iff, String.eqb_neq. reflexivity.
Qed.


End MatcherOrder.



(** * Further properties *)

(** ** Metadata Extractor and Track Matcher *)

Section MetadataMore.

Import Metadata.

Lemma or_else_some {A} (first next : option A) (a : A) :
  or_else first next = Some a -> first = Some a \/ next = Some a.
Proof. destruct first; cbn; auto. Qed.

Lemma first_result_some {A B} (f : A -> option B) (xs : list A) (b : B) :
  first_result f xs = Some b -> exists x, In x xs /\ f x = Some b.
Proof.
  induction xs as [|x xs IH]; cbn; [discriminate|].
  intros H. apply or_else_some in H as [H|H].
  - exists x. split; [now left|exact H].
  - destruct (IH H) as (x' & Hin & Hx'). exists x'. split; [now right|exact Hx'].
Qed.






(** X2.  The matcher never invents a track: what it returns is an element of the
    track list it was given. *)
Theorem matched_track_is_listed (file_path : string) (tracks : list track) (t : track) :
  _find_matching_track file_path tracks = Some t -> In t tracks.
Proof.
  unfold _find_matching_track. destruct tracks as [|t0 ts]; [discriminate|].
  intros H. apply or_else_some in H as [H|H].
  - destruct (file_track_num _); [|discriminate]. now apply find_some in H as [H _].
  - apply or_else_some in H as [H|H].
    + now apply find_some in H as [H _].
    + destruct ts; [|discriminate]. injection H as <-. now left.
Qed.

(** X3.  A release with a single track: every file is matched to that track,
    whatever its name. *)
Theorem single_track_always_matches (file_path : string) (t : track) :
  _find_matching_track file_path [t] = Some t.
Proof.
  unfold _find_matching_track.
  assert (Hfind : forall p : track -> bool, find p [t] = Some t \/ find p [t] = None).
  { intros p. cbn. destruct (p t); auto. }
  destruct (file_track_num (Str.lower (Path.stem file_path))) as [n|].
  - destruct (Hfind (number_is n)) as [-> | ->]; [reflexivity|]. cbn [or_else].
    destruct (Hfind (title_matches (Str.lower (Path.stem file_path)))) as [-> | ->];
      reflexivity.
  - cbn [or_else].
    destruct (Hfind (title_matches (Str.lower (Path.stem file_path)))) as [-> | ->];
      reflexivity.
Qed.

Lemma prefix_refl (s : string) : String.prefix s s = true.
Proof. induction s as [|c s IH]; cbn; [reflexivity|]. now destruct (ascii_dec c c). Qed.

Lemma contains_refl (s : string) : Str.contains s s = true.
Proof. destruct s; cbn; [reflexivity|]. rewrite prefix_refl. now destruct (ascii_dec a a). Qed.

(** X4.  The fuzzy test does not depend on the order of its two strings, and every
    string matches itself. *)
Theorem fuzzy_match_symmetric (str1 str2 : string) :
  _fuzzy_match str1 str2 = _fuzzy_match str2 str1 /\ _fuzzy_match str1 str1 = true.
Proof.
  split.
  - unfold _fuzzy_match. cbv zeta.
    rewrite (orb_comm (Str.contains _ _)).
    destruct (Str.contains _ _ || Str.contains _ _); [reflexivity|].
    rewrite (orb_comm (bool_decide _)).
    destruct (bool_decide _ || bool_decide _); [reflexivity|].
    assert (Hi : forall a b : gset string, a ∩ b = b ∩ a) by (intros; apply (comm_L _)).
    assert (Hu : forall a b : gset string, a ∪ b = b ∪ a) by (intros; apply (comm_L _)).
    now rewrite Hi, Hu.
  - unfold _fuzzy_match. cbv zeta. now rewrite contains_refl.
Qed.

End MetadataMore.

(** ** Download Strategy Engine *)

Section StrategyMore.

Context (response : Type)
        (fetch : string -> outcome response)
        (post : string -> list (string * string) -> outcome response)
        (json_ok : response -> bool)
        (response_text : response -> string)
        (fetch_stat : string -> outcome Strategy.stat)
        (parse_tralbum : response -> outcome Strategy.music_data)
        (download_items : response -> outcome (gmap string string))
        (urlparse : string -> ParseResult)
        (geturl : ParseResult -> string)
        (download_result : string -> string -> string -> option string -> outcome string)
        (get_random_filename_template : list event -> string)
        (mailbox_address : string)
        (get_messages : Z -> list Strategy.mail)
        (first_anchor_href : string -> option string)
        (fallback : bool)
        (is_dir : string -> bool)
        (iterdir : string -> list string)
        (platform_system : string)
        (sanitize_filepath : string -> string -> string)
        (suffix_to_metadata : list string)
        (get_track_output_context : string -> gmap (option Z) string -> gmap string value)
        (_write_metadata_to_files : list string -> option value -> M unit)
        (_download_cover_image : option string -> list string -> M unit).

Abbreviation materialize :=
  (Strategy.materialize download_result get_random_filename_template).
Abbreviation free_download_loop :=
  (Strategy.free_download_loop fetch_stat urlparse geturl download_result
     get_random_filename_template).
Abbreviation _free_download :=
  (Strategy._free_download response fetch fetch_stat download_items urlparse geturl
     download_result get_random_filename_template).
Abbreviation _get_download_url_from_email :=
  (Strategy._get_download_url_from_email response post json_ok response_text urlparse
     mailbox_address get_messages first_anchor_href).
Abbreviation fallback_loop := (Strategy.fallback_loop download_result).
Abbreviation download_fallback_mp3 := (Strategy.download_fallback_mp3 download_result).
Abbreviation place_files :=
  (Strategy.place_files is_dir iterdir platform_system sanitize_filepath suffix_to_metadata
     get_track_output_context _write_metadata_to_files _download_cover_image).
Abbreviation download_from_url :=
  (Strategy.download_from_url response fetch post json_ok response_text fetch_stat
     parse_tralbum download_items urlparse geturl download_result
     get_random_filename_template mailbox_address get_messages first_anchor_href
     fallback is_dir iterdir platform_system sanitize_filepath suffix_to_metadata
     get_track_output_context _write_metadata_to_files _download_cover_image).

(** Fetching an artifact neither prints nor touches [self.urls]. *)
Lemma materialize_quiet (download_url destination item_type fmt : string)
    (st st' : state) (o : outcome string) :
  materialize download_url destination item_type fmt st = (o, st') ->
  urls st' = urls st /\ log st' = log st.
Proof.
  unfold Strategy.materialize, Strategy.download_to_file, Strategy.get_trace, bind, lift.
  cbn [emit].
  destruct (download_result _ _ _ _) as [file_path|e]; [|now intros [= _ <-]].
  destruct (String.eqb (Path.suffix file_path) ".zip"); now intros [= _ <-].
Qed.

(** X5.  When [_free_download] ends normally every requested format is accounted
    for: it has either added one entry to the paths collected, after the
    entries that were there, or printed one error line; and nothing else is
    printed. *)
Theorem free_download_accounts_for_every_format
    (downloadable : gmap string string) (destination item_type : string)
    (download_formats paths result : list string) (st st' : state) :
  free_download_loop downloadable destination item_type download_formats paths st
    = (Ok result, st') ->
  exists new errors,
    result = paths ++ new
    /\ log st' = log st ++ errors
    /\ Forall (fun m => is_error m = true) errors
    /\ (length new + length errors = length download_formats)%nat.
Proof.
  revert paths st. induction download_formats as [|fmt rest IH]; intros paths st H.
  - injection H as <- <-. exists [], []. rewrite !app_nil_r. repeat split. constructor.
  - cbn [Strategy.free_download_loop] in H.
    destruct (downloadable !! fmt) as [descriptor_url|].
    + unfold bind at 1 in H. rewrite emit_records in H.
      unfold bind at 1 in H. unfold lift in H.
      destruct (fetch_stat _) as [fwd_data|e]; [|discriminate].
      destruct (String.eqb (Str.lower (Strategy.result fwd_data)) "ok").
      { unfold bind at 1 in H. unfold Strategy.subscript in H.
        destruct (Strategy.download_url fwd_data) as [u|]; [|discriminate].
        cbn [ret] in H. unfold bind at 1 in H.
        destruct (materialize u destination item_type fmt _) as [[entry|e] st1] eqn:Hm;
          [|discriminate].
        apply materialize_quiet in Hm as [_ Hlog]. cbn in Hlog.
        apply IH in H as (new & errors & -> & Hl & He & Hn).
        exists (entry :: new), errors. rewrite <- app_assoc, Hl, Hlog.
        repeat split; [exact He|cbn; lia]. }
      destruct (String.eqb (Str.lower (Strategy.result fwd_data)) "err").
      { unfold bind at 1 in H. unfold Strategy.subscript in H.
        destruct (Strategy.retry_url fwd_data) as [u|]; [|discriminate].
        cbn [ret] in H. unfold bind at 1 in H.
        destruct (materialize u destination item_type fmt _) as [[entry|e] st1] eqn:Hm;
          [|discriminate].
        apply materialize_quiet in Hm as [_ Hlog]. cbn in Hlog.
        apply IH in H as (new & errors & -> & Hl & He & Hn).
        exists (entry :: new), errors. rewrite <- app_assoc, Hl, Hlog.
        repeat split; [exact He|cbn; lia]. }
      unfold bind at 1 in H. rewrite scream_says in H.
      apply IH in H as (new & errors & -> & Hl & He & Hn).
      eexists new, (_ :: errors). rewrite Hl. cbn [says records log].
      rewrite <- app_assoc. repeat split; [now constructor|cbn; lia].
    + unfold bind at 1 in H. rewrite scream_says in H.
      apply IH in H as (new & errors & -> & Hl & He & Hn).
      eexists new, (_ :: errors). rewrite Hl. cbn [says log].
      rewrite <- app_assoc. repeat split; [now constructor|cbn; lia].
Qed.

(** X6.  Formats that the download page does not offer: [_free_download] asks
    for the page and for nothing else, returns no path, and prints one
    "download not found" line per requested format, in order. *)
Theorem free_download_nothing_offered (url destination item_type : string)
    (download_formats : list string) (st : state) (page : response)
    (downloadable : gmap string string) :
  fetch url = Ok page ->
  download_items page = Ok downloadable ->
  Forall (fun fmt => downloadable !! fmt = None) download_formats ->
  _free_download url destination item_type download_formats st
  = (Ok [],
     State (urls st)
       (log st ++ map (fun fmt => Msg Error (fmt +:+ " download not found")) download_formats)
       (trace st ++ [Get url])).
Proof.
  intros Hf Hd Hnone. unfold Strategy._free_download, Strategy.get_request_or_error.
  unfold bind at 1. unfold bind at 1. rewrite emit_records. unfold lift at 1. rewrite Hf.
  unfold bind at 1. unfold lift. rewrite Hd.
  assert (Hloop : forall paths st1,
            free_download_loop downloadable destination item_type download_formats paths st1
            = (Ok paths,
               State (urls st1)
                 (log st1 ++ map (fun fmt => Msg Error (fmt +:+ " download not found"))
                               download_formats)
                 (trace st1))).
  { induction Hnone as [|fmt rest Hfmt _ IH]; intros paths st1.
    - cbn. rewrite app_nil_r. now destruct st1.
    - cbn [Strategy.free_download_loop]. rewrite Hfmt.
      unfold bind at 1. rewrite scream_says, IH. cbn [says urls log trace map].
      now rewrite <- app_assoc. }
  rewrite Hloop. reflexivity.
Qed.

(** X7.  [download_fallback_mp3] prints nothing and leaves [self.urls] alone; all
    it does is fetch preview files, at most one per track, and each fetch
    that succeeds adds one path after those collected before. *)
Theorem fallback_only_downloads (track_info : list Strategy.track)
    (artist album : string) (title : option string) (destination : string)
    (paths : list string) (st st' : state) (o : outcome (list string)) :
  fallback_loop track_info artist album title destination paths st = (o, st') ->
  urls st' = urls st
  /\ log st' = log st
  /\ exists fetched,
       trace st' = trace st ++ fetched
       /\ Forall (fun e => is_download e = true) fetched
       /\ (length fetched <= length track_info)%nat
       /\ forall result, o = Ok result ->
            exists new, result = paths ++ new /\ length new = length fetched.
Proof.
  revert title paths st. induction track_info as [|track rest IH]; intros title paths st H.
  - injection H as <- <-. split; [reflexivity|]. split; [reflexivity|].
    exists []. rewrite app_nil_r.
    split; [reflexivity|]. split; [constructor|]. split; [reflexivity|].
    intros result [= <-]. exists []. now rewrite app_nil_r.
  - cbn [Strategy.fallback_loop] in H.
    assert (Hskip : fallback_loop rest artist album title destination paths st = (o, st') ->
                    urls st' = urls st /\ log st' = log st
                    /\ exists fetched,
                         trace st' = trace st ++ fetched
                         /\ Forall (fun e => is_download e = true) fetched
                         /\ (length fetched <= length (track :: rest))%nat
                         /\ forall result, o = Ok result ->
                              exists new, result = paths ++ new
                                          /\ length new = length fetched).
    { intros Hrest. apply IH in Hrest as (Hu & Hl & fetched & Ht & Hf & Hn & Hr).
      split; [exact Hu|]. split; [exact Hl|].
      exists fetched. split; [exact Ht|]. split; [exact Hf|]. split; [cbn; lia|exact Hr]. }
    destruct (Strategy.file track) as [files|]; [|now apply Hskip].
    destruct (bool_decide (files = ∅)); [now apply Hskip|]. clear Hskip.
    unfold bind at 1 in H. unfold Strategy.subscript in H.
    destruct (files !! "mp3-128") as [url|].
    2:{ injection H as <- <-. split; [reflexivity|]. split; [reflexivity|].
        exists []. rewrite app_nil_r.
        split; [reflexivity|]. split; [constructor|]. split; [cbn; lia|discriminate]. }
    cbn [ret] in H. unfold bind at 1 in H. unfold Strategy.download_to_file in H.
    unfold bind at 1 in H. rewrite emit_records in H. unfold lift in H.
    destruct (download_result _ _ _ _) as [file_path|e].
    + apply IH in H as (Hu & Hl & fetched & Ht & Hf & Hn & Hr).
      cbn [records urls log trace] in Hu, Hl, Ht.
      split; [exact Hu|]. split; [exact Hl|].
      eexists (_ :: fetched). rewrite Ht, <- app_assoc.
      split; [reflexivity|]. split; [now constructor|]. split; [cbn; lia|].
      intros result Ho. destruct (Hr result Ho) as (new & -> & Hlen).
      exists (file_path :: new). rewrite <- app_assoc. split; [reflexivity|cbn; lia].
    + injection H as <- <-. split; [reflexivity|]. split; [reflexivity|].
      eexists [_]. split; [reflexivity|]. split; [now repeat constructor|].
      split; [cbn; lia|discriminate].
Qed.

(** The part of [download_from_url] that follows a release page that could
    be read: the strategy is chosen, and its files are placed. *)
Lemma download_from_url_strategy (url destination : string)
    (output output_extra : list piece) (download_formats : list string)
    (st : state) (page : response) (music_data : Strategy.music_data)
    (day month year : string) (more_words : list string) :
  let download_mp3 := bool_decide ("mp3-128" ∈ (list_to_set download_formats : gset string)) in
  let requested :=
    elements (if download_mp3
              then (list_to_set download_formats : gset string) ∖ {["mp3-128"]}
              else list_to_set download_formats) in
  let artist := Strategy.artist music_data in
  let is_album := String.eqb (Strategy.item_type music_data) "album" in
  let album := if is_album then Strategy.current_title music_data
               else default "" (Strategy.album_title music_data) in
  let title := if is_album then None else Some (Strategy.current_title music_data) in
  let downloading := "Downloading " +:+ artist +:+ " - " +:+ Strategy.current_title music_data in
  let searched := records (says st Info ("Searching available downloads for URL " +:+ url))
                    (Get url) in
  fetch url = Ok page ->
  parse_tralbum page = Ok music_data ->
  Str.split (Strategy.release_or_publish_date music_data) = day :: month :: year :: more_words ->
  download_from_url url destination output output_extra download_formats st
  = bind
      (if Strategy.truthy (Strategy.freeDownloadPage music_data) then
         perform scream Success ("Free download found! " +:+ downloading);
         do file_paths <- _free_download (default "" (Strategy.freeDownloadPage music_data))
                            destination (Strategy.item_type music_data) requested;
         ret (Some (file_paths, download_mp3))
       else if Strategy.require_email music_data then
         perform scream Success ("Email download found! " +:+ downloading);
         do download_url <- _get_download_url_from_email url (Strategy.id music_data)
                              (Strategy.item_type music_data) "US" "0" "none" 60;
         do file_paths <- _free_download download_url destination
                            (Strategy.item_type music_data) requested;
         ret (Some (file_paths, download_mp3))
       else if fallback || download_mp3 then
         perform scream Success ("MP3-128 download found! " +:+ downloading);
         do file_paths <- download_fallback_mp3 (Strategy.trackinfo music_data) artist album
                            title destination;
         ret (Some (file_paths, false))
       else if negb fallback then ret None
       else raise (ValueError ("No free download found for " +:+ url
                                 +:+ ". Try setting fallback to True.")))
      (fun chosen =>
         match chosen with
         | None => ret tt
         | Some (file_paths, download_mp3) =>
           do file_paths <-
             (if download_mp3 : bool then
                do more <- download_fallback_mp3 (Strategy.trackinfo music_data) artist
                             album title destination;
                ret (file_paths ++ more)
              else ret file_paths);
           place_files url destination output output_extra
             (Strategy.tracks_of (Strategy.trackinfo music_data)) artist album year
             (Strategy.art_url music_data) file_paths
         end) searched.
Proof.
  intros download_mp3 requested artist is_album album title downloading searched Hf Hp Hdate.
  unfold Strategy.download_from_url.
  rewrite (bind_ok _ _ _ _ _ (scream_says _ _ _)).
  fold download_mp3. cbv zeta.
  set (st1 := says st Info ("Searching available downloads for URL " +:+ url)).
  rewrite (bind_ok _ _ st1 (Some music_data) (records st1 (Get url))).
  2:{ unfold try_except. rewrite (bind_ok _ _ _ _ _ (get_music_data_ok _ _ _ _ _ _ _ Hf Hp)).
      reflexivity. }
  unfold Strategy.third_word. rewrite Hdate.
  rewrite (bind_ok _ _ _ year (records st1 (Get url))) by reflexivity.
  subst album title is_album requested artist downloading searched st1.
  destruct (String.eqb (Strategy.item_type music_data) "album"); reflexivity.
Qed.

(** [_get_music_data] on a page that answers with an HTTP error: status 404
    becomes a [ValueError], any other status is raised as it is. *)
Lemma get_music_data_http_error (url : string) (st : state) (status_code : Z) :
  fetch url = Raise (HTTPError status_code) ->
  Strategy._get_music_data response fetch parse_tralbum url st
  = (Raise (if status_code =? 404 then ValueError (url +:+ " not found")
            else HTTPError status_code),
     records st (Get url)).
Proof.
  intros Hf. unfold Strategy._get_music_data, Strategy.get_request_or_error.
  unfold bind, try_except, lift. rewrite emit_records, Hf.
  destruct (status_code =? 404); reflexivity.
Qed.

(** X8.  A release page that answers with an HTTP error: [download_from_url]
    reports it, "not found" for 404 and "Request error" with the status
    otherwise, and returns; nothing is downloaded and nothing is raised. *)
Theorem release_page_http_error_is_reported (url destination : string)
    (output output_extra : list piece) (download_formats : list string)
    (st : state) (status_code : Z) :
  fetch url = Raise (HTTPError status_code) ->
  download_from_url url destination output output_extra download_formats st
  = (Ok tt,
     says (records (says st Info ("Searching available downloads for URL " +:+ url))
             (Get url))
       Error (if status_code =? 404 then url +:+ " not found"
              else "Request error (" +:+ Str.of_int status_code
                     +:+ ") when getting music data from " +:+ url)).
Proof.
  intros Hf. unfold Strategy.download_from_url.
  rewrite (bind_ok _ _ _ _ _ (scream_says _ _ _)). cbv zeta.
  unfold try_except at 1. unfold bind at 1. unfold bind at 1.
  rewrite (get_music_data_http_error _ _ _ Hf).
  destruct (status_code =? 404); reflexivity.
Qed.

(** X16.  A batch in which no release page can be fetched: [download_all] visits
    every collected URL once, in the order of the set, prints for each the
    search line and the error line, and ends normally; no release aborts the
    batch and [self.urls] is left as it was. *)
Theorem unreachable_releases_do_not_abort_batch (destination : string)
    (output output_extra : list piece) (download_formats : list string)
    (st : state) (status_code : string -> Z) :
  (forall url, url ∈ urls st -> fetch url = Raise (HTTPError (status_code url))) ->
  Strategy.download_all response fetch post json_ok response_text fetch_stat
    parse_tralbum download_items urlparse geturl download_result
    get_random_filename_template mailbox_address get_messages first_anchor_href
    fallback is_dir iterdir platform_system sanitize_filepath suffix_to_metadata
    get_track_output_context _write_metadata_to_files _download_cover_image
    destination output output_extra download_formats st
  = (Ok tt,
     State (urls st)
       (log st
        ++ flat_map
             (fun url =>
                [Msg Info ("Searching available downloads for URL " +:+ url);
                 Msg Error (if status_code url =? 404 then url +:+ " not found"
                            else "Request error (" +:+ Str.of_int (status_code url)
                                   +:+ ") when getting music data from " +:+ url)])
             (elements (urls st)))
       (trace st ++ map Get (elements (urls st)))).
Proof.
  intros Hf. unfold Strategy.download_all.
  assert (Hall : Forall (fun url => fetch url = Raise (HTTPError (status_code url)))
                   (elements (urls st))).
  { apply List.Forall_forall. intros url Hin. apply Hf.
    now apply elem_of_elements, list_elem_of_In. }
  clear Hf. generalize dependent (elements (urls st)). intros visited Hall.
  assert (Hloop : forall st1,
            for_each visited
              (fun url => download_from_url url destination output output_extra
                            download_formats) st1
            = (Ok tt,
               State (urls st1)
                 (log st1
                  ++ flat_map
                       (fun url =>
                          [Msg Info ("Searching available downloads for URL " +:+ url);
                           Msg Error
                             (if status_code url =? 404 then url +:+ " not found"
                              else "Request error (" +:+ Str.of_int (status_code url)
                                     +:+ ") when getting music data from " +:+ url)])
                       visited)
                 (trace st1 ++ map Get visited))); [|apply Hloop].
  induction Hall as [|url rest Hurl _ IH]; intros st1.
  - cbn. rewrite !app_nil_r. now destruct st1.
  - cbn [for_each flat_map map]. unfold bind at 1.
    assert (Hone : download_from_url url destination output output_extra
                     download_formats st1
                   = (Ok tt,
                      says (records
                              (says st1 Info
                                 ("Searching available downloads for URL " +:+ url))
                              (Get url))
                        Error (if status_code url =? 404 then url +:+ " not found"
                               else "Request error (" +:+ Str.of_int (status_code url)
                                      +:+ ") when getting music data from " +:+ url))).
    { unfold Strategy.download_from_url.
      rewrite (bind_ok _ _ _ _ _ (scream_says _ _ _)). cbv zeta.
      unfold try_except at 1. unfold bind at 1. unfold bind at 1.
      rewrite (get_music_data_http_error _ _ _ Hurl).
      destruct (status_code url =? 404); reflexivity. }
    rewrite Hone, IH. unfold says, records. cbn [urls log trace app].
    now rewrite <- !app_assoc.
Qed.

(** X9.  The fallback strategy: a release without a free-download page and
    without email gating, when the fallback is allowed or [mp3-128] was
    requested.  The preview files are fetched once and placed; they are not
    fetched a second time for the [mp3-128] request. *)
Theorem fallback_strategy_fetches_previews_once (url destination : string)
    (output output_extra : list piece) (download_formats : list string)
    (st : state) (page : response) (music_data : Strategy.music_data)
    (day month year : string) (more_words : list string) :
  let artist := Strategy.artist music_data in
  let is_album := String.eqb (Strategy.item_type music_data) "album" in
  let album := if is_album then Strategy.current_title music_data
               else default "" (Strategy.album_title music_data) in
  let title := if is_album then None else Some (Strategy.current_title music_data) in
  fetch url = Ok page ->
  parse_tralbum page = Ok music_data ->
  Str.split (Strategy.release_or_publish_date music_data) = day :: month :: year :: more_words ->
  Strategy.truthy (Strategy.freeDownloadPage music_data) = false ->
  Strategy.require_email music_data = false ->
  fallback = true \/ "mp3-128" ∈ download_formats ->
  download_from_url url destination output output_extra download_formats st
  = bind (download_fallback_mp3 (Strategy.trackinfo music_data) artist album title destination)
         (place_files url destination output output_extra
            (Strategy.tracks_of (Strategy.trackinfo music_data)) artist album year
            (Strategy.art_url music_data))
         (says (records (says st Info ("Searching available downloads for URL " +:+ url))
                  (Get url))
            Success ("MP3-128 download found! Downloading " +:+ artist +:+ " - "
                       +:+ Strategy.current_title music_data)).
Proof.
  intros artist is_album album title Hf Hp Hdate Hfree Hmail Hallowed.
  rewrite (download_from_url_strategy _ _ _ _ _ _ _ _ _ _ _ _ Hf Hp Hdate).
  rewrite Hfree, Hmail.
  assert (Hor : fallback || bool_decide ("mp3-128" ∈ (list_to_set download_formats : gset string))
                = true).
  { destruct Hallowed as [-> | Hin]; [reflexivity|].
    rewrite bool_decide_eq_true_2 by (now rewrite elem_of_list_to_set).
    apply orb_true_r. }
  rewrite Hor.
  rewrite bind_assoc. rewrite (bind_ok _ _ _ _ _ (scream_says _ _ _)).
  rewrite bind_assoc. apply bind_ext. intros file_paths st'. reflexivity.
Qed.

(** X10.  The free-download page has priority: when the release has one, and
    [mp3-128] is not requested, the files come from [_free_download] on that
    page with the requested formats, whether or not the release is also
    email-gated and whatever the fallback policy; no mailbox is involved. *)
Theorem free_page_has_priority (url destination : string)
    (output output_extra : list piece) (download_formats : list string)
    (st : state) (page : response) (music_data : Strategy.music_data)
    (day month year : string) (more_words : list string) :
  let artist := Strategy.artist music_data in
  let is_album := String.eqb (Strategy.item_type music_data) "album" in
  let album := if is_album then Strategy.current_title music_data
               else default "" (Strategy.album_title music_data) in
  fetch url = Ok page ->
  parse_tralbum page = Ok music_data ->
  Str.split (Strategy.release_or_publish_date music_data) = day :: month :: year :: more_words ->
  Strategy.truthy (Strategy.freeDownloadPage music_data) = true ->
  "mp3-128" ∉ download_formats ->
  download_from_url url destination output output_extra download_formats st
  = bind (_free_download (default "" (Strategy.freeDownloadPage music_data)) destination
            (Strategy.item_type music_data)
            (elements (list_to_set download_formats : gset string)))
         (place_files url destination output output_extra
            (Strategy.tracks_of (Strategy.trackinfo music_data)) artist album year
            (Strategy.art_url music_data))
         (says (records (says st Info ("Searching available downloads for URL " +:+ url))
                  (Get url))
            Success ("Free download found! Downloading " +:+ artist +:+ " - "
                       +:+ Strategy.current_title music_data)).
Proof.
  intros artist is_album album Hf Hp Hdate Hfree Hmp3.
  rewrite (download_from_url_strategy _ _ _ _ _ _ _ _ _ _ _ _ Hf Hp Hdate).
  rewrite Hfree.
  rewrite bool_decide_eq_false_2 by (now rewrite elem_of_list_to_set).
  rewrite bind_assoc. rewrite (bind_ok _ _ _ _ _ (scream_says _ _ _)).
  rewrite bind_assoc. apply bind_ext. intros file_paths st'. reflexivity.
Qed.

End StrategyMore.

(** ** URL Resolver *)

Section ResolverMore.

Context (response : Type)
        (fetch : string -> outcome response)
        (get_ip_from_url : string -> string)
        (music_grid : response -> option (list string))
        (urlparse : string -> ParseResult)
        (geturl : ParseResult -> string)
        (urljoin : string -> string -> string)
        (force_https : bool).

Abbreviation _add_urls_from_artist :=
  (Resolver._add_urls_from_artist response fetch music_grid urlparse urljoin).
Abbreviation add_url :=
  (Resolver.add_url response fetch get_ip_from_url music_grid urlparse geturl urljoin
     force_https).
Abbreviation init :=
  (Resolver.init response fetch get_ip_from_url music_grid urlparse geturl urljoin
     force_https).






End ResolverMore.

(** ** The matcher, continued *)

Section MatcherMore.

Import Re.

(** The matcher only looks at what its continuation returns. *)
Lemma star_loop_ext {A}
    (body : pos -> captures -> (pos -> captures -> option A) -> option A)
    (k1 k2 : pos -> captures -> option A) :
  (forall p caps k k', (forall q c, k q c = k' q c) -> body p caps k = body p caps k') ->
  (forall q c, k1 q c = k2 q c) ->
  forall fuel p caps, star_loop body k1 fuel p caps = star_loop body k2 fuel p caps.
Proof.
  intros Hbody Hk. induction fuel as [|fuel IH]; intros p caps; [apply Hk|].
  rewrite !star_loop_S.
  rewrite (Hbody p caps _
             (fun q caps' =>
                if (length (after q) <? length (after p))%nat
                then star_loop body k2 fuel q caps' else None)).
  - now rewrite Hk.
  - intros q c. cbn beta. destruct (length (after q) <? length (after p))%nat;
      [apply IH|reflexivity].
Qed.

Lemma run_ext {A} (r : regex) :
  forall (p : pos) (caps : captures) (k k' : pos -> captures -> option A),
    (forall q c, k q c = k' q c) -> run r p caps k = run r p caps k'.
Proof.
  induction r as [|f|r1 IH1 r2 IH2|r1 IH1 r2 IH2|r IH|n r IH| |]; intros p caps k k' Hk;
    cbn [run].
  - apply Hk.
  - destruct (after p) as [|c rest]; [reflexivity|]. destruct (f c); [apply Hk|reflexivity].
  - apply IH1. intros q c. now apply IH2.
  - now rewrite (IH1 p caps k k' Hk), (IH2 p caps k k' Hk).
  - apply star_loop_ext; [exact IH|exact Hk].
  - apply IH. intros q c. apply Hk.
  - destruct (at_eol p); [apply Hk|reflexivity].
  - destruct (at_word_boundary p); [apply Hk|reflexivity].
Qed.

(** Fuel beyond the number of characters left changes nothing. *)
Lemma star_loop_fuel {A} (r : regex) (k : pos -> captures -> option A) (n : nat) :
  forall (f1 f2 : nat) (p : pos) (caps : captures),
    (length (after p) <= n)%nat -> (n <= f1)%nat -> (n <= f2)%nat ->
    star_loop (run r) k f1 p caps = star_loop (run r) k f2 p caps.
Proof.
  induction n as [|n IH]; intros f1 f2 p caps Hp H1 H2.
  - assert (Hend : forall f, star_loop (run r) k f p caps = k p caps).
    { intros [|f]; [reflexivity|]. cbn.
      destruct (run r p caps _) as [x|] eqn:Hrun; [|reflexivity].
      apply run_sound in Hrun as (q & c & _ & Hq).
      destruct (length (after p)); [|lia].
      now destruct (length (after q)). }
    now rewrite !Hend.
  - destruct f1 as [|f1]; [lia|]. destruct f2 as [|f2]; [lia|].
    rewrite !star_loop_S. erewrite run_ext; [reflexivity|].
    intros q c. cbn beta.
    destruct (length (after q) <? length (after p))%nat eqn:Hlt; [|reflexivity].
    apply Nat.ltb_lt in Hlt. apply IH; lia.
Qed.

Lemma star_loop_stops {A}
    (body : pos -> captures -> (pos -> captures -> option A) -> option A)
    (k : pos -> captures -> option A) (fuel : nat) (p : pos) (caps : captures) :
  is_Some (k p caps) -> is_Some (star_loop body k fuel p caps).
Proof.
  intros Hk. destruct fuel; cbn; [exact Hk|]. now destruct (body p caps _).
Qed.

(** Where there is a match that the continuation accepts, the matcher finds
    one. *)
Lemma run_complete (r : regex) (p q : pos) :
  matches r p q ->
  forall {A} (k : pos -> captures -> option A),
    (forall caps, is_Some (k q caps)) ->
    forall caps, is_Some (run r p caps k).
Proof.
  induction 1 as [p|f c b a Hf|r1 r2 p q s _ IH1 _ IH2
                 |r1 r2 p q _ IH|r1 r2 p q _ IH|r p
                 |r p q s Hpq IH1 Hqs IH2|n r p q _ IH|p He|p He];
    intros A k Hk caps; cbn [run].
  - apply Hk.
  - cbn. rewrite Hf. apply Hk.
  - apply IH1. intros caps'. now apply IH2.
  - destruct (run r1 p caps k) as [x|] eqn:H1; [eauto|].
    destruct (IH A k Hk caps) as [x Hx]. congruence.
  - destruct (run r1 p caps k) as [x|]; [eauto|]. now apply IH.
  - apply star_loop_stops, Hk.
  - destruct (matches_span _ _ _ Hpq) as (w & Ha & Hb).
    destruct w as [|c w].
    + assert (q = p) as -> by (destruct p, q; cbn in *; congruence).
      exact (IH2 A k Hk caps).
    + destruct (length (after p)) as [|fuel] eqn:Hlen;
        [rewrite Ha in Hlen; discriminate|].
      rewrite star_loop_S.
      match goal with
      | |- is_Some (match run r p caps ?k' with _ => _ end) =>
        assert (Hsome : is_Some (run r p caps k'))
      end.
      { apply IH1. intros caps'.
        rewrite (proj2 (Nat.ltb_lt _ _)) by (rewrite Ha, length_app; cbn; lia).
        rewrite (star_loop_fuel r k (length (after q)) fuel (length (after q)));
          [exact (IH2 A k Hk caps')|lia| |lia].
        rewrite Ha, length_app in Hlen. cbn in Hlen. lia. }
      destruct Hsome as [x ->]. eauto.
  - apply IH. intros caps'. apply Hk.
  - rewrite He. apply Hk.
  - rewrite He. apply Hk.
Qed.


Lemma matches_star_cls (f : ascii -> bool) (w b a : list ascii) :
  Forall (fun c => f c = true) w ->
  matches (Star (Cls f)) (Pos b (w ++ a)) (Pos (rev w ++ b) a).
Proof.
  intros Hw. revert b. induction Hw as [|c w Hc _ IH]; intros b.
  - constructor.
  - cbn [app rev]. rewrite <- app_assoc. cbn [app].
    eapply matches_star_more; [now constructor|apply IH].
Qed.

End MatcherMore.


(** ** Path Templater & Sanitizer, continued *)

Section TemplaterMore.

Import Re.

Context (platform_system : string)
        (sanitize_filepath : string -> string -> string).

Lemma star_loop_frame {A} (r : regex) (k : pos -> captures -> option A) (x : A)
    (IH : forall p caps (k' : pos -> captures -> option A) y,
            run r p caps k' = Some y ->
            exists q caps', matches r p q /\ k' q caps' = Some y
                            /\ forall n, n ∉ groups_of r -> caps' !! n = caps !! n)
    (fuel : nat) (p : pos) (caps : captures) :
  star_loop (run r) k fuel p caps = Some x ->
  exists q caps', matches (Star r) p q /\ k q caps' = Some x
                  /\ forall n, n ∉ groups_of r -> caps' !! n = caps !! n.
Proof.
  revert p caps. induction fuel as [|fuel IHfuel]; intros p caps H.
  - exists p, caps. split; [constructor|]. split; [exact H|reflexivity].
  - rewrite star_loop_S in H.
    match type of H with
    | match ?body with _ => _ end = _ => destruct body as [y|] eqn:Hbody
    end.
    + injection H as ->.
      apply IH in Hbody as (q & caps' & Hq & Hk & Hf). cbn beta in Hk.
      match type of Hk with
      | (if ?c then _ else _) = _ => destruct c; [|discriminate]
      end.
      apply IHfuel in Hk as (s & caps'' & Hs & Hk & Hf').
      exists s, caps''. split; [econstructor; eassumption|]. split; [exact Hk|].
      intros n Hn. now rewrite Hf', Hf.
    + exists p, caps. split; [constructor|]. split; [exact H|reflexivity].
Qed.

(** A pattern writes its own groups only. *)
Lemma run_frame {A} (r : regex) :
  forall (p : pos) (caps : captures) (k : pos -> captures -> option A) (x : A),
    run r p caps k = Some x ->
    exists q caps', matches r p q /\ k q caps' = Some x
                    /\ forall n, n ∉ groups_of r -> caps' !! n = caps !! n.
Proof.
  induction r as [|f|r1 IH1 r2 IH2|r1 IH1 r2 IH2|r IH|n r IH| |]; intros p caps k x H;
    cbn [run] in H; cbn [groups_of].
  - exists p, caps. split; [constructor|]. split; [exact H|reflexivity].
  - destruct p as [b [|c a]]; cbn in H; [discriminate|].
    destruct (f c) eqn:Hf; [|discriminate].
    exists (Pos (c :: b) a), caps. split; [now constructor|]. split; [exact H|reflexivity].
  - apply IH1 in H as (q & caps' & Hq & H & Hf1).
    apply IH2 in H as (s & caps'' & Hs & H & Hf2).
    exists s, caps''. split; [econstructor; eassumption|]. split; [exact H|].
    intros n Hn. apply not_elem_of_app in Hn as [Hn1 Hn2]. now rewrite Hf2, Hf1.
  - destruct (run r1 p caps k) as [y|] eqn:H1.
    + injection H as ->. apply IH1 in H1 as (q & caps' & Hq & H & Hf).
      exists q, caps'. split; [now apply matches_alt_l|]. split; [exact H|].
      intros n Hn. apply not_elem_of_app in Hn as [Hn1 Hn2]. now apply Hf.
    + apply IH2 in H as (q & caps' & Hq & H & Hf).
      exists q, caps'. split; [now apply matches_alt_r|]. split; [exact H|].
      intros n Hn. apply not_elem_of_app in Hn as [Hn1 Hn2]. now apply Hf.
  - eapply star_loop_frame; [exact IH|exact H].
  - apply IH in H as (q & caps' & Hq & H & Hf).
    exists q, (<[n := between p q]> caps'). split; [now constructor|]. split; [exact H|].
    intros m Hm. apply not_elem_of_cons in Hm as [Hne Hm].
    rewrite lookup_insert_ne by congruence. now apply Hf.
  - destruct (at_eol p) eqn:He; [|discriminate].
    exists p, caps. split; [now constructor|]. split; [exact H|reflexivity].
  - destruct (at_word_boundary p) eqn:He; [|discriminate].
    exists p, caps. split; [now constructor|]. split; [exact H|reflexivity].
Qed.

(** The greedy loop over a character class, when none of the positions
    ahead is accepted. *)
Lemma star_cls_none {A} (f : ascii -> bool) (k : pos -> captures -> option A)
    (caps : captures) (fuel : nat) :
  forall (w b : list ascii),
    (forall u v, w = u ++ v -> k (Pos (rev u ++ b) v) caps = None) ->
    star_loop (run (Cls f)) k fuel (Pos b w) caps = None.
Proof.
  induction fuel as [|fuel IH]; intros w b H.
  - exact (H [] w eq_refl).
  - rewrite star_loop_S.
    assert (Hhere : k (Pos b w) caps = None) by exact (H [] w eq_refl).
    destruct w as [|c w]; [exact Hhere|].
    rewrite run_cls_cons. destruct (f c); [|exact Hhere].
    cbn [after]. rewrite (proj2 (Nat.ltb_lt _ _)) by (cbn; lia).
    rewrite IH; [exact Hhere|].
    intros u v ->. specialize (H (c :: u) v eq_refl).
    cbn [rev] in H. now rewrite <- app_assoc in H.
Qed.

(** The greedy loop stops at the last position that the continuation
    accepts. *)
Lemma star_cls_last {A} (f : ascii -> bool) (k : pos -> captures -> option A)
    (caps : captures) (x : A) (v : list ascii) :
  forall (u b : list ascii) (fuel : nat),
    Forall (fun c => f c = true) u ->
    (length (u ++ v) <= fuel)%nat ->
    k (Pos (rev u ++ b) v) caps = Some x ->
    (forall u' v', v = u' ++ v' -> u' <> [] ->
                   k (Pos (rev u' ++ rev u ++ b) v') caps = None) ->
    star_loop (run (Cls f)) k fuel (Pos b (u ++ v)) caps = Some x.
Proof.
  induction u as [|c u IH]; intros b fuel Hu Hfuel Hk Hnone.
  - cbn [app rev] in *. destruct fuel as [|fuel]; [exact Hk|].
    rewrite star_loop_S. destruct v as [|c v]; [exact Hk|].
    rewrite run_cls_cons. destruct (f c); [|exact Hk].
    cbn [after]. rewrite (proj2 (Nat.ltb_lt _ _)) by (cbn; lia).
    rewrite star_cls_none; [exact Hk|].
    intros u' v' ->. specialize (Hnone (c :: u') v' eq_refl ltac:(discriminate)).
    cbn [rev] in Hnone. now rewrite <- app_assoc in Hnone.
  - destruct fuel as [|fuel]; [cbn in Hfuel; lia|].
    inversion Hu as [|? ? Hc Hu']; subst.
    rewrite star_loop_S. change ((c :: u) ++ v) with (c :: u ++ v).
    rewrite run_cls_cons, Hc. cbn [after].
    rewrite (proj2 (Nat.ltb_lt _ _)) by (cbn; lia).
    rewrite (IH (c :: b) fuel); [reflexivity|exact Hu'|cbn in Hfuel; lia| |].
    + cbn [rev] in Hk. now rewrite <- app_assoc in Hk.
    + intros u' v' Hv Hne. specialize (Hnone u' v' Hv Hne).
      cbn [rev] in Hnone. now rewrite <- (app_assoc (rev u)) in Hnone.
Qed.

Lemma matches_lit_i (s : string) :
  s <> "" ->
  forall (w b a : list ascii),
    map Str.lower_char w = map Str.lower_char (Str.chars s) ->
    matches (lit_i s) (Pos b (w ++ a)) (Pos (rev w ++ b) a).
Proof.
  induction s as [|c s IH]; intros Hne w b a Hw; [congruence|].
  destruct w as [|x w]; [discriminate|]. cbn in Hw. injection Hw as Hx Hw.
  destruct s as [|c' s].
  - destruct w; [|discriminate]. cbn. constructor.
    rewrite Hx. apply Ascii.eqb_refl.
  - change (lit_i (String c (String c' s)))
      with (Cat (chr_i c) (lit_i (String c' s))).
    cbn [app rev]. rewrite <- app_assoc. cbn [app].
    eapply matches_cat.
    + constructor. rewrite Hx. apply Ascii.eqb_refl.
    + apply IH; [discriminate|exact Hw].
Qed.

Lemma of_chars_chars (s : string) : Str.of_chars (Str.chars s) = s.
Proof. apply string_of_list_ascii_of_string. Qed.

Lemma chars_append (a b : string) : Str.chars (a +:+ b) = Str.chars a ++ Str.chars b.
Proof.
  unfold Str.chars. induction a as [|c a IH]; [reflexivity|].
  change (String c a +:+ b) with (String c (a +:+ b)). cbn. now f_equal.
Qed.

Lemma of_chars_app (a b : list ascii) :
  Str.of_chars (a ++ b) = Str.of_chars a +:+ Str.of_chars b.
Proof.
  unfold Str.of_chars. induction a as [|c a IH]; [reflexivity|].
  cbn [string_of_list_ascii app].
  change (String c (string_of_list_ascii a) +:+ string_of_list_ascii b)
    with (String c (string_of_list_ascii a +:+ string_of_list_ascii b)).
  now f_equal.
Qed.

Lemma has_char_false (c : ascii) (s : string) :
  Str.has_char c s = false -> Forall (fun x => Ascii.eqb c x = false) (Str.chars s).
Proof.
  unfold Str.has_char. induction (Str.chars s) as [|x l IH]; intros H; [constructor|].
  cbn in H. apply orb_false_iff in H as [Hx Hl]. constructor; [exact Hx|now apply IH].
Qed.

(** [s.replace('/', '-')] of a string without a separator is the string. *)
Lemma replace_absent (s : string) :
  Str.has_char "/" s = false -> Str.replace "/" "-" s = s.
Proof.
  unfold Str.replace.
  assert (H : forall fuel, Str.has_char "/" s = false ->
                Str.replace_go fuel "/" "-" s = s); [|now apply H].
  induction s as [|c s IH]; intros fuel Hs.
  - destruct fuel; reflexivity.
  - destruct fuel as [|fuel]; [reflexivity|].
    unfold Str.has_char in Hs. cbn in Hs. apply orb_false_iff in Hs as [Hc Hs].
    cbn [Str.replace_go String.prefix].
    destruct (ascii_dec "/" c) as [<-|Hne]; [discriminate|].
    now rewrite (IH fuel Hs).
Qed.

Lemma substring_init (d : string) :
  String.substring 0 (String.length (d +:+ "/") - 1) (d +:+ "/") = d.
Proof.
  induction d as [|c d IH]; [reflexivity|].
  change (String c d +:+ "/") with (String c (d +:+ "/")).
  cbn [String.length].
  replace (S (String.length (d +:+ "/")) - 1)%nat
    with (S (String.length (d +:+ "/") - 1)).
  - cbn [String.substring]. now rewrite IH.
  - assert (1 <= String.length (d +:+ "/"))%nat; [|lia].
    clear IH. induction d as [|c' d IH]; [cbv; lia|].
    change (String c' d +:+ "/") with (String c' (d +:+ "/")). cbn [String.length]. lia.
Qed.

(** The names that end in one of the audio extensions, whatever the case of
    the extension. *)
Lemma matches_audio_extensions (ext : string) (b : list ascii) :
  In (Str.lower ext) ["mp3"; "flac"; "wav"; "m4a"; "aiff"; "ogg"]%string ->
  matches Templater.audio_extensions
    (Pos b ("."%char :: Str.chars ext)) (Pos (rev (Str.chars ext) ++ "."%char :: b) []).
Proof.
  intros Hext.
  assert (Hlit : forall e : string,
             e <> ""%string -> Str.lower ext = e ->
             map Str.lower_char (Str.chars e) = Str.chars e ->
             matches (lit_i e) (Pos ("."%char :: b) (Str.chars ext))
               (Pos (rev (Str.chars ext) ++ "."%char :: b) [])).
  { intros e Hne He Hlow.
    rewrite <- (app_nil_r (Str.chars ext)) at 1. apply matches_lit_i; [exact Hne|].
    rewrite Hlow, <- He. unfold Str.lower. now rewrite chars_of_chars. }
  unfold Templater.audio_extensions.
  eapply matches_cat; [now constructor|].
  eapply matches_cat; [|now constructor].
  constructor.
  destruct Hext as [H|[H|[H|[H|[H|[H|[]]]]]]]; symmetry in H.
  - apply matches_alt_l. now apply Hlit.
  - apply matches_alt_r, matches_alt_l. now apply Hlit.
  - do 2 apply matches_alt_r. apply matches_alt_l. now apply Hlit.
  - do 3 apply matches_alt_r. apply matches_alt_l. now apply Hlit.
  - do 4 apply matches_alt_r. apply matches_alt_l. now apply Hlit.
  - do 5 apply matches_alt_r. now apply Hlit.
Qed.

Lemma no_newline_dot (s : string) :
  Str.has_char "010" s = false ->
  Forall (fun c => negb (Ascii.eqb c "010") = true) (Str.chars s).
Proof.
  intros H. eapply Forall_impl; [exact (has_char_false _ _ H)|].
  intros c Hc. cbn beta in Hc. apply Ascii.eqb_neq in Hc.
  apply negb_true_iff, Ascii.eqb_neq. congruence.
Qed.

(** The match of the pattern of [_sanitize_file_path] on a path whose last
    segment is an audio file name: group 1 is everything up to the last
    separator, group 2 the file name. *)
Lemma match_at_audio_path (directory stem ext : string) :
  let name := stem +:+ "." +:+ ext in
  Str.has_char "010" directory = false ->
  Str.has_char "010" name = false ->
  Str.has_char "/" name = false ->
  In (Str.lower ext) ["mp3"; "flac"; "wav"; "m4a"; "aiff"; "ogg"]%string ->
  exists m,
    match_at Templater.pattern (Pos [] (Str.chars (directory +:+ "/" +:+ name))) = Some m
    /\ group 1 m = directory +:+ "/"
    /\ group 2 m = name.
Proof.
  intros name Hd Hn Hslash Hext.
  assert (Hchars : Str.chars (directory +:+ "/" +:+ name)
                   = Str.chars directory ++ "/"%char :: Str.chars name)
    by now rewrite chars_append.
  assert (Hname : Str.chars name = Str.chars stem ++ "."%char :: Str.chars ext)
    by (unfold name; now rewrite chars_append).
  rewrite Hchars.
  set (D := Str.chars directory) in *. set (N := Str.chars name) in *.
  set (p0 := Pos [] (D ++ "/"%char :: N)).
  set (q1 := Pos ("/"%char :: rev D ++ []) N).
  set (kf := fun (q : pos) (caps : captures) => Some (Match p0 q caps)).
  set (G2 := Grp 2 (Cat (Star dot) Templater.audio_extensions)).
  set (c1 := <[1%nat := between p0 q1]> (∅ : captures)).
  assert (Hdot_n : Forall (fun c => negb (Ascii.eqb c "010") = true) N)
    by now apply no_newline_dot.
  assert (HG2 : is_Some (run G2 q1 c1 kf)).
  { eapply (run_complete G2 q1
              (Pos (rev (Str.chars ext) ++ "."%char :: rev (Str.chars stem)
                      ++ "/"%char :: rev D ++ []) []));
      [|intros caps; unfold kf; eauto].
    unfold G2, q1. rewrite Hname. constructor. eapply matches_cat.
    - apply matches_star_cls. rewrite Hname in Hdot_n.
      now apply Forall_app in Hdot_n as [? _].
    - now apply matches_audio_extensions. }
  destruct HG2 as [x Hx]. exists x. split; [|].
  - unfold match_at, Templater.pattern. fold p0 kf.
    rewrite run_cat, run_grp, run_cat, run_star. unfold dot.
    apply (star_cls_last _ _ _ _ ("/"%char :: N) D []).
    + now apply no_newline_dot.
    + reflexivity.
    + unfold chr. rewrite run_cls_cons. exact Hx.
    + intros u' v' Hv Hne. destruct u' as [|c u']; [congruence|].
      injection Hv as <- HN.
      apply has_char_false in Hslash. fold N in Hslash. rewrite HN in Hslash.
      apply Forall_app in Hslash as [_ Hv'].
      destruct v' as [|c v']; [reflexivity|].
      inversion Hv' as [|? ? Hc _]; subst.
      unfold chr. now rewrite run_cls_cons, Hc.
  - unfold G2 in Hx. rewrite run_grp in Hx.
    apply run_frame in Hx as (q' & c' & Hm & Hk & Hf).
    unfold kf in Hk. injection Hk as <-.
    assert (Hend : after q' = []).
    { destruct (matches_span _ _ _ Hm) as (w & Ha & _). cbn [q1 after] in Ha.
      inversion Hm as [| |? ? ? q2 ? _ Hae| | | | | | |]; subst.
      unfold Templater.audio_extensions in Hae.
      inversion Hae as [| |? ? ? q3 ? _ Hae'| | | | | | |]; subst.
      inversion Hae' as [| |? ? ? q4 ? _ Heol| | | | | | |]; subst.
      inversion Heol as [| | | | | | | |? He|]; subst.
      unfold at_eol in He. destruct (after q') as [|c [|c2 rest]]; try discriminate;
        [reflexivity|].
      rewrite Ha in Hdot_n. apply Forall_app in Hdot_n as [_ Hc].
      inversion Hc as [|? ? Hc' _]; subst. now rewrite He in Hc'. }
    unfold group. cbn [m_groups]. split.
    + rewrite lookup_insert_ne by discriminate.
      rewrite Hf.
      * unfold c1. rewrite lookup_insert_eq. cbn [default].
        unfold between, p0, q1. cbn [after].
        rewrite length_app. cbn [length].
        replace (length D + S (length N) - length N)%nat with (length (D ++ ["/"%char]))
          by (rewrite length_app; cbn; lia).
        replace (D ++ "/"%char :: N) with ((D ++ ["/"%char]) ++ N)
          by now rewrite <- app_assoc.
        rewrite firstn_app, firstn_all, Nat.sub_diag, firstn_0, app_nil_r.
        rewrite of_chars_app. unfold D. now rewrite of_chars_chars.
      * cbn. intros Hin. inversion Hin as [|? ? ? Hin']; subst. inversion Hin'.
    + rewrite lookup_insert_eq. cbn [default]. unfold between. rewrite Hend.
      cbn [q1 after length]. rewrite Nat.sub_0_r, firstn_all.
      unfold N. apply of_chars_chars.
Qed.

(** X14.  What [_sanitize_file_path] hands to the sanitizer for an audio file: the
    path itself.  Every separator before the file name stays a directory
    separator.  (When nothing precedes the separator, the file name alone is
    handed over: the root is dropped.) *)
Theorem audio_path_keeps_its_directories (directory stem ext : string) :
  let name := stem +:+ "." +:+ ext in
  Str.has_char "010" directory = false ->
  Str.has_char "010" name = false ->
  Str.has_char "/" name = false ->
  In (Str.lower ext) ["mp3"; "flac"; "wav"; "m4a"; "aiff"; "ogg"]%string ->
  Templater._sanitize_file_path platform_system sanitize_filepath
    (directory +:+ "/" +:+ name)
  = Path.of_string
      (sanitize_filepath
         (if String.eqb directory "" then name else directory +:+ "/" +:+ name)
         (default platform_system (Templater.PLATFORMS !! platform_system))).
Proof.
  intros name Hd Hn Hslash Hext.
  destruct (match_at_audio_path directory stem ext Hd Hn Hslash Hext)
    as (m & Hm & H1 & H2).
  fold name in Hm, H1, H2.
  unfold Templater._sanitize_file_path. do 2 f_equal.
  unfold Templater.sanitized_path, search.
  assert (Hs : forall fuel,
             search_from Templater.pattern fuel
               (Pos [] (Str.chars (directory +:+ "/" +:+ name))) = Some m)
    by (intros [|fuel]; cbn [search_from]; now rewrite Hm).
  rewrite Hs, H1, H2, substring_init, (replace_absent name Hslash).
  now destruct (String.eqb directory "").
Qed.

Lemma separators_append (a b : string) :
  separators (a +:+ b) = (separators a + separators b)%nat.
Proof. unfold separators. now rewrite chars_append, count_occ_app. Qed.

Lemma separators_absent (s : string) :
  Str.has_char "/" s = false -> separators s = 0%nat.
Proof.
  intros H. apply has_char_false in H. unfold separators.
  induction H as [|c l Hc _ IH]; [reflexivity|].
  cbn [count_occ]. destruct (ascii_dec c "/") as [->|_]; [discriminate|exact IH].
Qed.

Lemma separators_of_uint (u : Decimal.uint) :
  separators (NilEmpty.string_of_uint u) = 0%nat.
Proof. induction u; cbn; try reflexivity; exact IHu. Qed.

Lemma separators_of_int (n : Z) : separators (Str.of_int n) = 0%nat.
Proof.
  unfold Str.of_int. destruct (Z.to_int n) as [u|u]; cbn [NilZero.string_of_int].
  - destruct u; try reflexivity; apply separators_of_uint.
  - change (separators (String "-" (NilZero.string_of_uint u)))
      with (separators (NilZero.string_of_uint u)).
    destruct u; try reflexivity; apply separators_of_uint.
Qed.

Lemma separators_format_02d (n : Z) : separators (Str.format_02d n) = 0%nat.
Proof.
  unfold Str.format_02d. destruct (_ && _); [|apply separators_of_int].
  rewrite separators_append. now rewrite separators_of_int.
Qed.

Lemma sanitize_context_str (context : gmap string value) (key text : string) :
  Templater.sanitize_context context !! key = Some (VStr text) ->
  exists s, context !! key = Some (VStr s)
            /\ text = if Str.has_char "/" s then Str.replace "/" "-" s else s.
Proof.
  unfold Templater.sanitize_context. rewrite lookup_fmap.
  destruct (context !! key) as [[s|n]|]; cbn; intros H; try discriminate.
  exists s. split; [reflexivity|]. destruct (Str.has_char "/" s); now injection H as <-.
Qed.

Lemma sanitize_context_str_clean (context : gmap string value) (key text : string) :
  Templater.sanitize_context context !! key = Some (VStr text) ->
  separators text = 0%nat.
Proof.
  intros H. apply sanitize_context_str in H as (s & _ & ->).
  apply separators_absent.
  destruct (Str.has_char "/" s) eqn:Hs; [apply replace_slash_no_slash|exact Hs].
Qed.

(** X15.  In the context that [move_file] renders from, no [str] value has a
    separator, and the values that had none are the caller's. *)
Theorem sanitized_context_has_no_separator (context : gmap string value)
    (key text : string) :
  Templater.sanitize_context context !! key = Some (VStr text) ->
  Str.has_char "/" text = false
  /\ exists s, context !! key = Some (VStr s)
               /\ (Str.has_char "/" s = false -> text = s).
Proof.
  intros H. apply sanitize_context_str in H as (s & Hs & ->).
  split.
  - destruct (Str.has_char "/" s) eqn:Hc; [apply replace_slash_no_slash|exact Hc].
  - exists s. split; [exact Hs|]. now intros ->.
Qed.

(** The separators of a rendered name are those written in the template:
    a value of the context never adds a directory level. *)
Theorem rendered_separators_come_from_template (output : list piece)
    (context : gmap string value) (rendered : string) :
  Templater.format output (Templater.sanitize_context context) = Ok rendered ->
  separators rendered = template_separators output.
Proof.
  revert rendered. induction output as [|pc output IH]; intros rendered H.
  - injection H as <-. reflexivity.
  - cbn [Templater.format] in H.
    destruct (Templater.format output _) as [rest|e] eqn:Hrest.
    + specialize (IH rest eq_refl).
      change (template_separators (pc :: output))
        with (match pc with Lit text => separators text | _ => 0 end
              + template_separators output)%nat.
      rewrite <- IH.
      destruct pc as [text|key|key].
      * injection H as <-. apply separators_append.
      * destruct (_ !! key) as [[s|n]|] eqn:Hkey; try discriminate;
          injection H as <-; rewrite separators_append.
        -- now rewrite (sanitize_context_str_clean _ _ _ Hkey).
        -- now rewrite separators_of_int.
      * destruct (_ !! key) as [[s|n]|] eqn:Hkey; try discriminate;
          injection H as <-; rewrite separators_append.
        now rewrite separators_format_02d.
    + destruct pc as [text|key|key]; [discriminate| |];
        destruct (_ !! key) as [[s|n]|]; discriminate.
Qed.

End TemplaterMore.

(** ** The further properties at sample inputs *)


Lemma matched_track_is_listed_sample :
  let one := Metadata.Track (Some 1) (Some "Intro") None in
  let seven := Metadata.Track (Some 7) (Some "Seven") None in
  Metadata._find_matching_track "music/07 - Intro.flac" [one; seven] = Some seven
  /\ In seven [one; seven].
Proof.
  cbv zeta.
  assert (H : Metadata._find_matching_track "music/07 - Intro.flac"
                [Metadata.Track (Some 1) (Some "Intro") None;
                 Metadata.Track (Some 7) (Some "Seven") None]
              = Some (Metadata.Track (Some 7) (Some "Seven") None))
    by (vm_compute; reflexivity).
  split; [exact H|]. exact (matched_track_is_listed _ _ _ H).
Defined.

Lemma free_download_accounts_for_every_format_sample :
  let run := Sample.free_download_loop Sample.offered "music" "album"
               ["flac"; "aac-hi"; "wav"] ["music/earlier.zip"] initial in
  run = (Ok ["music/earlier.zip"; "music/tmp1"], run.2)
  /\ exists new errors,
       ["music/earlier.zip"; "music/tmp1"] = ["music/earlier.zip"] ++ new
       /\ log run.2 = log initial ++ errors
       /\ Forall (fun m => is_error m = true) errors
       /\ (length new + length errors = 3)%nat.
Proof.
  cbv zeta.
  assert (H : Sample.free_download_loop Sample.offered "music" "album"
                ["flac"; "aac-hi"; "wav"] ["music/earlier.zip"] initial
              = (Ok ["music/earlier.zip"; "music/tmp1"],
                 (Sample.free_download_loop Sample.offered "music" "album"
                    ["flac"; "aac-hi"; "wav"] ["music/earlier.zip"] initial).2))
    by (vm_compute; reflexivity).
  split; [exact H|].
  exact (free_download_accounts_for_every_format Sample.stat_answer
           Resolver.simple_urlparse Resolver.simple_geturl Sample.written
           Sample.random_name Sample.offered "music" "album" ["flac"; "aac-hi"; "wav"]
           ["music/earlier.zip"] ["music/earlier.zip"; "music/tmp1"] initial _ H).
Defined.

Lemma free_download_nothing_offered_sample :
  let page := "https://bandcamp.com/download?id=42" in
  Sample.fetch_page page = Ok page
  /\ Forall (fun fmt => Sample.offered !! fmt = None) ["aac-hi"; "vorbis"]
  /\ Strategy._free_download string Sample.fetch_page Sample.stat_answer
       (fun _ => Ok Sample.offered) Resolver.simple_urlparse Resolver.simple_geturl
       Sample.written Sample.random_name page "music" "album" ["aac-hi"; "vorbis"] initial
     = (Ok [],
        State ∅
          [Msg Error "aac-hi download not found"; Msg Error "vorbis download not found"]
          [Get page]).
Proof.
  cbv zeta.
  assert (H : Forall (fun fmt => Sample.offered !! fmt = None) ["aac-hi"; "vorbis"])
    by (repeat constructor).
  split; [reflexivity|]. split; [exact H|].
  exact (free_download_nothing_offered string Sample.fetch_page Sample.stat_answer
           (fun _ => Ok Sample.offered) Resolver.simple_urlparse Resolver.simple_geturl
           Sample.written Sample.random_name "https://bandcamp.com/download?id=42"
           "music" "album" ["aac-hi"; "vorbis"] initial
           "https://bandcamp.com/download?id=42" Sample.offered eq_refl eq_refl H).
Defined.

Lemma fallback_only_downloads_sample :
  let run := Strategy.fallback_loop Sample.written Sample.demo_tracks
               "Example Artist" "Demo" None "music" [] initial in
  run = (run.1, run.2)
  /\ urls run.2 = urls initial
  /\ log run.2 = log initial
  /\ exists fetched,
       trace run.2 = trace initial ++ fetched
       /\ Forall (fun e => is_download e = true) fetched
       /\ (length fetched <= length Sample.demo_tracks)%nat
       /\ forall result, run.1 = Ok result ->
            exists new, result = [] ++ new /\ length new = length fetched.
Proof.
  cbv zeta.
  assert (H : forall run : outcome (list string) * state, run = (run.1, run.2))
    by (intros []; reflexivity).
  split; [apply H|].
  exact (fallback_only_downloads Sample.written Sample.demo_tracks
           "Example Artist" "Demo" None "music" [] initial _ _ (H _)).
Defined.

Lemma release_page_http_error_is_reported_sample :
  Sample.failing_fetch 404 Sample.release_url = Raise (HTTPError 404)
  /\ Strategy.download_from_url unit (Sample.failing_fetch 404) (fun _ _ => Ok tt)
       (fun _ => true) (fun _ => "") Sample.stat_answer
       (fun _ => Ok (Sample.demo_album None false)) (fun _ => Ok Sample.offered)
       Resolver.simple_urlparse Resolver.simple_geturl Sample.written Sample.random_name
       "mailbox@1secmail.com" Sample.inbox Sample.href true Sample.unpacked Sample.children
       "Linux" Sample.unchanged Sample.audio_suffixes Sample.track_context
       Sample.nothing_to_write Sample.no_cover
       Sample.release_url "music" Sample.output Sample.output_extra ["flac"] initial
     = (Ok tt,
        State ∅
          [Msg Info "Searching available downloads for URL https://examplelabel.bandcamp.com/album/demo";
           Msg Error "https://examplelabel.bandcamp.com/album/demo not found"]
          [Get "https://examplelabel.bandcamp.com/album/demo"]).
Proof.
  split; [reflexivity|].
  exact (release_page_http_error_is_reported unit (Sample.failing_fetch 404)
           (fun _ _ => Ok tt) (fun _ => true) (fun _ => "") Sample.stat_answer
           (fun _ => Ok (Sample.demo_album None false)) (fun _ => Ok Sample.offered)
           Resolver.simple_urlparse Resolver.simple_geturl Sample.written Sample.random_name
           "mailbox@1secmail.com" Sample.inbox Sample.href true Sample.unpacked
           Sample.children "Linux" Sample.unchanged Sample.audio_suffixes
           Sample.track_context Sample.nothing_to_write Sample.no_cover
           Sample.release_url "music" Sample.output Sample.output_extra ["flac"] initial
           404 eq_refl).
Defined.

Lemma fallback_strategy_fetches_previews_once_sample :
  let music_data := Sample.demo_album None false in
  Strategy.truthy (Strategy.freeDownloadPage music_data) = false
  /\ Strategy.require_email music_data = false
  /\ Sample.download_from_url music_data true ["flac"] initial
     = bind (Sample.download_fallback_mp3 Sample.demo_tracks "Example Artist" "Demo" None
               "music")
            (Strategy.place_files Sample.unpacked Sample.children "Linux" Sample.unchanged
               Sample.audio_suffixes Sample.track_context Sample.nothing_to_write
               Sample.no_cover Sample.release_url "music" Sample.output Sample.output_extra
               (Strategy.tracks_of Sample.demo_tracks) "Example Artist" "Demo" "2020" None)
            (State ∅
               [Msg Info "Searching available downloads for URL https://examplelabel.bandcamp.com/album/demo";
                Msg Success "MP3-128 download found! Downloading Example Artist - Demo"]
               [Get "https://examplelabel.bandcamp.com/album/demo"]).
Proof.
  cbv zeta. split; [reflexivity|]. split; [reflexivity|].
  exact (fallback_strategy_fetches_previews_once string Sample.fetch_page Sample.post_form
           (fun _ => true) (fun r => r) Sample.stat_answer
           (fun _ => Ok (Sample.demo_album None false)) (fun _ => Ok Sample.offered)
           Resolver.simple_urlparse Resolver.simple_geturl Sample.written
           Sample.random_name "mailbox@1secmail.com" Sample.inbox Sample.href true
           Sample.unpacked Sample.children "Linux" Sample.unchanged Sample.audio_suffixes
           Sample.track_context Sample.nothing_to_write Sample.no_cover
           Sample.release_url "music" Sample.output Sample.output_extra ["flac"] initial
           Sample.release_url (Sample.demo_album None false)
           "01" "Jan" "2020" ["00:00:00"; "GMT"]
           eq_refl eq_refl eq_refl eq_refl eq_refl (or_introl eq_refl)).
Defined.

Lemma free_page_has_priority_sample :
  let music_data := Sample.demo_album (Some "https://bandcamp.com/download?id=42") true in
  Strategy.truthy (Strategy.freeDownloadPage music_data) = true
  /\ ("mp3-128" ∉ ["flac"])
  /\ Sample.download_from_url music_data false ["flac"] initial
     = bind (Strategy._free_download string Sample.fetch_page Sample.stat_answer
               (fun _ => Ok Sample.offered) Resolver.simple_urlparse Resolver.simple_geturl
               Sample.written Sample.random_name
               "https://bandcamp.com/download?id=42" "music" "album"
               (elements (list_to_set ["flac"] : gset string)))
            (Strategy.place_files Sample.unpacked Sample.children "Linux" Sample.unchanged
               Sample.audio_suffixes Sample.track_context Sample.nothing_to_write
               Sample.no_cover Sample.release_url "music" Sample.output Sample.output_extra
               (Strategy.tracks_of Sample.demo_tracks) "Example Artist" "Demo" "2020" None)
            (State ∅
               [Msg Info "Searching available downloads for URL https://examplelabel.bandcamp.com/album/demo";
                Msg Success "Free download found! Downloading Example Artist - Demo"]
               [Get "https://examplelabel.bandcamp.com/album/demo"]).
Proof.
  cbv zeta.
  assert (Hmp3 : "mp3-128" ∉ ["flac"]).
  { rewrite list_elem_of_singleton. discriminate. }
  split; [reflexivity|]. split; [exact Hmp3|].
  exact (free_page_has_priority string Sample.fetch_page Sample.post_form
           (fun _ => true) (fun r => r) Sample.stat_answer
           (fun _ => Ok (Sample.demo_album (Some "https://bandcamp.com/download?id=42") true))
           (fun _ => Ok Sample.offered)
           Resolver.simple_urlparse Resolver.simple_geturl Sample.written
           Sample.random_name "mailbox@1secmail.com" Sample.inbox Sample.href false
           Sample.unpacked Sample.children "Linux" Sample.unchanged Sample.audio_suffixes
           Sample.track_context Sample.nothing_to_write Sample.no_cover
           Sample.release_url "music" Sample.output Sample.output_extra ["flac"] initial
           Sample.release_url
           (Sample.demo_album (Some "https://bandcamp.com/download?id=42") true)
           "01" "Jan" "2020" ["00:00:00"; "GMT"]
           eq_refl eq_refl eq_refl eq_refl Hmp3).
Defined.


Lemma audio_path_keeps_its_directories_sample :
  Str.has_char "010" "music/AC-DC/Demo" = false
  /\ Str.has_char "/" "01 Thunder.FLAC" = false
  /\ In (Str.lower "FLAC") ["mp3"; "flac"; "wav"; "m4a"; "aiff"; "ogg"]
  /\ Templater._sanitize_file_path "Linux" Sample.unchanged
       "music/AC-DC/Demo/01 Thunder.FLAC"
     = Path.of_string (Sample.unchanged "music/AC-DC/Demo/01 Thunder.FLAC" "Linux").
Proof.
  assert (Hext : In (Str.lower "FLAC") ["mp3"; "flac"; "wav"; "m4a"; "aiff"; "ogg"])
    by (right; left; reflexivity).
  split; [reflexivity|]. split; [reflexivity|]. split; [exact Hext|].
  exact (audio_path_keeps_its_directories "Linux" Sample.unchanged
           "music/AC-DC/Demo" "01 Thunder" "FLAC" eq_refl eq_refl eq_refl Hext).
Defined.

Lemma sanitized_context_has_no_separator_sample :
  Templater.sanitize_context Sample.slash_context !! "artist" = Some (VStr "AC-DC")
  /\ Str.has_char "/" "AC-DC" = false
  /\ exists s, Sample.slash_context !! "artist" = Some (VStr s)
               /\ (Str.has_char "/" s = false -> "AC-DC" = s).
Proof.
  assert (H : Templater.sanitize_context Sample.slash_context !! "artist"
              = Some (VStr "AC-DC")) by (vm_compute; reflexivity).
  split; [exact H|].
  exact (sanitized_context_has_no_separator Sample.slash_context "artist" "AC-DC" H).
Defined.

(** ** Metadata Extractor, the page *)

Section ExtractorFacts.

Import Re.


Lemma length_chars (s : string) : length (Str.chars s) = String.length s.
Proof. induction s as [|c s IH]; [reflexivity|]. cbn. now rewrite <- IH. Qed.

Lemma match_at_cls (f : ascii -> bool) (b a : list ascii) :
  match_at (Cls f) (Pos b a)
  = match a with
    | c :: rest => if f c then Some (Match (Pos b a) (Pos (c :: b) rest) ∅) else None
    | [] => None
    end.
Proof. destruct a; reflexivity. Qed.

Lemma search_cls_none (f : ascii -> bool) (a : list ascii) :
  Forall (fun c => f c = false) a ->
  forall b fuel, search_from (Cls f) fuel (Pos b a) = None.
Proof.
  induction 1 as [|c a Hc _ IH]; intros b fuel.
  - destruct fuel; reflexivity.
  - destruct fuel as [|fuel]; cbn [search_from]; rewrite match_at_cls, Hc;
      cbn [after before]; [reflexivity|apply IH].
Qed.

Lemma search_cls_found (f : ascii -> bool) (c : ascii) (rest pre : list ascii) :
  Forall (fun c => f c = false) pre ->
  f c = true ->
  forall b fuel,
    (length pre <= fuel)%nat ->
    search_from (Cls f) fuel (Pos b (pre ++ c :: rest))
    = Some (Match (Pos (rev pre ++ b) (c :: rest)) (Pos (c :: rev pre ++ b) rest) ∅).
Proof.
  intros Hpre Hc. induction Hpre as [|x pre Hx _ IH]; intros b fuel Hfuel.
  - destruct fuel; cbn [search_from app]; now rewrite match_at_cls, Hc.
  - destruct fuel as [|fuel]; [cbn in Hfuel; lia|].
    cbn [search_from app]. rewrite match_at_cls, Hx. cbn [after before].
    rewrite IH by (cbn in Hfuel; lia). cbn [rev]. now rewrite <- app_assoc.
Qed.

Lemma split_first (f : ascii -> bool) (a : list ascii) :
  Forall (fun c => f c = false) a
  \/ exists pre c rest, a = pre ++ c :: rest
                        /\ Forall (fun c => f c = false) pre /\ f c = true.
Proof.
  induction a as [|x a IH]; [left; constructor|].
  destruct (f x) eqn:Hx.
  - right. exists [], x, a. split; [reflexivity|]. split; [constructor|exact Hx].
  - destruct IH as [IH|(pre & c & rest & -> & Hpre & Hc)].
    + left. now constructor.
    + right. exists (x :: pre), c, rest.
      split; [reflexivity|]. split; [now constructor|exact Hc].
Qed.

(** [re.sub] with the empty replacement, for a class of characters: what is
    left is the characters outside the class. *)
Lemma sub_cls_filter (f : ascii -> bool) (n : nat) :
  forall (a b : list ascii) (fuel : nat),
    (length a <= n)%nat -> (length a < fuel)%nat ->
    sub_from (Cls f) "" fuel (Pos b a)
    = Str.of_chars (List.filter (fun c => negb (f c)) a).
Proof.
  induction n as [|n IH]; intros a b fuel Hn Hfuel;
    (destruct fuel as [|fuel]; [lia|]); cbn [sub_from after].
  - destruct a; [|cbn in Hn; lia]. now rewrite search_cls_none by constructor.
  - destruct (split_first f a) as [Hall|(pre & c & rest & -> & Hpre & Hc)].
    + rewrite search_cls_none by exact Hall. f_equal.
      clear -Hall. induction Hall as [|x a Hx _ IHa]; [reflexivity|].
      cbn. rewrite Hx. cbn. now f_equal.
    + rewrite search_cls_found by (try assumption; rewrite length_app; lia).
      cbn [m_start m_end]. unfold between. cbn [after].
      rewrite length_app in *. cbn [length] in *.
      replace (length pre + S (length rest) - S (length rest))%nat with (length pre)
        by lia.
      rewrite firstn_app, firstn_all, Nat.sub_diag, firstn_0, app_nil_r.
      rewrite IH by lia.
      rewrite List.filter_app. cbn [List.filter]. rewrite Hc. cbn [negb].
      rewrite of_chars_app. f_equal.
      clear -Hpre. induction Hpre as [|x a Hx _ IHa]; [reflexivity|].
      cbn. rewrite Hx. cbn. now f_equal.
Qed.

Lemma sub_non_digit (s : string) :
  sub Extractor.non_digit "" s = Str.of_chars (List.filter Str.is_digit (Str.chars s)).
Proof.
  unfold sub, Extractor.non_digit.
  rewrite (sub_cls_filter _ (String.length s)) by (rewrite length_chars; lia).
  f_equal. apply List.filter_ext. intros c. apply negb_involutive.
Qed.

Lemma space_is_no_digit (c : ascii) : Str.is_space c = true -> Str.is_digit c = false.
Proof.
  destruct c as [[|] [|] [|] [|] [|] [|] [|] [|]]; vm_compute; congruence.
Qed.

Lemma filter_lstrip (l : list ascii) :
  List.filter Str.is_digit (Str.lstrip_chars Str.is_space l) = List.filter Str.is_digit l.
Proof.
  induction l as [|c l IH]; [reflexivity|]. cbn [Str.lstrip_chars].
  destruct (Str.is_space c) eqn:Hc; [|reflexivity].
  cbn [List.filter]. now rewrite (space_is_no_digit c Hc).
Qed.

Lemma digits_of_strip (s : string) :
  List.filter Str.is_digit (Str.chars (Str.strip s)) = List.filter Str.is_digit (Str.chars s).
Proof.
  unfold Str.strip, Str.strip_with.
  rewrite chars_of_chars, List.filter_rev, filter_lstrip, List.filter_rev, filter_lstrip.
  apply rev_involutive.
Qed.

(** What [_extract_tracks] makes of a row: a track when the row has a number
    cell with at least one digit and a title cell; its number is the integer
    written by the digits of the cell, whatever stands between and around
    them. *)
Lemma row_track_some (r : Extractor.row) (t : Metadata.track) :
  Extractor.row_track r = Some t ->
  exists text title_text,
    Extractor.track_number_text r = Some text
    /\ Extractor.track_title_text r = Some title_text
    /\ List.filter Str.is_digit (Str.chars text) <> []
    /\ t = Metadata.Track
             (Some (Str.int (Str.of_chars (List.filter Str.is_digit (Str.chars text)))))
             (Some (Str.strip title_text))
             (Str.strip <$> Extractor.time_text r).
Proof.
  unfold Extractor.row_track.
  destruct (Extractor.track_number_text r) as [text|]; [|discriminate].
  rewrite sub_non_digit, digits_of_strip.
  destruct (List.filter Str.is_digit (Str.chars text)) as [|d ds] eqn:Hd; [discriminate|].
  cbn [Str.of_chars string_of_list_ascii String.eqb negb].
  destruct (Extractor.track_title_text r) as [title_text|]; [|discriminate].
  cbn [fmap option_fmap option_map]. intros [= <-].
  exists text, title_text. rewrite Hd. repeat split. discriminate.
Qed.


(** X17.  Every track that [_extract_tracks] returns comes from a row of the
    track table that has a number cell with a digit in it and a title cell:
    its number is the integer that the digits of the cell write, its title
    the stripped text of the title cell. *)
Theorem extracted_track_comes_from_a_row (s : Extractor.soup) (t : Metadata.track) :
  In t (Extractor._extract_tracks s) ->
  exists rows r text title_text,
    Extractor.track_table s = Some rows
    /\ In r rows
    /\ Extractor.track_number_text r = Some text
    /\ Extractor.track_title_text r = Some title_text
    /\ List.filter Str.is_digit (Str.chars text) <> []
    /\ Metadata.number t
       = Some (Str.int (Str.of_chars (List.filter Str.is_digit (Str.chars text))))
    /\ Metadata.title t = Some (Str.strip title_text)
    /\ Metadata.duration t = (Str.strip <$> Extractor.time_text r).
Proof.
  unfold Extractor._extract_tracks.
  destruct (Extractor.track_table s) as [rows|]; [|intros []].
  intros Ht. apply list_elem_of_In, list_elem_of_omap in Ht as (r & Hr & Ht).
  apply row_track_some in Ht as (text & title_text & Hn & Htitle & Hd & ->).
  exists rows, r, text, title_text.
  split; [reflexivity|]. split; [now apply list_elem_of_In|].
  split; [exact Hn|]. split; [exact Htitle|]. split; [exact Hd|].
  split; [reflexivity|]. split; reflexivity.
Qed.

(** X18.  An [h3] without a link whose text is [by], blanks and a name: the artist
    is the name. *)
Theorem artist_heading_loses_by (s : Extractor.soup) (text : string)
    (blanks name : list ascii) :
  Extractor.first_h3 s = Some (Extractor.Heading None text) ->
  Str.chars (Str.strip text) = "b"%char :: "y"%char :: blanks ++ name ->
  blanks <> [] ->
  Forall (fun c => Str.is_space c = true) blanks ->
  match name with c :: _ => Str.is_space c = false | [] => True end ->
  Extractor._extract_artist_name s = Some (Str.of_chars name).
Proof.
  intros Hh Htext Hne Hblanks Hname.
  unfold Extractor._extract_artist_name. rewrite Hh. cbn [Extractor.link_text
    Extractor.heading_text]. f_equal.
  unfold Extractor.without_by. rewrite Htext.
  destruct blanks as [|x blanks]; [congruence|].
  inversion Hblanks as [|? ? Hx Hrest]; subst.
  unfold match_at, Extractor.by_prefix.
  change (lit "by") with (Cat (chr "b") (chr "y")). unfold Plus, chr, space.
  rewrite !run_cat, run_cls_cons. cbn [Ascii.eqb Bool.eqb andb].
  rewrite run_cls_cons. cbn [Ascii.eqb Bool.eqb andb].
  change ((x :: blanks) ++ name) with (x :: blanks ++ name).
  cbn beta. rewrite run_cat, run_cls_cons, Hx. cbn beta. rewrite run_star. cbn [after].
  erewrite star_cls_greedy; cycle 1.
  - exact Hrest.
  - destruct name; [exact I|exact Hname].
  - reflexivity.
  - reflexivity.
  - reflexivity.
Qed.

Section Extraction.

Context (response : Type)
        (session_get : string -> outcome response)
        (parse : response -> Extractor.soup)
        (str_of_exception : exn -> string).

Lemma first_text_not_empty (found : list (option string)) (text : string) :
  Extractor.first_text found = Some text -> text <> "".
Proof.
  unfold Extractor.first_text. intros H.
  apply first_result_some in H as (elem & _ & H).
  destruct elem as [raw|]; [|discriminate].
  destruct (String.eqb_spec (Str.strip raw) ""); [discriminate|].
  cbn in H. now injection H as <-.
Qed.



End Extraction.

End ExtractorFacts.

(** ** After placement *)

Section FinisherFacts.

Context (suffix_to_metadata : list string)
        (write_metadata_to_file : string -> value -> outcome bool)
        (str_of_exception : exn -> string).

Abbreviation write_each := (Finisher.write_each write_metadata_to_file str_of_exception).
Abbreviation _write_metadata_to_files :=
  (Finisher._write_metadata_to_files suffix_to_metadata write_metadata_to_file
     str_of_exception).

(** The line printed for a file at which the writer raises. *)
Abbreviation complaint bandcamp_url :=
  (fun file_path : string =>
     match write_metadata_to_file file_path bandcamp_url with
     | Raise e =>
       [Msg Error ("Error writing metadata to " +:+ file_path +:+ ": "
                     +:+ str_of_exception e)]
     | Ok _ => []
     end).




End FinisherFacts.

Section CoverFacts.

Context (content : Type)
        (session_get : string -> outcome content)
        (open_wb : string -> outcome unit)
        (str_of_exception : exn -> string).

Abbreviation _download_cover_image :=
  (Finisher._download_cover_image content session_get open_wb str_of_exception).

(** X23.  [_download_cover_image] never overwrites: every file that was on the
    disk is still there with its bytes, the only path that can change is
    [cover.png] beside the first file moved, and at most one request is
    made. *)
Theorem cover_never_overwrites (art_url : option string) (moved_files : list string)
    (sh : Finisher.shelf content) :
  let sh' := _download_cover_image art_url moved_files sh in
  (forall p image, Finisher.files content sh !! p = Some image ->
                   Finisher.files content sh' !! p = Some image)
  /\ (forall p, Finisher.files content sh' !! p <> Finisher.files content sh !! p ->
                exists first more,
                  moved_files = first :: more
                  /\ p = Path.div (Path.parent first) "cover.png")
  /\ (length (Finisher.asked content sh') <= S (length (Finisher.asked content sh)))%nat.
Proof.
  cbv zeta. unfold Finisher._download_cover_image.
  destruct moved_files as [|first more]; [now repeat split; try lia|].
  destruct (negb (Strategy.truthy art_url)); [now repeat split; try lia|].
  set (cover_path := Path.div (Path.parent first) "cover.png").
  destruct (bool_decide (is_Some (Finisher.files content sh !! cover_path))) eqn:Hthere;
    [now repeat split; cbn; try lia|].
  apply bool_decide_eq_false_1 in Hthere.
  assert (Hlen : forall u : string,
             (length (Finisher.asked content sh ++ [u])
              <= S (length (Finisher.asked content sh)))%nat)
    by (intros u; rewrite length_app; cbn; lia).
  destruct (session_get _) as [image|e]; [|now repeat split; cbn; try apply Hlen].
  destruct (open_wb _) as [[]|e]; [|now repeat split; cbn; try apply Hlen].
  cbn [Finisher.tell Finisher.files Finisher.asked Finisher.lines].
  split; [|split; [|apply Hlen]].
  - intros p image' Hp. destruct (decide (p = cover_path)) as [->|Hne].
    + exfalso. apply Hthere. rewrite Hp. eauto.
    + now rewrite lookup_insert_ne by congruence.
  - intros p Hp. exists first, more. split; [reflexivity|].
    destruct (decide (p = cover_path)) as [->|Hne]; [reflexivity|].
    now rewrite lookup_insert_ne in Hp by congruence.
Qed.

(** X24.  The cover is downloaded once: after a call for which the request and
    the opening of the file succeed, [cover.png] is beside the first file
    moved, and a second call changes no file and makes no request. *)
Theorem cover_is_downloaded_once (art_url first : string) (more : list string)
    (image : content) (sh : Finisher.shelf content) :
  let cover_path := Path.div (Path.parent first) "cover.png" in
  let once := _download_cover_image (Some art_url) (first :: more) sh in
  let twice := _download_cover_image (Some art_url) (first :: more) once in
  art_url <> "" ->
  session_get art_url = Ok image ->
  open_wb cover_path = Ok tt ->
  is_Some (Finisher.files content once !! cover_path)
  /\ Finisher.files content twice = Finisher.files content once
  /\ Finisher.asked content twice = Finisher.asked content once.
Proof.
  cbv zeta. intros Hart Hget Hopen.
  assert (Htruthy : negb (Strategy.truthy (Some art_url)) = false).
  { cbn. now destruct (String.eqb_spec art_url ""). }
  assert (Hthere : is_Some (Finisher.files content
                              (_download_cover_image (Some art_url) (first :: more) sh)
                            !! Path.div (Path.parent first) "cover.png")).
  { unfold Finisher._download_cover_image. rewrite Htruthy.
    destruct (bool_decide _) eqn:Hb; [now apply bool_decide_eq_true_1 in Hb|].
    cbv zeta. cbn [default Finisher.tell Finisher.files Finisher.lines Finisher.asked].
    unfold id. rewrite Hget, Hopen. cbn [Finisher.tell Finisher.files].
    rewrite lookup_insert_eq. eauto. }
  split; [exact Hthere|].
  set (once := _download_cover_image (Some art_url) (first :: more) sh) in *.
  unfold Finisher._download_cover_image. rewrite Htruthy.
  rewrite bool_decide_eq_true_2 by exact Hthere. split; reflexivity.
Qed.

End CoverFacts.

(** ** Metadata Writer *)

Section WriterFacts.

Context (response : Type)
        (session_get : string -> outcome response)
        (parse : response -> Extractor.soup)
        (str_of_exception : exn -> string)
        (suffix_to_metadata : list string)
        (get_track_metadata : string -> outcome (option Writer.handler)).

Abbreviation extract_album_metadata :=
  (Extractor.extract_album_metadata response session_get parse str_of_exception).
Abbreviation write_metadata_to_file :=
  (Writer.write_metadata_to_file response session_get parse str_of_exception
     suffix_to_metadata get_track_metadata).

Lemma in_optional {A} (c : bool) (x y : A) : In y (if c then [x] else []) -> c = true /\ y = x.
Proof. destruct c; [intros [<-|[]]; now split|intros []]. Qed.

(** The tags that [write_metadata_to_file] assigns are attributes of the
    handler and come from the metadata: artist, album and year are those of
    the album, title and number those of the track that the matcher chose
    among the tracks of the album; an empty title and the number 0 are not
    assigned. *)
Lemma assignments_come_from_the_metadata (file_path : string)
    (track_metadata : Writer.handler) (md : Extractor.album_metadata)
    (field : string) (v : value) :
  In (field, v)
     (Writer.assignments track_metadata md
        (Metadata._find_matching_track file_path (Extractor.tracks md))) ->
  Writer.hasattr track_metadata field = true
  /\ ((field = "artist" /\ v = VStr (Extractor.artist md))
      \/ (field = "album" /\ v = VStr (Extractor.album md))
      \/ (field = "year" /\ exists y, Extractor.year md = Some y /\ v = VStr y)
      \/ exists t, In t (Extractor.tracks md)
                   /\ ((field = "title"
                        /\ exists title, Metadata.title t = Some title /\ title <> ""
                                         /\ v = VStr title)
                       \/ (field = "track_number"
                           /\ exists n, Metadata.number t = Some n /\ n <> 0
                                        /\ v = VInt n))).
Proof.
  unfold Writer.assignments. rewrite !in_app_iff.
  intros [H|[H|[H|H]]].
  - apply in_optional in H as [Hc [= -> ->]]. apply andb_true_iff in Hc as [Hc _]. auto.
  - apply in_optional in H as [Hc [= -> ->]]. apply andb_true_iff in Hc as [Hc _]. auto.
  - apply in_optional in H as [Hc [= -> ->]]. apply andb_true_iff in Hc as [Hc Hy].
    split; [exact Hc|]. right. right. left. split; [reflexivity|].
    destruct (Extractor.year md) as [y|]; [|discriminate]. eauto.
  - destruct (Metadata._find_matching_track _ _) as [t|] eqn:Ht; [|destruct H].
    assert (Hin : In t (Extractor.tracks md)).
    { unfold Metadata._find_matching_track in Ht.
      destruct (Extractor.tracks md) as [|t0 ts]; [discriminate|].
      apply or_else_some in Ht as [Ht|Ht].
      - destruct (Metadata.file_track_num _); [|discriminate].
        now apply find_some in Ht as [Ht _].
      - apply or_else_some in Ht as [Ht|Ht].
        + now apply find_some in Ht as [Ht _].
        + destruct ts; [|discriminate]. injection Ht as <-. now left. }
    destruct (Writer.has_key t); [|destruct H].
    apply in_app_iff in H as [H|H].
    + apply in_optional in H as [Hc [= -> ->]]. apply andb_true_iff in Hc as [Hc Ht'].
      split; [exact Hc|]. do 3 right. exists t. split; [exact Hin|]. left.
      split; [reflexivity|].
      destruct (Metadata.title t) as [title|]; [|discriminate].
      exists title. split; [reflexivity|]. split; [|reflexivity].
      cbn in Ht'. now destruct (String.eqb_spec title "").
    + destruct (Metadata.number t) as [n|] eqn:Hn; [|destruct H].
      apply in_optional in H as [Hc [= -> ->]]. apply andb_true_iff in Hc as [Hc Hn'].
      split; [exact Hc|]. do 3 right. exists t. split; [exact Hin|]. right.
      split; [reflexivity|]. exists n. split; [exact Hn|]. split; [|reflexivity].
      apply negb_true_iff, Z.eqb_neq in Hn'. exact Hn'.
Qed.

(** X20.  [write_metadata_to_file] answers [True] exactly when it has saved the
    tags; then the file has a supported suffix, the page gave metadata, and
    every tag saved is an attribute of the handler that comes from that
    metadata, title and number from a track of the album. *)
Theorem saved_tags_come_from_the_page (file_path bandcamp_url : string)
    (rep : Writer.report) :
  write_metadata_to_file file_path bandcamp_url = Ok rep ->
  (Writer.returned rep = true <-> is_Some (Writer.saved rep))
  /\ forall tags, Writer.saved rep = Some tags ->
       Path.suffix file_path ∈ suffix_to_metadata
       /\ exists md lines track_metadata,
            extract_album_metadata bandcamp_url = Ok (Some md, lines)
            /\ get_track_metadata file_path = Ok (Some track_metadata)
            /\ Writer.save track_metadata tags = Ok tt
            /\ forall field v, In (field, v) tags ->
                 Writer.hasattr track_metadata field = true
                 /\ ((field = "artist" /\ v = VStr (Extractor.artist md))
                     \/ (field = "album" /\ v = VStr (Extractor.album md))
                     \/ (field = "year"
                         /\ exists y, Extractor.year md = Some y /\ v = VStr y)
                     \/ exists t, In t (Extractor.tracks md)
                                  /\ ((field = "title"
                                       /\ exists title, Metadata.title t = Some title
                                                        /\ title <> "" /\ v = VStr title)
                                      \/ (field = "track_number"
                                          /\ exists n, Metadata.number t = Some n
                                                       /\ n <> 0 /\ v = VInt n))).
Proof.
  unfold Writer.write_metadata_to_file.
  assert (Hno : forall lines,
             (Writer.returned (Writer.Report false lines None) = true
              <-> is_Some (Writer.saved (Writer.Report false lines None)))
             /\ forall tags, Writer.saved (Writer.Report false lines None) = Some tags ->
                             False).
  { intros lines. split; [|discriminate]. cbn. split; [discriminate|].
    intros [? [=]]. }
  assert (Hfalse : forall lines rep',
             Ok (Writer.Report false lines None) = Ok rep' ->
             (Writer.returned rep' = true <-> is_Some (Writer.saved rep'))
             /\ forall tags, Writer.saved rep' = Some tags -> False).
  { intros lines rep' [= <-]. apply Hno. }
  destruct (bool_decide (Path.suffix file_path ∈ suffix_to_metadata)) eqn:Hsuffix.
  2:{ cbn [negb]. intros H. apply Hfalse in H as [H1 H2].
      split; [exact H1|]. intros tags Ht. destruct (H2 tags Ht). }
  cbn [negb]. apply bool_decide_eq_true_1 in Hsuffix.
  destruct (extract_album_metadata bandcamp_url) as [[[md|] lines]|e] eqn:Hmd;
    [| |discriminate].
  2:{ intros H. apply Hfalse in H as [H1 H2].
      split; [exact H1|]. intros tags Ht. destruct (H2 tags Ht). }
  destruct (get_track_metadata file_path) as [[track_metadata|]|e] eqn:Hh.
  2,3: intros H; apply Hfalse in H as [H1 H2];
       (split; [exact H1|]); intros tags Ht; destruct (H2 tags Ht).
  destruct (Writer.save track_metadata _) as [[]|e] eqn:Hsave.
  2:{ intros H. apply Hfalse in H as [H1 H2].
      split; [exact H1|]. intros tags Ht. destruct (H2 tags Ht). }
  intros [= <-]. cbn [Writer.returned Writer.saved]. split; [split; eauto|].
  intros tags [= <-]. split; [exact Hsuffix|].
  exists md, lines, track_metadata.
  split; [reflexivity|]. split; [reflexivity|]. split; [exact Hsave|].
  intros field v. apply assignments_come_from_the_metadata.
Qed.

End WriterFacts.

(** ** The properties of the metadata pipeline at sample inputs *)

Lemma extracted_track_comes_from_a_row_sample :
  let t := Metadata.Track (Some 3) (Some "Outro") None in
  In t (Extractor._extract_tracks Sample.album_page)
  /\ exists rows r text title_text,
       Extractor.track_table Sample.album_page = Some rows
       /\ In r rows
       /\ Extractor.track_number_text r = Some text
       /\ Extractor.track_title_text r = Some title_text
       /\ List.filter Str.is_digit (Str.chars text) <> []
       /\ Metadata.number t
          = Some (Str.int (Str.of_chars (List.filter Str.is_digit (Str.chars text))))
       /\ Metadata.title t = Some (Str.strip title_text)
       /\ Metadata.duration t = (Str.strip <$> Extractor.time_text r).
Proof.
  cbv zeta.
  assert (H : In (Metadata.Track (Some 3) (Some "Outro") None)
                (Extractor._extract_tracks Sample.album_page))
    by (vm_compute; right; left; reflexivity).
  split; [exact H|].
  exact (extracted_track_comes_from_a_row Sample.album_page _ H).
Defined.

Lemma artist_heading_loses_by_sample :
  Extractor.first_h3 Sample.album_page
    = Some (Extractor.Heading None " by  Example Artist ")
  /\ Str.chars (Str.strip " by  Example Artist ")
     = ("b" :: "y" :: [" "; " "] ++ Str.chars "Example Artist")%char
  /\ Extractor._extract_artist_name Sample.album_page = Some "Example Artist".
Proof.
  split; [reflexivity|]. split; [vm_compute; reflexivity|].
  refine (artist_heading_loses_by Sample.album_page " by  Example Artist "
            [" "; " "]%char (Str.chars "Example Artist") eq_refl _ _ _ _).
  - vm_compute. reflexivity.
  - discriminate.
  - repeat constructor.
  - reflexivity.
Defined.


Lemma saved_tags_come_from_the_page_sample :
  let rep :=
    Writer.Report true ["Successfully wrote metadata to music/Example Artist/Demo/03 Outro.flac"]
      (Some [("artist", VStr "Example Artist"); ("album", VStr "Demo");
             ("title", VStr "Outro"); ("track_number", VInt 3)]) in
  Sample.write_metadata_to_file "music/Example Artist/Demo/03 Outro.flac" Sample.release_url
    = Ok rep
  /\ (Writer.returned rep = true <-> is_Some (Writer.saved rep))
  /\ Path.suffix "music/Example Artist/Demo/03 Outro.flac" ∈ Sample.audio_suffixes.
Proof.
  cbv zeta.
  assert (H : Sample.write_metadata_to_file "music/Example Artist/Demo/03 Outro.flac"
                Sample.release_url
              = Ok (Writer.Report true
                      ["Successfully wrote metadata to music/Example Artist/Demo/03 Outro.flac"]
                      (Some [("artist", VStr "Example Artist"); ("album", VStr "Demo");
                             ("title", VStr "Outro"); ("track_number", VInt 3)])))
    by (vm_compute; reflexivity).
  split; [exact H|].
  pose proof (saved_tags_come_from_the_page Extractor.soup Sample.get_page
                (fun soup => soup) Sample.describe Sample.audio_suffixes
                (fun _ => Ok (Some Sample.tag_handler))
                "music/Example Artist/Demo/03 Outro.flac" Sample.release_url _ H)
    as [Hiff Hsaved].
  split; [exact Hiff|]. exact (proj1 (Hsaved _ eq_refl)).
Defined.


Lemma cover_is_downloaded_once_sample :
  let art_url := "https://f4.bcbits.com/img/a1.png" in
  let moved_files := ["music/Example Artist/Demo/01 Intro.flac"] in
  let once :=
    Sample._download_cover_image (Some art_url) moved_files (Finisher.Shelf string ∅ [] []) in
  let twice := Sample._download_cover_image (Some art_url) moved_files once in
  art_url <> ""
  /\ is_Some (Finisher.files string once !! "music/Example Artist/Demo/cover.png")
  /\ Finisher.files string twice = Finisher.files string once
  /\ Finisher.asked string twice = Finisher.asked string once.
Proof.
  cbv zeta.
  assert (Hart : "https://f4.bcbits.com/img/a1.png" <> "") by discriminate.
  split; [exact Hart|].
  exact (cover_is_downloaded_once string (fun _ => Ok "PNG") (fun _ => Ok tt)
           Sample.describe "https://f4.bcbits.com/img/a1.png"
           "music/Example Artist/Demo/01 Intro.flac" [] "PNG"
           (Finisher.Shelf string ∅ [] []) Hart eq_refl eq_refl).
Defined.

Lemma unreachable_releases_do_not_abort_batch_sample :
  let collected : gset string :=
    {[ Sample.release_url; "https://examplelabel.bandcamp.com/album/other" ]} in
  let st := State collected [] [] in
  (forall url, url ∈ urls st -> Sample.failing_fetch 404 url = Raise (HTTPError 404))
  /\ Strategy.download_all unit (Sample.failing_fetch 404) (fun _ _ => Ok tt)
       (fun _ => true) (fun _ => "") Sample.stat_answer
       (fun _ => Ok (Sample.demo_album None false)) (fun _ => Ok Sample.offered)
       Resolver.simple_urlparse Resolver.simple_geturl Sample.written Sample.random_name
       "mailbox@1secmail.com" Sample.inbox Sample.href true Sample.unpacked Sample.children
       "Linux" Sample.unchanged Sample.audio_suffixes Sample.track_context
       Sample.nothing_to_write Sample.no_cover "music" Sample.output Sample.output_extra
       ["flac"] st
     = (Ok tt,
        State collected
          (flat_map
             (fun url =>
                [Msg Info ("Searching available downloads for URL " +:+ url);
                 Msg Error (url +:+ " not found")])
             (elements collected))
          (map Get (elements collected))).
Proof.
  cbv zeta.
  assert (Hf : forall url,
             url ∈ urls (State {[ Sample.release_url;
                                  "https://examplelabel.bandcamp.com/album/other" ]} [] []) ->
             Sample.failing_fetch 404 url = Raise (HTTPError 404))
    by reflexivity.
  split; [exact Hf|].
  exact (unreachable_releases_do_not_abort_batch unit (Sample.failing_fetch 404)
           (fun _ _ => Ok tt) (fun _ => true) (fun _ => "") Sample.stat_answer
           (fun _ => Ok (Sample.demo_album None false)) (fun _ => Ok Sample.offered)
           Resolver.simple_urlparse Resolver.simple_geturl Sample.written Sample.random_name
           "mailbox@1secmail.com" Sample.inbox Sample.href true Sample.unpacked
           Sample.children "Linux" Sample.unchanged Sample.audio_suffixes
           Sample.track_context Sample.nothing_to_write Sample.no_cover "music"
           Sample.output Sample.output_extra ["flac"]
           (State {[ Sample.release_url;
                     "https://examplelabel.bandcamp.com/album/other" ]} [] [])
           (fun _ => 404) Hf).
Defined.

(** ** Placement of the files fetched *)

Section PlacementFacts.

Context (is_dir : string -> bool)
        (iterdir : string -> list string)
        (platform_system : string)
        (sanitize_filepath : string -> string -> string)
        (suffix_to_metadata : list string)
        (get_track_output_context : string -> gmap (option Z) string -> gmap string value)
        (_write_metadata_to_files : list string -> option value -> M unit)
        (_download_cover_image : option string -> list string -> M unit)
        (destination : string)
        (output output_extra : list piece)
        (tracks : gmap (option Z) string).

Abbreviation move_file :=
  (Templater.move_file platform_system sanitize_filepath suffix_to_metadata
     get_track_output_context).
Abbreviation place :=
  (Strategy.place platform_system sanitize_filepath suffix_to_metadata
     get_track_output_context destination output output_extra tracks).
Abbreviation place_children :=
  (Strategy.place_children platform_system sanitize_filepath suffix_to_metadata
     get_track_output_context destination output output_extra tracks).
Abbreviation place_all :=
  (Strategy.place_all is_dir iterdir platform_system sanitize_filepath suffix_to_metadata
     get_track_output_context destination output output_extra tracks).

(** What one placement adds to the trace and to the files moved so far. *)
Abbreviation placed_after loc st evs loc' st' :=
  (urls st' = urls st
   /\ trace st' = trace st ++ evs
   /\ Strategy.loc_moved_files loc' = Strategy.loc_moved_files loc ++ move_targets evs).

Lemma move_file_effects (file_path : string) (context : gmap string value)
    (st st' : state) (move_to : string) (context' : gmap string value) :
  move_file file_path destination output output_extra tracks context st
    = (Ok (move_to, context'), st') ->
  st' = State (urls st) (log st)
          (trace st ++ [Mkdir (Path.parent move_to); Move file_path move_to]).
Proof.
  unfold Templater.move_file.
  destruct (bool_decide _); unfold bind, lift;
    (destruct (Templater.format _ _) as [formatted|e]; [|discriminate]);
    cbn; intros [= <- _ <-]; now rewrite <- app_assoc.
Qed.

Lemma place_effects (file_path : string) (loc : Strategy.placing) (st st' : state)
    (new_path : string) (loc' : Strategy.placing) :
  place file_path loc st = (Ok (new_path, loc'), st') ->
  st' = State (urls st) (log st)
          (trace st ++ [Mkdir (Path.parent new_path); Move file_path new_path])
  /\ Strategy.loc_moved_files loc' = Strategy.loc_moved_files loc ++ [new_path]
  /\ Strategy.loc_new_path loc' = Some new_path.
Proof.
  unfold Strategy.place, Strategy.move_file, bind.
  destruct (move_file file_path destination output output_extra tracks
              (Strategy.loc_context loc) st) as [[[move_to context']|e] st1] eqn:Hm;
    cbn; [|discriminate].
  intros [= <- <- <-]. apply move_file_effects in Hm. cbn. auto.
Qed.

Lemma place_children_moves (children : list string) :
  forall (loc loc' : Strategy.placing) (st st' : state),
    place_children children loc st = (Ok loc', st') ->
    exists evs,
      placed_after loc st evs loc' st'
      /\ move_sources evs = children
      /\ (children <> [] -> is_Some (Strategy.loc_new_path loc')).
Proof.
  induction children as [|track_path rest IH]; intros loc loc' st st' H.
  - injection H as <- <-. exists []. rewrite !app_nil_r. repeat split; congruence.
  - cbn [Strategy.place_children] in H. unfold bind at 1 in H.
    destruct (place track_path loc st) as [[[new_path loc1]|e] st1] eqn:Hp;
      [|discriminate].
    apply place_effects in Hp as (-> & Hmoved & Hnew).
    unfold bind at 1 in H. rewrite scream_says in H. cbn [fst snd] in H.
    destruct rest as [|next rest].
    + injection H as <- <-.
      exists [Mkdir (Path.parent new_path); Move track_path new_path].
      cbn. rewrite Hmoved, Hnew. repeat split; eauto.
    + apply IH in H as (evs & (Hurls & Htrace & Hfiles) & Hsources & Hlast).
      exists ([Mkdir (Path.parent new_path); Move track_path new_path] ++ evs).
      cbn [says urls trace log] in Hurls, Htrace.
      split; [split; [exact Hurls|split]|split].
      * now rewrite Htrace, <- app_assoc.
      * rewrite Hfiles, Hmoved. unfold move_targets. rewrite flat_map_app.
        cbn. now rewrite <- app_assoc.
      * unfold move_sources in *. rewrite flat_map_app. cbn. now rewrite Hsources.
      * intros _. apply Hlast. discriminate.
Qed.

(** X25.  Every file fetched is moved exactly once, in order, an unpacked
    directory through its files; and the list kept for the metadata writer
    and the cover is the list of the targets of those moves. *)
Theorem every_file_is_moved_once (file_paths : list string) :
  forall (loc loc' : Strategy.placing) (st st' : state),
    place_all file_paths loc st = (Ok loc', st') ->
    exists evs,
      placed_after loc st evs loc' st'
      /\ move_sources evs
         = flat_map (fun file_path => if is_dir file_path then iterdir file_path
                                      else [file_path]) file_paths.
Proof.
  induction file_paths as [|file_path rest IH]; intros loc loc' st st' H.
  - injection H as <- <-. exists []. rewrite !app_nil_r. repeat split.
  - cbn [Strategy.place_all flat_map] in H |- *.
    destruct (is_dir file_path).
    + unfold bind at 1 in H.
      destruct (place_children (iterdir file_path) loc st) as [[loc1|e] st1] eqn:Hc;
        [|discriminate].
      apply place_children_moves in Hc as (evs1 & (Hu1 & Ht1 & Hf1) & Hs1 & _).
      destruct (Strategy.loc_new_path loc1) as [np|]; [|discriminate].
      unfold bind at 1 in H. rewrite scream_says in H.
      unfold bind at 1 in H. rewrite emit_records in H.
      apply IH in H as (evs & (Hu & Ht & Hf) & Hs).
      cbn [says records urls trace log] in Hu, Ht.
      exists (evs1 ++ [Rmdir file_path] ++ evs).
      split; [split; [congruence|split]|].
      * rewrite Ht, Ht1. now rewrite <- !app_assoc.
      * rewrite Hf, Hf1. unfold move_targets. rewrite !flat_map_app. cbn.
        now rewrite <- app_assoc.
      * unfold move_sources in *. rewrite !flat_map_app. cbn. now rewrite Hs1, Hs.
    + unfold bind at 1 in H.
      destruct (place file_path loc st) as [[[new_path loc1]|e] st1] eqn:Hp;
        [|discriminate].
      apply place_effects in Hp as (-> & Hmoved & _).
      unfold bind at 1 in H. rewrite scream_says in H. cbn [fst snd] in H.
      apply IH in H as (evs & (Hu & Ht & Hf) & Hs).
      cbn [says urls trace log] in Hu, Ht.
      exists ([Mkdir (Path.parent new_path); Move file_path new_path] ++ evs).
      split; [split; [exact Hu|split]|].
      * now rewrite Ht, <- app_assoc.
      * rewrite Hf, Hmoved. unfold move_targets. rewrite flat_map_app. cbn.
        now rewrite <- app_assoc.
      * unfold move_sources in *. rewrite flat_map_app. cbn. now rewrite Hs.
Qed.

(** X26.  An archive that unpacks to no file, when it is the first thing to
    place: the line that announces the new directory reads a variable that
    no move has set, and the placement ends with [UnboundLocalError] before
    anything is moved, printed or written. *)
Theorem empty_archive_first_is_an_error (url artist album year : string)
    (art_url : option string) (file_path : string) (rest : list string) (st : state) :
  is_dir file_path = true ->
  iterdir file_path = [] ->
  Strategy.place_files is_dir iterdir platform_system sanitize_filepath suffix_to_metadata
    get_track_output_context _write_metadata_to_files _download_cover_image
    url destination output output_extra tracks artist album year art_url
    (file_path :: rest) st
  = (Raise (UnboundLocalError "new_path"), st).
Proof.
  intros Hdir Hempty. unfold Strategy.place_files. cbv zeta.
  cbn [Strategy.place_all]. rewrite Hdir, Hempty. reflexivity.
Qed.

End PlacementFacts.

Lemma every_file_is_moved_once_sample :
  let run :=
    Strategy.place_all Sample.unpacked Sample.children "Linux" Sample.unchanged
      Sample.audio_suffixes Sample.track_context "music" Sample.output Sample.output_extra ∅
      ["music/tmp1"; "music/Example Artist - Demo - 03 Outro.mp3"]
      (Strategy.Placing Sample.release_context None []) initial in
  let moved :=
    ["music/Example Artist/Demo/01 Example Artist - Demo - 01 Intro.flac";
     "music-Example Artist-Demo-cover.jpg";
     "music/Example Artist/Demo/01 Example Artist - Demo - 03 Outro.mp3"] in
  (exists loc', run = (Ok loc', run.2) /\ Strategy.loc_moved_files loc' = moved)
  /\ move_sources (trace run.2)
     = ["music/tmp1/Example Artist - Demo - 01 Intro.flac"; "music/tmp1/cover.jpg";
        "music/Example Artist - Demo - 03 Outro.mp3"]
  /\ move_targets (trace run.2) = moved.
Proof.
  cbv zeta.
  destruct (Strategy.place_all Sample.unpacked Sample.children "Linux" Sample.unchanged
              Sample.audio_suffixes Sample.track_context "music" Sample.output
              Sample.output_extra ∅
              ["music/tmp1"; "music/Example Artist - Demo - 03 Outro.mp3"]
              (Strategy.Placing Sample.release_context None []) initial)
    as [[loc'|e] st'] eqn:Hrun; [|vm_compute in Hrun; discriminate Hrun].
  destruct (every_file_is_moved_once Sample.unpacked Sample.children "Linux"
              Sample.unchanged Sample.audio_suffixes Sample.track_context "music"
              Sample.output Sample.output_extra ∅ _ _ _ _ _ Hrun)
    as (evs & (_ & Htrace & Hfiles) & Hsources).
  cbn [trace initial app snd] in Htrace |- *. subst evs.
  assert (Hmoved : Strategy.loc_moved_files loc'
                   = ["music/Example Artist/Demo/01 Example Artist - Demo - 01 Intro.flac";
                      "music-Example Artist-Demo-cover.jpg";
                      "music/Example Artist/Demo/01 Example Artist - Demo - 03 Outro.mp3"])
    by (vm_compute in Hrun; now injection Hrun as <- _).
  split; [exists loc'; split; [reflexivity|exact Hmoved]|].
  split; [rewrite Hsources; reflexivity|].
  rewrite <- Hmoved. exact (eq_sym Hfiles).
Defined.

Lemma empty_archive_first_is_an_error_sample :
  Sample.unpacked "music/tmp1" = true
  /\ Strategy.place_files Sample.unpacked (fun _ => []) "Linux" Sample.unchanged
       Sample.audio_suffixes Sample.track_context Sample.nothing_to_write Sample.no_cover
       Sample.release_url "music" Sample.output Sample.output_extra ∅
       "Example Artist" "Demo" "2020" None ["music/tmp1"; "music/Outro.mp3"] initial
     = (Raise (UnboundLocalError "new_path"), initial).
Proof.
  split; [reflexivity|].
  exact (empty_archive_first_is_an_error Sample.unpacked (fun _ => []) "Linux"
           Sample.unchanged Sample.audio_suffixes Sample.track_context
           Sample.nothing_to_write Sample.no_cover "music" Sample.output Sample.output_extra
           ∅ Sample.release_url "Example Artist" "Demo" "2020" None "music/tmp1"
           ["music/Outro.mp3"] initial eq_refl eq_refl).
Defined.
